(** * The milter protocol core of rspamd (src/libserver/milter.c)

    A shallow embedding of the framing parser, the command dispatcher,
    the session reset, the reply builder and the verdict translator of
    [milter.c], with the properties the design document states about
    them.

    Conventions.
    - A byte is an [ascii]; a buffer is a list of bytes.  C integers are
      [Z]; where the source narrows a value (a [guint32] on the wire)
      the narrowing is written out.
    - Pointers into the parser buffer are offsets from [buf->str].
    - Where the C text leaves the behaviour undefined (a read of a byte
      that was never stored in the buffer, arithmetic on a NULL
      pointer), the embedded function returns [None].
    - Host callbacks ([err_cb], [fin_cb]) are recorded in a call log;
      what the host does inside them is outside this file.
    - Hash tables are finite maps over the key the table compares by. *)

From Stdlib Require Import ZArith Ascii String Lia.
From stdpp Require Import base option list gmap strings.

Open Scope Z_scope.

Abbreviation bytes := (list ascii).

(** ** Bytes and network byte order *)

Definition NUL : ascii := "000"%char.

Definition Z_of_byte (c : ascii) : Z := Z.of_N (N_of_ascii c).

(** Storing an integer into one [guchar]: the low eight bits. *)
Definition byte_of_Z (z : Z) : ascii := ascii_of_N (Z.to_N (Z.land z 255)).

(** A C string literal, as bytes. *)
Definition cstr (s : string) : bytes := list_ascii_of_string s.

(** [htonl] followed by [memcpy] of the four bytes of a [guint32]. *)
Definition htonl_bytes (v : Z) : bytes :=
  [byte_of_Z (Z.shiftr v 24); byte_of_Z (Z.shiftr v 16);
   byte_of_Z (Z.shiftr v 8); byte_of_Z v].

(** [memcpy] of four bytes followed by [ntohl]. *)
Definition ntohl_bytes (b0 b1 b2 b3 : ascii) : Z :=
  Z.lor (Z.lor (Z.lor (Z.shiftl (Z_of_byte b0) 24) (Z.shiftl (Z_of_byte b1) 16))
               (Z.shiftl (Z_of_byte b2) 8))
        (Z_of_byte b3).

(** [memcpy] of two bytes followed by [ntohs]. *)
Definition ntohs_bytes (b0 b1 : ascii) : Z :=
  Z.lor (Z.shiftl (Z_of_byte b0) 8) (Z_of_byte b1).

Arguments htonl_bytes : simpl never.
Arguments ntohl_bytes : simpl never.
Arguments ntohs_bytes : simpl never.
Arguments byte_of_Z : simpl never.
Arguments Z_of_byte : simpl never.

(** ** Reading the parser buffer

    [buf->str] is modelled by the bytes stored in it so far.  A read at
    an offset where nothing was ever stored has no defined value. *)

(** [*(m + i)] *)
Definition byte_at (m : bytes) (i : Z) : option ascii :=
  if bool_decide (0 <= i) then m !! Z.to_nat i else None.

(** The [n] bytes at [m + i], as [memcpy] or an append reads them. *)
Definition bytes_at (m : bytes) (i n : Z) : option bytes :=
  if bool_decide (0 <= i ∧ 0 <= n ∧ i + n <= Z.of_nat (length m))
  then Some (take (Z.to_nat n) (drop (Z.to_nat i) m))
  else None.

Fixpoint memchr_scan (l : bytes) (i : Z) (n : nat) {struct n}
    : option (option Z) :=
  match n with
  | O => Some None
  | S n' =>
      match l with
      | [] => None
      | c :: l' =>
          if decide (c = NUL) then Some (Some i) else memchr_scan l' (i + 1) n'
      end
  end.

(** [memchr (m + i, '\0', n)]: the offset of the first NUL among the [n]
    bytes at [i], [Some None] for the NULL result.  The bytes are read
    in order up to the match. *)
Definition memchr (m : bytes) (i n : Z) : option (option Z) :=
  if bool_decide (0 <= i)
  then memchr_scan (drop (Z.to_nat i) m) i (Z.to_nat n)
  else None.

(** ** Protocol constants *)

(** Modelled from the spec: the command letters of
    [enum rspamd_milter_command] (milter_internal.h is not among the
    sources), as the table of section 6.1 lists them. *)
Inductive rspamd_milter_command :=
| RSPAMD_MILTER_CMD_ABORT | RSPAMD_MILTER_CMD_BODY
| RSPAMD_MILTER_CMD_CONNECT | RSPAMD_MILTER_CMD_MACRO
| RSPAMD_MILTER_CMD_BODYEOB | RSPAMD_MILTER_CMD_HELO
| RSPAMD_MILTER_CMD_QUIT_NC | RSPAMD_MILTER_CMD_HEADER
| RSPAMD_MILTER_CMD_MAIL | RSPAMD_MILTER_CMD_EOH
| RSPAMD_MILTER_CMD_OPTNEG | RSPAMD_MILTER_CMD_QUIT
| RSPAMD_MILTER_CMD_RCPT | RSPAMD_MILTER_CMD_DATA
| RSPAMD_MILTER_CMD_UNKNOWN.

(** Modelled from the spec: the letter of each command, section 6.1. *)
Definition cmd_letter (c : rspamd_milter_command) : ascii :=
  match c with
  | RSPAMD_MILTER_CMD_ABORT => "A" | RSPAMD_MILTER_CMD_BODY => "B"
  | RSPAMD_MILTER_CMD_CONNECT => "C" | RSPAMD_MILTER_CMD_MACRO => "D"
  | RSPAMD_MILTER_CMD_BODYEOB => "E" | RSPAMD_MILTER_CMD_HELO => "H"
  | RSPAMD_MILTER_CMD_QUIT_NC => "K" | RSPAMD_MILTER_CMD_HEADER => "L"
  | RSPAMD_MILTER_CMD_MAIL => "M" | RSPAMD_MILTER_CMD_EOH => "N"
  | RSPAMD_MILTER_CMD_OPTNEG => "O" | RSPAMD_MILTER_CMD_QUIT => "Q"
  | RSPAMD_MILTER_CMD_RCPT => "R" | RSPAMD_MILTER_CMD_DATA => "T"
  | RSPAMD_MILTER_CMD_UNKNOWN => "U"
  end%char.

(** The commands, in the order of the enumeration. *)
Definition all_commands : list rspamd_milter_command :=
  [RSPAMD_MILTER_CMD_ABORT; RSPAMD_MILTER_CMD_BODY; RSPAMD_MILTER_CMD_CONNECT;
   RSPAMD_MILTER_CMD_MACRO; RSPAMD_MILTER_CMD_BODYEOB; RSPAMD_MILTER_CMD_HELO;
   RSPAMD_MILTER_CMD_QUIT_NC; RSPAMD_MILTER_CMD_HEADER; RSPAMD_MILTER_CMD_MAIL;
   RSPAMD_MILTER_CMD_EOH; RSPAMD_MILTER_CMD_OPTNEG; RSPAMD_MILTER_CMD_QUIT;
   RSPAMD_MILTER_CMD_RCPT; RSPAMD_MILTER_CMD_DATA; RSPAMD_MILTER_CMD_UNKNOWN].

(** The [case] label a command byte selects in a [switch], if any. *)
Definition cmd_of_byte (c : ascii) : option rspamd_milter_command :=
  List.find (fun k => bool_decide (cmd_letter k = c)) all_commands.

(** Modelled from the spec: the letters of [enum rspamd_milter_reply]
    (milter.h is not among the sources), as the table of section 6.1
    lists the outbound actions. *)
Inductive rspamd_milter_reply :=
| RSPAMD_MILTER_ADDRCPT | RSPAMD_MILTER_DELRCPT | RSPAMD_MILTER_ACCEPT
| RSPAMD_MILTER_CONTINUE | RSPAMD_MILTER_DISCARD | RSPAMD_MILTER_CHGFROM
| RSPAMD_MILTER_ADDHEADER | RSPAMD_MILTER_CHGHEADER | RSPAMD_MILTER_INSHEADER
| RSPAMD_MILTER_REPLYCODE | RSPAMD_MILTER_REJECT | RSPAMD_MILTER_TEMPFAIL
| RSPAMD_MILTER_PROGRESS | RSPAMD_MILTER_OPTNEG.

(** Modelled from the spec: the letter of each action, section 6.1. *)
Definition reply_letter (r : rspamd_milter_reply) : ascii :=
  match r with
  | RSPAMD_MILTER_ADDRCPT => "+" | RSPAMD_MILTER_DELRCPT => "-"
  | RSPAMD_MILTER_ACCEPT => "a" | RSPAMD_MILTER_CONTINUE => "c"
  | RSPAMD_MILTER_DISCARD => "d" | RSPAMD_MILTER_CHGFROM => "e"
  | RSPAMD_MILTER_ADDHEADER => "h" | RSPAMD_MILTER_CHGHEADER => "m"
  | RSPAMD_MILTER_INSHEADER => "i" | RSPAMD_MILTER_REPLYCODE => "y"
  | RSPAMD_MILTER_REJECT => "r" | RSPAMD_MILTER_TEMPFAIL => "t"
  | RSPAMD_MILTER_PROGRESS => "p" | RSPAMD_MILTER_OPTNEG => "O"
  end%char.

(** Modelled from the spec: the CONNECT family byte [U] of section 6.1
    ([enum rspamd_milter_connect_proto] is not among the sources). *)
Definition RSPAMD_MILTER_CONN_UNKNOWN : ascii := "U".

(** Modelled from the spec: the CONNECT family byte [S] of section 6.1. *)
Definition RSPAMD_MILTER_CONN_UNIX : ascii := "S".

(** Modelled from the spec: the CONNECT family byte [4] of section 6.1. *)
Definition RSPAMD_MILTER_CONN_INET : ascii := "4".

(** Modelled from the spec: the CONNECT family byte [6] of section 6.1. *)
Definition RSPAMD_MILTER_CONN_INET6 : ascii := "6".

(** Modelled from the spec: the reply code [554] of a reject, section
    4.7 (the macro lives in milter.h, not among the sources). *)
Definition RSPAMD_MILTER_RCODE_REJECT : bytes := cstr "554".

(** Modelled from the spec: the enhanced code [5.7.1] of a reject,
    section 4.7. *)
Definition RSPAMD_MILTER_XCODE_REJECT : bytes := cstr "5.7.1".

(** Modelled from the spec: the reply code [451] of a soft reject,
    section 4.7. *)
Definition RSPAMD_MILTER_RCODE_TEMPFAIL : bytes := cstr "451".

(** Modelled from the spec: the enhanced code [4.7.1] of a soft reject,
    section 4.7. *)
Definition RSPAMD_MILTER_XCODE_TEMPFAIL : bytes := cstr "4.7.1".

(** Modelled from the spec: the header name [DKIM-Signature] of section
    4.7. *)
Definition RSPAMD_MILTER_DKIM_HEADER : bytes := cstr "DKIM-Signature".

(** Modelled from the spec: the header name [X-Spam-Action] of section
    4.7. *)
Definition RSPAMD_MILTER_ACTION_HEADER : bytes := cstr "X-Spam-Action".

(** Modelled from the spec: the actions of a verdict, section 4.7
    ([enum rspamd_metric_action] is declared outside the sources), as
    far as the translator switches on them. *)
Inductive rspamd_metric_action :=
| METRIC_ACTION_REJECT | METRIC_ACTION_SOFT_REJECT
| METRIC_ACTION_REWRITE_SUBJECT | METRIC_ACTION_ADD_HEADER
| METRIC_ACTION_GREYLIST | METRIC_ACTION_NOACTION.

(** ** Collaborators outside milter.c

    Constants of headers that are not among the sources, and the
    functions of other modules the code calls. *)
Class Collaborators := {
  (** size of one message chunk; the parser accepts payloads of up to
      twice this size *)
  RSPAMD_MILTER_MESSAGE_CHUNK : Z;
  (** the protocol version the filter speaks, and the least it accepts *)
  RSPAMD_MILTER_PROTO_VER : Z;
  RSPAMD_MILTER_ACTIONS_MASK : Z;
  RSPAMD_MILTER_FLAG_NOREPLY_MASK : Z;
  RSPAMD_MILTER_REJECT_MESSAGE : bytes;
  RSPAMD_MILTER_TEMPFAIL_MESSAGE : bytes;
  (** whether the IP parser accepts a text *)
  rspamd_parse_inet_address_ip : bytes -> bool;
  (** the SMTP address parser; NULL is [None] *)
  rspamd_email_address_from_smtp : bytes -> option bytes;
  (** case-insensitive comparison of two byte ranges, 0 when equal *)
  rspamd_lc_cmp : bytes -> bytes -> Z;
  (** the key the header table files a name under: the table is built on
      [rspamd_strcase_hash] and [rspamd_strcase_equal], and two names are
      one entry exactly when these keys are equal *)
  rspamd_strcase_key : bytes -> bytes;
  (** the same for the macro table ([rspamd_ftok_icase_hash],
      [rspamd_ftok_icase_equal]) *)
  rspamd_ftok_icase_key : bytes -> bytes;
  (** [rspamd_action_from_str] on a string that may be NULL; [None] when
      it returns FALSE *)
  rspamd_action_from_str : option bytes -> option rspamd_metric_action;
  (** the capacity [rspamd_fstring_grow] gives a string of length [len]
      and capacity [allocated] asked to hold [needed] more bytes *)
  rspamd_fstring_suggest_size : Z -> Z -> Z -> Z
}.

(** ** Data model *)

Inductive addr_family := AF_UNIX | AF_INET | AF_INET6.

(** [rspamd_inet_addr_t], as far as the CONNECT handler fills it in:
    [addr_text] is the socket path, or the IP text the parser accepted. *)
Record rspamd_inet_addr_t := {
  af : addr_family;
  addr_text : option bytes;
  addr_port : Z
}.

Inductive errno := EINVAL | E2BIG | ETIMEDOUT | ECONNRESET.

(** A [GError] of the milter quark: the code and the format string. *)
Record GError := { err_code : errno; err_message : string }.

Definition g_error_new (code : errno) (msg : string) : GError :=
  {| err_code := code; err_message := msg |}.

(** An invocation of a host callback. *)
Inductive host_call := err_cb (err : GError) | fin_cb.

Inductive ev_what := EV_READ | EV_WRITE | EV_READ_WRITE.

(** Modelled from the spec: the connection states of section 4.3, under
    the names milter.c uses (the enumeration is declared in
    milter_internal.h, not among the sources). *)
Inductive rspamd_milter_io_state :=
| RSPAMD_MILTER_READ_MORE
| RSPAMD_MILTER_WRITE_REPLY
| RSPAMD_MILTER_WRITE_AND_DIE
| RSPAMD_MILTER_WANNA_DIE.

(** Modelled from the spec: the parser states [LEN1..LEN4], [READ_CMD]
    and [READ_DATA] of section 3, under the names milter.c uses. *)
Inductive rspamd_milter_parser_state :=
| st_len_1 | st_len_2 | st_len_3 | st_len_4 | st_read_cmd | st_read_data.

(** The parser's [rspamd_fstring_t] (declared in the string module), by
    the three fields milter.c uses: [str] holds every byte stored in
    the allocation so far (also beyond [len], where stale bytes of
    earlier reads stay), [len] the bytes in use, [allocated] the
    capacity. *)
Record rspamd_fstring_t := { str : bytes; len : Z; allocated : Z }.

(** An element of the outbound queue: the buffer and the write cursor
    ([obuf->buf], [obuf->pos]). *)
Record rspamd_milter_outbuf := { obuf_buf : bytes; obuf_pos : Z }.

(** Modelled from the spec: the parser state of section 3 (buffer, read
    cursor, state, command byte, remaining payload length and the
    offset where the payload begins), with the field names milter.c
    uses; [state] is [pstate] here. *)
Record rspamd_milter_parser := {
  buf : rspamd_fstring_t;
  pos : Z;
  cmd_start : Z;
  datalen : Z;
  pstate : rspamd_milter_parser_state;
  cur_cmd : ascii
}.

(** [struct rspamd_milter_private] (declared in milter_internal.h), by
    the fields milter.c uses.  [headers] maps the table key of a header
    name to its count; [ev] is the event last planned with
    [rspamd_milter_plan_io]; [calls] logs the host callbacks invoked.
    The reference count, the descriptor, the pool and the timeout are
    left out. *)
Record rspamd_milter_private := {
  parser : rspamd_milter_parser;
  out_chain : list rspamd_milter_outbuf;
  state : rspamd_milter_io_state;
  headers : gmap bytes Z;
  discard_on_reject : bool;
  no_action : bool;
  ev : option ev_what;
  calls : list host_call
}.

(** [struct rspamd_milter_session] (declared in milter.h), by the
    fields milter.c uses; section 3 of the design lists the same.  A
    string field is [None] for a NULL pointer and [Some l] for a string
    holding the bytes [l]; an address is the text the parser took. *)
Record rspamd_milter_session := {
  addr : option rspamd_inet_addr_t;
  hostname : option bytes;
  helo : option bytes;
  from : option bytes;
  rcpts : option (list bytes);
  message : option bytes;
  macros : option (gmap bytes bytes);
  priv : rspamd_milter_private
}.

(** [struct rspamd_milter_context] *)
Record rspamd_milter_context := {
  spam_header : bytes;
  ctx_discard_on_reject : bool
}.

(** *** Field updates *)

Definition set_len (n : Z) (f : rspamd_fstring_t) : rspamd_fstring_t :=
  {| str := str f; len := n; allocated := allocated f |}.

Definition set_buf (b : rspamd_fstring_t) (p : rspamd_milter_parser) :=
  {| buf := b; pos := pos p; cmd_start := cmd_start p; datalen := datalen p;
     pstate := pstate p; cur_cmd := cur_cmd p |}.

Definition set_pos (n : Z) (p : rspamd_milter_parser) :=
  {| buf := buf p; pos := n; cmd_start := cmd_start p; datalen := datalen p;
     pstate := pstate p; cur_cmd := cur_cmd p |}.

Definition set_parser (p : rspamd_milter_parser) (pr : rspamd_milter_private) :=
  {| parser := p; out_chain := out_chain pr; state := state pr;
     headers := headers pr; discard_on_reject := discard_on_reject pr;
     no_action := no_action pr; ev := ev pr; calls := calls pr |}.

Definition set_out_chain (c : list rspamd_milter_outbuf) (pr : rspamd_milter_private) :=
  {| parser := parser pr; out_chain := c; state := state pr;
     headers := headers pr; discard_on_reject := discard_on_reject pr;
     no_action := no_action pr; ev := ev pr; calls := calls pr |}.

Definition set_state (st : rspamd_milter_io_state) (pr : rspamd_milter_private) :=
  {| parser := parser pr; out_chain := out_chain pr; state := st;
     headers := headers pr; discard_on_reject := discard_on_reject pr;
     no_action := no_action pr; ev := ev pr; calls := calls pr |}.

Definition set_headers (h : gmap bytes Z) (pr : rspamd_milter_private) :=
  {| parser := parser pr; out_chain := out_chain pr; state := state pr;
     headers := h; discard_on_reject := discard_on_reject pr;
     no_action := no_action pr; ev := ev pr; calls := calls pr |}.

Definition set_discard_on_reject (b : bool) (pr : rspamd_milter_private) :=
  {| parser := parser pr; out_chain := out_chain pr; state := state pr;
     headers := headers pr; discard_on_reject := b;
     no_action := no_action pr; ev := ev pr; calls := calls pr |}.

Definition set_no_action (b : bool) (pr : rspamd_milter_private) :=
  {| parser := parser pr; out_chain := out_chain pr; state := state pr;
     headers := headers pr; discard_on_reject := discard_on_reject pr;
     no_action := b; ev := ev pr; calls := calls pr |}.

Definition set_ev (w : option ev_what) (pr : rspamd_milter_private) :=
  {| parser := parser pr; out_chain := out_chain pr; state := state pr;
     headers := headers pr; discard_on_reject := discard_on_reject pr;
     no_action := no_action pr; ev := w; calls := calls pr |}.

Definition set_calls (l : list host_call) (pr : rspamd_milter_private) :=
  {| parser := parser pr; out_chain := out_chain pr; state := state pr;
     headers := headers pr; discard_on_reject := discard_on_reject pr;
     no_action := no_action pr; ev := ev pr; calls := l |}.

Definition set_priv (pr : rspamd_milter_private) (s : rspamd_milter_session) :=
  {| addr := addr s; hostname := hostname s; helo := helo s; from := from s;
     rcpts := rcpts s; message := message s; macros := macros s; priv := pr |}.

Definition set_addr (a : option rspamd_inet_addr_t) (s : rspamd_milter_session) :=
  {| addr := a; hostname := hostname s; helo := helo s; from := from s;
     rcpts := rcpts s; message := message s; macros := macros s; priv := priv s |}.

Definition set_hostname (h : option bytes) (s : rspamd_milter_session) :=
  {| addr := addr s; hostname := h; helo := helo s; from := from s;
     rcpts := rcpts s; message := message s; macros := macros s; priv := priv s |}.

Definition set_helo (h : option bytes) (s : rspamd_milter_session) :=
  {| addr := addr s; hostname := hostname s; helo := h; from := from s;
     rcpts := rcpts s; message := message s; macros := macros s; priv := priv s |}.

Definition set_from (f : option bytes) (s : rspamd_milter_session) :=
  {| addr := addr s; hostname := hostname s; helo := helo s; from := f;
     rcpts := rcpts s; message := message s; macros := macros s; priv := priv s |}.

Definition set_rcpts (r : option (list bytes)) (s : rspamd_milter_session) :=
  {| addr := addr s; hostname := hostname s; helo := helo s; from := from s;
     rcpts := r; message := message s; macros := macros s; priv := priv s |}.

Definition set_message (m : option bytes) (s : rspamd_milter_session) :=
  {| addr := addr s; hostname := hostname s; helo := helo s; from := from s;
     rcpts := rcpts s; message := m; macros := macros s; priv := priv s |}.

Definition set_macros (m : option (gmap bytes bytes)) (s : rspamd_milter_session) :=
  {| addr := addr s; hostname := hostname s; helo := helo s; from := from s;
     rcpts := rcpts s; message := message s; macros := m; priv := priv s |}.

(** Apply an update to the private part of a session. *)
Definition on_priv (f : rspamd_milter_private -> rspamd_milter_private)
    (s : rspamd_milter_session) : rspamd_milter_session :=
  set_priv (f (priv s)) s.

(** ** Session reset *)

Definition RSPAMD_MILTER_RESET_COMMON : Z := Z.shiftl 1 0.
Definition RSPAMD_MILTER_RESET_IO : Z := Z.shiftl 1 1.
Definition RSPAMD_MILTER_RESET_ADDR : Z := Z.shiftl 1 2.
Definition RSPAMD_MILTER_RESET_MACRO : Z := Z.shiftl 1 3.
Definition RSPAMD_MILTER_RESET_ALL : Z :=
  Z.lor (Z.lor (Z.lor RSPAMD_MILTER_RESET_COMMON RSPAMD_MILTER_RESET_IO)
               RSPAMD_MILTER_RESET_ADDR) RSPAMD_MILTER_RESET_MACRO.
Definition RSPAMD_MILTER_RESET_QUIT_NC : Z :=
  Z.lor (Z.lor RSPAMD_MILTER_RESET_COMMON RSPAMD_MILTER_RESET_ADDR)
        RSPAMD_MILTER_RESET_MACRO.
Definition RSPAMD_MILTER_RESET_ABORT : Z := RSPAMD_MILTER_RESET_COMMON.

(** [if (f) f->len = 0] *)
Definition fstring_truncate (f : option bytes) : option bytes :=
  match f with
  | Some _ => Some []
  | None => None
  end.

Definition rspamd_milter_session_reset (session : rspamd_milter_session)
    (how : Z) : rspamd_milter_session :=
  let session :=
    if bool_decide (Z.land how RSPAMD_MILTER_RESET_IO ≠ 0) then
      on_priv (fun pr =>
        set_parser (set_buf (set_len 0 (buf (parser pr))) (parser pr))
                   (set_out_chain [] pr)) session
    else session in
  let session :=
    if bool_decide (Z.land how RSPAMD_MILTER_RESET_COMMON ≠ 0) then
      let session := set_message (fstring_truncate (message session)) session in
      let session := set_rcpts None session in
      let session := set_from None session in
      let session := set_helo (fstring_truncate (helo session)) session in
      let session := set_hostname (fstring_truncate (hostname session)) session in
      on_priv (set_headers ∅) session
    else session in
  let session :=
    if bool_decide (Z.land how RSPAMD_MILTER_RESET_ADDR ≠ 0) then
      set_addr None session
    else session in
  if bool_decide (Z.land how RSPAMD_MILTER_RESET_MACRO ≠ 0) then
    set_macros None session
  else session.

(** ** Protocol errors and event planning *)

Definition rspamd_milter_on_protocol_error (session : rspamd_milter_session)
    (err : GError) : rspamd_milter_session :=
  on_priv (fun pr =>
    set_calls (calls pr ++ [err_cb err]) (set_state RSPAMD_MILTER_WANNA_DIE pr))
    session.

Definition rspamd_milter_plan_io (session : rspamd_milter_session)
    (what : ev_what) : rspamd_milter_session :=
  on_priv (set_ev (Some what)) session.

(** ** Reply builder *)

(** The variable arguments of a call of [rspamd_milter_send_action]:
    strings are the [len] bytes of a [GString], which keeps a NUL after
    them. *)
Inductive va_list :=
| va_none
| va_name_value (name value : bytes)
| va_idx_name_value (idx : Z) (name value : bytes)
| va_value (value : bytes)
| va_optneg (ver actions protocol : Z).

Definition blen (l : bytes) : Z := Z.of_nat (length l).

(** [SET_COMMAND]: the length word and the command letter that open a
    reply whose payload takes [sz] bytes. *)
Definition SET_COMMAND (cmd : ascii) (sz : Z) : bytes :=
  htonl_bytes (sz + 1) ++ [cmd].

(** The buffer [rspamd_milter_send_action] fills for an action, [None]
    when no reply is built (the arguments of a call that does not fit
    the action are not read). *)
Definition build_reply (act : rspamd_milter_reply) (ap : va_list) : option bytes :=
  let cmd := reply_letter act in
  match act, ap with
  | (RSPAMD_MILTER_ACCEPT | RSPAMD_MILTER_CONTINUE | RSPAMD_MILTER_DISCARD
    | RSPAMD_MILTER_PROGRESS | RSPAMD_MILTER_REJECT | RSPAMD_MILTER_TEMPFAIL), _ =>
      Some (SET_COMMAND cmd 0)
  | RSPAMD_MILTER_ADDHEADER, va_name_value name value =>
      Some (SET_COMMAND cmd (blen name + blen value + 2)
            ++ (name ++ [NUL]) ++ (value ++ [NUL]))
  | (RSPAMD_MILTER_CHGHEADER | RSPAMD_MILTER_INSHEADER),
    va_idx_name_value idx name value =>
      Some (SET_COMMAND cmd (blen name + blen value + 2 + 4)
            ++ htonl_bytes idx ++ (name ++ [NUL]) ++ (value ++ [NUL]))
  | (RSPAMD_MILTER_REPLYCODE | RSPAMD_MILTER_ADDRCPT | RSPAMD_MILTER_DELRCPT
    | RSPAMD_MILTER_CHGFROM), va_value value =>
      Some (SET_COMMAND cmd (blen value + 1) ++ (value ++ [NUL]))
  | RSPAMD_MILTER_OPTNEG, va_optneg ver actions protocol =>
      Some (SET_COMMAND cmd (4 * 3)
            ++ htonl_bytes ver ++ htonl_bytes actions ++ htonl_bytes protocol)
  | _, _ => None
  end.

(** The payload of an action as the table of section 4.5 of the design
    lays it out, to compare the buffer built above with: nothing for
    the six plain actions, [name\0 value\0] for ADDHEADER, the index as
    a big-endian word before them for INSHEADER and CHGHEADER,
    [value\0] for the four one-string actions, three big-endian words
    for OPTNEG. *)
Definition payload_layout (act : rspamd_milter_reply) (ap : va_list)
    : option bytes :=
  match act, ap with
  | (RSPAMD_MILTER_ACCEPT | RSPAMD_MILTER_CONTINUE | RSPAMD_MILTER_DISCARD
    | RSPAMD_MILTER_PROGRESS | RSPAMD_MILTER_REJECT | RSPAMD_MILTER_TEMPFAIL),
    va_none => Some []
  | RSPAMD_MILTER_ADDHEADER, va_name_value name value =>
      Some (name ++ [NUL] ++ value ++ [NUL])
  | (RSPAMD_MILTER_INSHEADER | RSPAMD_MILTER_CHGHEADER),
    va_idx_name_value idx name value =>
      Some (htonl_bytes idx ++ name ++ [NUL] ++ value ++ [NUL])
  | (RSPAMD_MILTER_ADDRCPT | RSPAMD_MILTER_DELRCPT | RSPAMD_MILTER_CHGFROM
    | RSPAMD_MILTER_REPLYCODE), va_value value => Some (value ++ [NUL])
  | RSPAMD_MILTER_OPTNEG, va_optneg ver actions protocol =>
      Some (htonl_bytes ver ++ htonl_bytes actions ++ htonl_bytes protocol)
  | _, _ => None
  end.

Definition rspamd_milter_send_action (session : rspamd_milter_session)
    (act : rspamd_milter_reply) (ap : va_list) : rspamd_milter_session * bool :=
  match build_reply act ap with
  | Some reply =>
      let obuf := {| obuf_buf := reply; obuf_pos := 0 |} in
      let session :=
        on_priv (fun pr =>
          set_state RSPAMD_MILTER_WRITE_REPLY
            (set_out_chain (out_chain pr ++ [obuf]) pr)) session in
      (rspamd_milter_plan_io session EV_WRITE, true)
  | None => (session, false)
  end.

(** [rspamd_milter_set_reply]: the three strings joined by spaces, sent
    as a REPLYCODE. *)
Definition rspamd_milter_set_reply (session : rspamd_milter_session)
    (xcode rcode reply : bytes) : rspamd_milter_session * bool :=
  let buf := xcode ++ cstr " " ++ rcode ++ cstr " " ++ reply in
  rspamd_milter_send_action session RSPAMD_MILTER_REPLYCODE (va_value buf).

(** ** Command dispatcher *)

Section Milter.

Context `{!Collaborators}.

(** [rspamd_fstring_append], allocating the string when it is NULL. *)
Definition fstring_append (f : option bytes) (l : bytes) : option bytes :=
  Some (default [] f ++ l).

(** A [gint] after an increment that left its range. *)
Definition wrap_gint (z : Z) : Z := (z + 2 ^ 31) `mod` 2 ^ 32 - 2 ^ 31.

(** [g_hash_table_lookup (priv->headers, key)] read back with
    [GPOINTER_TO_INT]: the count stored for the name, 0 for NULL. *)
Definition headers_lookup (h : gmap bytes Z) (key : bytes) : Z :=
  default 0 (h !! rspamd_strcase_key key).

Definition protocol_error (session : rspamd_milter_session) (code : errno)
    (msg : string) : option (rspamd_milter_session * bool) :=
  Some (rspamd_milter_on_protocol_error session (g_error_new code msg), false).

(** The text handed to the IP parser for an INET6 peer: a leading
    [IPv6:] is dropped and a bare address is put in brackets; the
    result is cut to the 48 characters [ip6_str] holds. *)
Definition connect_ip6_str (txt : bytes) : bytes :=
  if bool_decide (blen txt > 6)
     && bool_decide (rspamd_lc_cmp (take 5 txt) (cstr "IPv6:") = 0)
  then
    let rest := drop 5 txt in
    if bool_decide (head rest ≠ Some "["%char)
    then take 48 (cstr "[" ++ rest ++ cstr "]")
    else take 48 rest
  else take 48 txt.

(** The CONNECT handler, after the hostname was stored: [pos] is at the
    family byte. *)
Definition connect_address (session : rspamd_milter_session) (m : bytes)
    (pos end_ : Z) : option (rspamd_milter_session * bool) :=
  proto ← byte_at m pos;
  let pos := pos + 1 in
  if bool_decide (proto = RSPAMD_MILTER_CONN_UNKNOWN) then Some (session, true)
  else
    p0 ← byte_at m pos;
    p1 ← byte_at m (pos + 1);
    let port := ntohs_bytes p0 p1 in
    let pos := pos + 2 in
    if bool_decide (pos >= end_) then Some (session, true)
    else
      zero ← memchr m pos (end_ - pos);
      match zero with
      | None =>
          protocol_error session EINVAL
            "invalid connect command (no zero terminated IP)"
      | Some zero =>
          txt ← bytes_at m pos (zero - pos);
          if bool_decide (proto = RSPAMD_MILTER_CONN_UNIX) then
            Some (set_addr (Some {| af := AF_UNIX; addr_text := Some txt;
                                    addr_port := 0 |}) session, true)
          else if bool_decide (proto = RSPAMD_MILTER_CONN_INET) then
            let session :=
              set_addr (Some {| af := AF_INET; addr_text := None;
                                addr_port := 0 |}) session in
            if rspamd_parse_inet_address_ip txt then
              Some (set_addr (Some {| af := AF_INET; addr_text := Some txt;
                                      addr_port := port |}) session, true)
            else
              protocol_error session EINVAL "invalid connect command (bad IPv4)"
          else if bool_decide (proto = RSPAMD_MILTER_CONN_INET6) then
            let session :=
              set_addr (Some {| af := AF_INET6; addr_text := None;
                                addr_port := 0 |}) session in
            let ip6_str := connect_ip6_str txt in
            if rspamd_parse_inet_address_ip ip6_str then
              Some (set_addr (Some {| af := AF_INET6; addr_text := Some ip6_str;
                                      addr_port := port |}) session, true)
            else
              protocol_error session EINVAL "invalid connect command (bad IPv6)"
          else
            protocol_error session EINVAL
              "invalid connect command (bad protocol: %c)"
      end.

(** [g_hash_table_replace (session->macros, name, value)] *)
Definition macros_replace (session : rspamd_milter_session)
    (name value : bytes) : rspamd_milter_session :=
  set_macros
    (Some (<[rspamd_ftok_icase_key name := value]> (default ∅ (macros session))))
    session.

(** The [while (pos < end)] loop of the MACRO handler.  Every turn moves
    [pos] forward by two bytes at least, so [fuel] turns are enough when
    [fuel] is the distance to [end_]. *)
Fixpoint macro_loop (fuel : nat) (session : rspamd_milter_session) (m : bytes)
    (end_ pos cmdlen : Z) : option (rspamd_milter_session * bool) :=
  if bool_decide (pos < end_) then
    match fuel with
    | O => None
    | S fuel =>
        zero ← memchr m pos cmdlen;
        match zero with
        | None =>
            protocol_error session EINVAL "invalid macro command (no name)"
        | Some zero =>
            zero_val ← memchr m (zero + 1) cmdlen;
            match zero_val with
            | None =>
                (* [end > NULL], then a length taken from NULL *)
                None
            | Some zero_val =>
                if bool_decide (end_ > zero_val) then
                  name ← bytes_at m pos (zero - pos);
                  value ← bytes_at m (zero + 1) (zero_val - zero - 1);
                  let session := macros_replace session name value in
                  let session :=
                    if bool_decide (name = cstr "{mail_host}")
                    then set_hostname (Some value) session
                    else session in
                  macro_loop fuel session m end_ (zero_val + 1)
                             (cmdlen - (zero_val - pos))
                else
                  protocol_error session EINVAL
                    "invalid macro command (bad value)"
            end
        end
    end
  else Some (session, true).

(** [g_ptr_array_add (session->rcpts, addr)], creating the array first
    when there is none *)
Definition rcpts_add (session : rspamd_milter_session) (a : option bytes)
    : rspamd_milter_session :=
  match a with
  | Some a => set_rcpts (Some (default [] (rcpts session) ++ [a])) session
  | None => session
  end.

(** The [while (pos < end)] loop of the RCPT handler. *)
Fixpoint rcpt_loop (fuel : nat) (session : rspamd_milter_session) (m : bytes)
    (end_ pos : Z) : option (rspamd_milter_session * bool) :=
  if bool_decide (pos < end_) then
    match fuel with
    | O => None
    | S fuel =>
        zero ← memchr m pos (end_ - pos);
        cpy ← bytes_at m pos (end_ - pos);
        match zero with
        | Some zero =>
            if bool_decide (zero > pos) then
              let a := rspamd_email_address_from_smtp
                         (take (Z.to_nat (zero - pos)) cpy) in
              rcpt_loop fuel (rcpts_add session a) m end_ (zero + 1)
            else
              Some (rcpts_add session (rspamd_email_address_from_smtp cpy), true)
        | None =>
            Some (rcpts_add session (rspamd_email_address_from_smtp cpy), true)
        end
    end
  else Some (session, true).

Definition set_from_if (session : rspamd_milter_session) (a : option bytes)
    : rspamd_milter_session :=
  match a with
  | Some a => set_from (Some a) session
  | None => session
  end.

Definition rspamd_milter_process_command (session : rspamd_milter_session)
    : option (rspamd_milter_session * bool) :=
  let p := parser (priv session) in
  let m := str (buf p) in
  let pos := cmd_start p in
  let cmdlen := datalen p in
  let end_ := pos + cmdlen in
  match cmd_of_byte (cur_cmd p) with
  | Some RSPAMD_MILTER_CMD_ABORT =>
      Some (rspamd_milter_session_reset session RSPAMD_MILTER_RESET_ABORT, true)
  | Some RSPAMD_MILTER_CMD_BODY =>
      chunk ← bytes_at m pos cmdlen;
      Some (set_message (fstring_append (message session) chunk) session, true)
  | Some RSPAMD_MILTER_CMD_CONNECT =>
      zero ← memchr m pos cmdlen;
      match zero with
      | None => protocol_error session EINVAL "invalid connect command (no name)"
      | Some zero =>
          if bool_decide (zero > end_ - 2 + 1) then
            protocol_error session EINVAL "invalid connect command (no name)"
          else
            name ← bytes_at m pos (zero - pos);
            connect_address (set_hostname (Some name) session) m (zero + 1) end_
      end
  | Some RSPAMD_MILTER_CMD_MACRO =>
      let session :=
        match macros session with
        | None => set_macros (Some ∅) session
        | Some _ => session
        end in
      macro_loop (Z.to_nat cmdlen) session m end_ (pos + 1) cmdlen
  | Some RSPAMD_MILTER_CMD_BODYEOB =>
      Some (on_priv (fun pr => set_calls (calls pr ++ [fin_cb]) pr) session, true)
  | Some RSPAMD_MILTER_CMD_HELO =>
      if bool_decide (end_ > pos) then
        last ← byte_at m (end_ - 1);
        if bool_decide (last = NUL) then
          v ← bytes_at m pos (cmdlen - 1);
          Some (set_helo (Some v) session, true)
        else
          v ← bytes_at m pos cmdlen;
          Some (set_helo (Some v) session, true)
      else Some (session, true)
  | Some RSPAMD_MILTER_CMD_QUIT_NC =>
      Some (rspamd_milter_session_reset session RSPAMD_MILTER_RESET_QUIT_NC, true)
  | Some RSPAMD_MILTER_CMD_HEADER =>
      zero ← memchr m pos cmdlen;
      match zero with
      | None => protocol_error session EINVAL "invalid header command (no name)"
      | Some zero =>
          last ← byte_at m (end_ - 1);
          if bool_decide (end_ > zero) && bool_decide (last = NUL) then
            name ← bytes_at m pos (zero - pos);
            let res := headers_lookup (headers (priv session)) name in
            let num := if bool_decide (res ≠ 0) then wrap_gint (res + 1) else 1 in
            let session :=
              on_priv (fun pr =>
                set_headers (<[rspamd_strcase_key name := num]> (headers pr)) pr)
                session in
            (* a negative length is left to the formatter, outside this file *)
            value ← (if bool_decide (0 <= end_ - zero - 2)
                     then bytes_at m (zero + 1) (end_ - zero - 2) else None);
            Some (set_message
                    (fstring_append (message session)
                       (name ++ cstr ": " ++ value ++ ["013"; "010"]%char))
                    session, true)
          else
            protocol_error session EINVAL "invalid header command (bad value)"
      end
  | Some RSPAMD_MILTER_CMD_MAIL =>
      if bool_decide (pos < end_) then
        zero ← memchr m pos (end_ - pos);
        match zero with
        | Some zero =>
            if bool_decide (zero > pos) then
              cpy ← bytes_at m pos (zero - pos);
              Some (set_from_if session (rspamd_email_address_from_smtp cpy), true)
            else
              cpy ← bytes_at m pos (end_ - pos);
              Some (set_from_if session (rspamd_email_address_from_smtp cpy), true)
        | None =>
            cpy ← bytes_at m pos (end_ - pos);
            Some (set_from_if session (rspamd_email_address_from_smtp cpy), true)
        end
      else Some (session, true)
  | Some RSPAMD_MILTER_CMD_EOH =>
      Some (set_message (fstring_append (message session) ["013"; "010"]%char)
              session, true)
  | Some RSPAMD_MILTER_CMD_OPTNEG =>
      if bool_decide (cmdlen ≠ 4 * 3) then
        protocol_error session EINVAL "invalid optneg command"
      else
        v0 ← byte_at m pos; v1 ← byte_at m (pos + 1);
        v2 ← byte_at m (pos + 2); v3 ← byte_at m (pos + 3);
        a0 ← byte_at m (pos + 4); a1 ← byte_at m (pos + 5);
        a2 ← byte_at m (pos + 6); a3 ← byte_at m (pos + 7);
        q0 ← byte_at m (pos + 8); q1 ← byte_at m (pos + 9);
        q2 ← byte_at m (pos + 10); q3 ← byte_at m (pos + 11);
        let version := ntohl_bytes v0 v1 v2 v3 in
        let actions := ntohl_bytes a0 a1 a2 a3 in
        let protocol := ntohl_bytes q0 q1 q2 q3 in
        if bool_decide (version < RSPAMD_MILTER_PROTO_VER) then
          protocol_error session EINVAL "invalid protocol version: %d"
        else
          let version := RSPAMD_MILTER_PROTO_VER in
          let actions := Z.lor actions RSPAMD_MILTER_ACTIONS_MASK in
          let protocol := RSPAMD_MILTER_FLAG_NOREPLY_MASK in
          Some (rspamd_milter_send_action session RSPAMD_MILTER_OPTNEG
                  (va_optneg version actions protocol))
  | Some RSPAMD_MILTER_CMD_QUIT =>
      match out_chain (priv session) with
      | _ :: _ =>
          Some (on_priv (set_state RSPAMD_MILTER_WRITE_AND_DIE) session, true)
      | [] =>
          Some (on_priv (fun pr =>
                  set_calls (calls pr ++ [fin_cb])
                            (set_state RSPAMD_MILTER_WANNA_DIE pr)) session,
                false)
      end
  | Some RSPAMD_MILTER_CMD_RCPT =>
      rcpt_loop (Z.to_nat cmdlen) session m end_ pos
  | Some RSPAMD_MILTER_CMD_DATA =>
      Some (match message session with
            | None => set_message (Some []) session
            | Some _ => session
            end, true)
  | Some RSPAMD_MILTER_CMD_UNKNOWN | None =>
      Some (session, true)
  end.

Definition rspamd_milter_is_valid_cmd (c : ascii) : bool :=
  match cmd_of_byte c with
  | Some _ => true
  | None => false
  end.

(** ** Framing parser *)

Definition mk_parser (b : rspamd_fstring_t) (ps cs dl : Z)
    (st : rspamd_milter_parser_state) (c : ascii) : rspamd_milter_parser :=
  {| buf := b; pos := ps; cmd_start := cs; datalen := dl; pstate := st;
     cur_cmd := c |}.

Definition on_parser (f : rspamd_milter_parser -> rspamd_milter_parser)
    (session : rspamd_milter_session) : rspamd_milter_session :=
  on_priv (fun pr => set_parser (f (parser pr)) pr) session.

(** [rspamd_fstring_grow (b, needed)]: the bytes stay, the capacity is
    the one the string module suggests. *)
Definition rspamd_fstring_grow (b : rspamd_fstring_t) (needed : Z)
    : rspamd_fstring_t :=
  {| str := str b; len := len b;
     allocated := rspamd_fstring_suggest_size (len b) (allocated b) needed |}.

(** How the [while (p < end)] loop of [rspamd_milter_consume_input] is
    left: by [return] or [goto end] with a result, or because the
    condition failed, with the cursor [p]. *)
Inductive loop_exit :=
| loop_return (session : rspamd_milter_session) (ret : bool)
| loop_done (session : rspamd_milter_session) (p : Z).

(** After a command was processed. *)
Definition parser_next_command (ps : rspamd_milter_parser) : rspamd_milter_parser :=
  mk_parser (buf ps) (pos ps) 0 (datalen ps) st_len_1 NUL.

(** The parser with the value [v] of a length byte or-ed into
    [datalen]. *)
Definition parser_with_len (ps : rspamd_milter_parser) (v : Z) (base : Z)
    (next : rspamd_milter_parser_state) : rspamd_milter_parser :=
  mk_parser (buf ps) (pos ps) (cmd_start ps) (Z.lor base v) next (cur_cmd ps).

(** [datalen |= *p << shift]: one length byte [c] shifted into place
    and or-ed into [datalen].  The byte is promoted to [int] and
    shifted as an [int]: the shift has no defined result when [int]
    does not hold it, which is so for the first length byte, shifted by
    24, when it is 128 or more. *)
Definition parser_len_byte (ps : rspamd_milter_parser) (c : ascii) (shift : Z)
    (base : Z) (next : rspamd_milter_parser_state)
    : option rspamd_milter_parser :=
  let v := Z.shiftl (Z_of_byte c) shift in
  if bool_decide (v < 2 ^ 31) then Some (parser_with_len ps v base next)
  else None.

(** The loop.  A turn takes a byte, or, in [st_read_data], hands a
    complete command over and leaves the state; the caller gives
    [fuel] for both. *)
Fixpoint consume_loop (fuel : nat) (session : rspamd_milter_session)
    (p end_ : Z) : option loop_exit :=
  if bool_decide (p < end_) then
    match fuel with
    | O => None
    | S fuel =>
        let ps := parser (priv session) in
        match pstate ps with
        | st_len_1 =>
            c ← byte_at (str (buf ps)) p;
            ps' ← parser_len_byte ps c 24 0 st_len_2;
            consume_loop fuel (on_parser (fun _ => ps') session) (p + 1) end_
        | st_len_2 =>
            c ← byte_at (str (buf ps)) p;
            ps' ← parser_len_byte ps c 16 (datalen ps) st_len_3;
            consume_loop fuel (on_parser (fun _ => ps') session) (p + 1) end_
        | st_len_3 =>
            c ← byte_at (str (buf ps)) p;
            ps' ← parser_len_byte ps c 8 (datalen ps) st_len_4;
            consume_loop fuel (on_parser (fun _ => ps') session) (p + 1) end_
        | st_len_4 =>
            c ← byte_at (str (buf ps)) p;
            ps' ← parser_len_byte ps c 0 (datalen ps) st_read_cmd;
            consume_loop fuel (on_parser (fun _ => ps') session) (p + 1) end_
        | st_read_cmd =>
            c ← byte_at (str (buf ps)) p;
            let session :=
              on_parser (fun ps =>
                mk_parser (buf ps) (pos ps) (cmd_start ps) (datalen ps)
                          st_read_data c) session in
            if bool_decide (datalen ps < 1) then
              Some (loop_return
                      (rspamd_milter_on_protocol_error session
                         (g_error_new EINVAL "Command length is too short"))
                      false)
            else
              consume_loop fuel
                (on_parser (fun ps =>
                   mk_parser (buf ps) (pos ps) (p + 1) (datalen ps - 1)
                             (pstate ps) (cur_cmd ps)) session)
                (p + 1) end_
        | st_read_data =>
            if bool_decide (datalen ps > RSPAMD_MILTER_MESSAGE_CHUNK * 2) then
              Some (loop_return
                      (rspamd_milter_on_protocol_error session
                         (g_error_new E2BIG "Command length is too big: %zd"))
                      false)
            else if negb (rspamd_milter_is_valid_cmd (cur_cmd ps)) then
              Some (loop_return
                      (rspamd_milter_on_protocol_error session
                         (g_error_new E2BIG "Unvalid command: %c"))
                      false)
            else if bool_decide (allocated (buf ps) < datalen ps) then
              let session :=
                on_parser (fun ps =>
                  set_buf (rspamd_fstring_grow (buf ps) (len (buf ps) + datalen ps))
                          (set_pos p ps)) session in
              Some (loop_return (rspamd_milter_plan_io session EV_READ) true)
            else if bool_decide (p + datalen ps <= end_) then
              '(session, ok) ← rspamd_milter_process_command session;
              if ok : bool then
                consume_loop fuel (on_parser parser_next_command session)
                             (p + datalen (parser (priv session))) end_
              else Some (loop_return session false)
            else
              let session := on_parser (set_pos p) session in
              Some (loop_return (rspamd_milter_plan_io session EV_READ) true)
        end
    end
  else Some (loop_done session p).

Definition rspamd_milter_consume_input (session : rspamd_milter_session)
    : option (rspamd_milter_session * bool) :=
  let ps := parser (priv session) in
  let p := pos ps in
  let end_ := len (buf ps) in
  r ← consume_loop (Z.to_nat (2 * (end_ - p) + 1)) session p end_;
  match r with
  | loop_return session ret => Some (session, ret)
  | loop_done session p =>
      (* Leftover *)
      let ps := parser (priv session) in
      r ← match pstate ps with
          | st_read_data =>
              if bool_decide (p + datalen ps <= end_) then
                '(session, ok) ← rspamd_milter_process_command session;
                if ok : bool then Some (on_parser parser_next_command session, true)
                else Some (session, false)
              else Some (session, true)
          | _ => Some (session, true)
          end;
      let '(session, ok) := r : rspamd_milter_session * bool in
      if ok then
        let session :=
          if bool_decide (p = end_) then
            on_parser (fun ps => set_pos 0 (set_buf (set_len 0 (buf ps)) ps)) session
          else session in
        Some (rspamd_milter_plan_io session
                (match out_chain (priv session) with
                 | _ :: _ => EV_READ_WRITE
                 | [] => EV_READ
                 end), true)
      else Some (session, false)
  end.

(** [memcpy] of [chunk] into the string at offset [off]. *)
Definition store_at (m : bytes) (off : Z) (chunk : bytes) : bytes :=
  take (Z.to_nat off) m ++ chunk
  ++ drop (Z.to_nat off + length chunk) m.

(** What the socket does when [rspamd_milter_handle_session] turns to
    it: [read] returns the bytes [chunk], or every [write] takes the
    whole buffer it is given. *)
Inductive io_result :=
| io_read (chunk : bytes)
| io_written.

(** [rspamd_milter_handle_session].  In [READ_MORE] the bytes read are
    stored after the bytes in use and the parser runs; [read] is asked
    for the free capacity, so a longer [chunk] cannot arrive.  In the
    write states the chain is written out and freed.  The branches for
    a failed or short [read] or [write] are left out ([None]); the
    release of the session in [WANNA_DIE] is not modelled. *)
Definition rspamd_milter_handle_session (session : rspamd_milter_session)
    (io : io_result) : option (rspamd_milter_session * bool) :=
  match state (priv session), io with
  | RSPAMD_MILTER_READ_MORE, io_read chunk =>
      let b := buf (parser (priv session)) in
      let b :=
        if bool_decide (len b >= allocated b)
        then rspamd_fstring_grow b (len b * 2) else b in
      let r := blen chunk in
      if bool_decide (0 < r ∧ r <= allocated b - len b) then
        let b := {| str := store_at (str b) (len b) chunk;
                    len := len b + r; allocated := allocated b |} in
        rspamd_milter_consume_input (on_parser (set_buf b) session)
      else None
  | (RSPAMD_MILTER_WRITE_REPLY | RSPAMD_MILTER_WRITE_AND_DIE) as st, io_written =>
      match out_chain (priv session), st with
      | [], RSPAMD_MILTER_WRITE_AND_DIE =>
          Some (on_priv (fun pr => set_calls (calls pr ++ [fin_cb]) pr) session,
                false)
      | _, _ =>
          let session :=
            on_priv (fun pr =>
              set_state RSPAMD_MILTER_READ_MORE (set_out_chain [] pr)) session in
          Some (rspamd_milter_plan_io session EV_READ, true)
      end
  | RSPAMD_MILTER_WANNA_DIE, _ => Some (session, true)
  | _, _ => None
  end.

(** The session [rspamd_milter_handle_socket] sets up, before its first
    read. *)
Definition rspamd_milter_session_new (milter_ctx : rspamd_milter_context)
    : rspamd_milter_session :=
  {| addr := None; hostname := None; helo := None; from := None;
     rcpts := None; message := None; macros := None;
     priv :=
       {| parser :=
            mk_parser {| str := @nil ascii; len := 0;
                         allocated := RSPAMD_MILTER_MESSAGE_CHUNK + 5 |}
                      0 0 0 st_len_1 NUL;
          out_chain := [];
          state := RSPAMD_MILTER_READ_MORE;
          headers := ∅;
          discard_on_reject := ctx_discard_on_reject milter_ctx;
          no_action := false;
          ev := None;
          calls := [] |} |}.

(** The frame codec's decoding of one whole frame: the length and
    command states of the parser run over its first five bytes, and the
    payload is the [datalen] bytes at [cmd_start], which must end the
    frame. *)
Definition decode_frame (frame : bytes) : option (ascii * bytes) :=
  let session :=
    on_parser
      (set_buf {| str := frame; len := blen frame; allocated := blen frame |})
      (rspamd_milter_session_new
         {| spam_header := []; ctx_discard_on_reject := false |}) in
  r ← consume_loop 5 session 0 5;
  match r with
  | loop_done session _ =>
      let ps := parser (priv session) in
      match pstate ps with
      | st_read_data =>
          if bool_decide (cmd_start ps + datalen ps = blen frame)
          then payload ← bytes_at frame (cmd_start ps) (datalen ps);
               Some (cur_cmd ps, payload)
          else None
      | _ => None
      end
  | loop_return _ _ => None
  end.

(** Successive reads: pending replies are written out, then the next
    chunk is read, as long as the handler returns TRUE. *)
Fixpoint feed (session : rspamd_milter_session) (chunks : list bytes)
    : option (rspamd_milter_session * bool) :=
  match chunks with
  | [] => Some (session, true)
  | chunk :: chunks =>
      r ← match state (priv session) with
          | RSPAMD_MILTER_WRITE_REPLY | RSPAMD_MILTER_WRITE_AND_DIE =>
              rspamd_milter_handle_session session io_written
          | _ => Some (session, true)
          end;
      let '(session, ok) := r : rspamd_milter_session * bool in
      if ok then
        '(session, ok) ← rspamd_milter_handle_session session (io_read chunk);
        if ok : bool then feed session chunks else Some (session, false)
      else Some (session, false)
  end.

(** ** Verdict translator *)

(** Modelled from the spec: the scan outcome is "a generic structured
    value" with the keys of section 4.7; the object library is not among
    the sources.  An object lists its keys in order, one value per key;
    a C string is given by its bytes before the NUL. *)
#[warnings="-register-all"]
Inductive ucl_object_t :=
| UCL_NULL
| UCL_BOOLEAN (b : bool)
| UCL_INT (n : Z)
| UCL_STRING (s : bytes)
| UCL_OBJECT (fields : list (bytes * ucl_object_t)).

Definition ucl_object_lookup (obj : ucl_object_t) (key : string)
    : option ucl_object_t :=
  match obj with
  | UCL_OBJECT fields =>
      snd <$> List.find (fun kv => bool_decide (fst kv = cstr key)) fields
  | _ => None
  end.

(** [ucl_object_lookup_any (obj, k1, k2, NULL)] *)
Definition ucl_object_lookup_any (obj : ucl_object_t) (k1 k2 : string)
    : option ucl_object_t :=
  match ucl_object_lookup obj k1 with
  | Some o => Some o
  | None => ucl_object_lookup obj k2
  end.

(** [ucl_object_tostring]: NULL unless the object is a string *)
Definition ucl_object_tostring (obj : ucl_object_t) : option bytes :=
  match obj with
  | UCL_STRING s => Some s
  | _ => None
  end.

Definition ucl_object_toint (obj : ucl_object_t) : Z :=
  match obj with
  | UCL_INT n => n
  | _ => 0
  end.

Definition ucl_object_toboolean (obj : ucl_object_t) : bool :=
  match obj with
  | UCL_BOOLEAN b => b
  | _ => false
  end.

(** [g_string_new (init)]; a NULL [init] gives the empty string *)
Definition g_string_new (init : option bytes) : bytes := default [] init.

(** A call of [rspamd_milter_send_action] whose result is dropped. *)
Definition send (session : rspamd_milter_session) (act : rspamd_milter_reply)
    (ap : va_list) : rspamd_milter_session :=
  fst (rspamd_milter_send_action session act ap).

(** The positions [1 .. n] the loop [for (i = 1; i <= n; i ++)] visits. *)
Definition positions (n : Z) : list Z :=
  Z.of_nat <$> seq 1 (Z.to_nat n).

(** [rspamd_milter_remove_header_safe], for a count below [G_MAXINT]
    (at [G_MAXINT] the loop for position 0 has no end). *)
Definition rspamd_milter_remove_header_safe (session : rspamd_milter_session)
    (key : bytes) (nhdr : Z) : rspamd_milter_session :=
  let found := headers_lookup (headers (priv session)) key in
  if bool_decide (found ≠ 0) then
    let saved_nhdr := found in
    let hname := g_string_new (Some key) in
    let hvalue := g_string_new (Some []) in
    if bool_decide (nhdr >= 1) then
      send session RSPAMD_MILTER_CHGHEADER (va_idx_name_value nhdr hname hvalue)
    else if bool_decide (nhdr = 0) then
      foldl (fun session i =>
               send session RSPAMD_MILTER_CHGHEADER
                    (va_idx_name_value i hname hvalue))
            session (positions saved_nhdr)
    else if bool_decide (nhdr >= - saved_nhdr) then
      send session RSPAMD_MILTER_CHGHEADER
           (va_idx_name_value (saved_nhdr + nhdr + 1) hname hvalue)
    else session
  else session.

(** One turn of the loop over [add_headers]; [idx] is the variable the
    function keeps across the turns. *)
Definition milter_block_add_header (st : rspamd_milter_session * Z)
    (kv : bytes * ucl_object_t) : rspamd_milter_session * Z :=
  let '(session, idx) := st in
  let '(key, cur_elt) := kv in
  match cur_elt with
  | UCL_STRING v =>
      (send session RSPAMD_MILTER_ADDHEADER
            (va_name_value (g_string_new (Some key)) (g_string_new (Some v))),
       idx)
  | UCL_OBJECT _ =>
      match ucl_object_lookup cur_elt "value" with
      | Some (UCL_STRING v) =>
          let idx :=
            match ucl_object_lookup_any cur_elt "order" "index" with
            | Some idx_obj => wrap_gint (ucl_object_toint idx_obj)
            | None => idx
            end in
          let hname := g_string_new (Some key) in
          let hvalue := g_string_new (Some v) in
          if bool_decide (idx >= 0) then
            (send session RSPAMD_MILTER_INSHEADER
                  (va_idx_name_value idx hname hvalue), idx)
          else
            (send session RSPAMD_MILTER_ADDHEADER (va_name_value hname hvalue),
             idx)
      | _ => (session, idx)
      end
  | _ => (session, idx)
  end.

(** The part of [rspamd_milter_process_milter_block] under
    [if (obj && ucl_object_type (obj) == UCL_OBJECT)]. *)
Definition milter_block_object (session : rspamd_milter_session)
    (obj : ucl_object_t) : rspamd_milter_session :=
  let session :=
    match ucl_object_lookup obj "remove_headers" with
    | Some (UCL_OBJECT fields) =>
        foldl (fun session kv =>
                 match snd kv with
                 | UCL_INT n =>
                     rspamd_milter_remove_header_safe session (fst kv)
                                                      (wrap_gint n)
                 | _ => session
                 end) session fields
    | _ => session
    end in
  let session :=
    match ucl_object_lookup obj "add_headers" with
    | Some (UCL_OBJECT fields) =>
        fst (foldl milter_block_add_header (session, -1) fields)
    | _ => session
    end in
  let session :=
    match ucl_object_lookup obj "change_from" with
    | Some (UCL_STRING v) =>
        send session RSPAMD_MILTER_CHGFROM (va_value (g_string_new (Some v)))
    | _ => session
    end in
  let session :=
    match ucl_object_lookup obj "reject" with
    | Some (UCL_STRING v) =>
        on_priv (set_discard_on_reject (bool_decide (v = cstr "discard")))
                session
    | _ => session
    end in
  match ucl_object_lookup obj "no_action" with
  | Some (UCL_BOOLEAN b) => on_priv (set_no_action b) session
  | _ => session
  end.

(** Returns [true] if the action has been processed by this function. *)
Definition rspamd_milter_process_milter_block (milter_ctx : rspamd_milter_context)
    (session : rspamd_milter_session) (obj : ucl_object_t)
    (action : rspamd_metric_action) : rspamd_milter_session * bool :=
  let session :=
    match obj with
    | UCL_OBJECT _ => milter_block_object session obj
    | _ => session
    end in
  match action with
  | METRIC_ACTION_ADD_HEADER =>
      match ucl_object_lookup obj "spam_header" with
      | Some (UCL_STRING v) =>
          let session :=
            rspamd_milter_remove_header_safe session (spam_header milter_ctx) 0 in
          let session :=
            send session RSPAMD_MILTER_CHGHEADER
                 (va_idx_name_value 1 (g_string_new (Some (spam_header milter_ctx)))
                                    (g_string_new (Some v))) in
          (send session RSPAMD_MILTER_ACCEPT va_none, true)
      | Some (UCL_OBJECT fields) =>
          let session :=
            foldl (fun session kv =>
                     let session :=
                       rspamd_milter_remove_header_safe session (fst kv) 0 in
                     send session RSPAMD_MILTER_CHGHEADER
                          (va_idx_name_value 1 (g_string_new (Some (fst kv)))
                             (g_string_new (ucl_object_tostring (snd kv)))))
                  session fields in
          (send session RSPAMD_MILTER_ACCEPT va_none, true)
      | _ => (session, false)
      end
  | _ => (session, false)
  end.

(** The [switch (action)] of [rspamd_milter_send_task_results]; [reply]
    is the text taken from [messages.smtp_message], if any. *)
Definition send_action_results (milter_ctx : rspamd_milter_context)
    (session : rspamd_milter_session) (results : ucl_object_t)
    (action : rspamd_metric_action) (reply : option bytes)
    : rspamd_milter_session :=
  match action with
  | METRIC_ACTION_REJECT =>
      if discard_on_reject (priv session) then
        send session RSPAMD_MILTER_DISCARD va_none
      else
        let rcode := RSPAMD_MILTER_RCODE_REJECT in
        let xcode := RSPAMD_MILTER_XCODE_REJECT in
        let reply := default RSPAMD_MILTER_REJECT_MESSAGE reply in
        let session := fst (rspamd_milter_set_reply session rcode xcode reply) in
        send session RSPAMD_MILTER_REJECT va_none
  | METRIC_ACTION_SOFT_REJECT =>
      let rcode := RSPAMD_MILTER_RCODE_TEMPFAIL in
      let xcode := RSPAMD_MILTER_XCODE_TEMPFAIL in
      let reply := default RSPAMD_MILTER_TEMPFAIL_MESSAGE reply in
      let session := fst (rspamd_milter_set_reply session rcode xcode reply) in
      send session RSPAMD_MILTER_REJECT va_none
  | METRIC_ACTION_REWRITE_SUBJECT =>
      let session :=
        match ucl_object_lookup results "subject" with
        | Some elt =>
            send session RSPAMD_MILTER_CHGHEADER
                 (va_idx_name_value 1 (g_string_new (Some (cstr "Subject")))
                                    (g_string_new (ucl_object_tostring elt)))
        | None => session
        end in
      send session RSPAMD_MILTER_ACCEPT va_none
  | METRIC_ACTION_ADD_HEADER =>
      let session :=
        rspamd_milter_remove_header_safe session (spam_header milter_ctx) 0 in
      let session :=
        send session RSPAMD_MILTER_CHGHEADER
             (va_idx_name_value 1 (g_string_new (Some (spam_header milter_ctx)))
                                (g_string_new (Some (cstr "Yes")))) in
      send session RSPAMD_MILTER_ACCEPT va_none
  | METRIC_ACTION_GREYLIST | METRIC_ACTION_NOACTION =>
      send session RSPAMD_MILTER_ACCEPT va_none
  end.

(** The session after the [milter] block and the DKIM signature of a
    verdict were dealt with, and whether the block processed the
    action. *)
Definition apply_milter_and_dkim (milter_ctx : rspamd_milter_context)
    (session : rspamd_milter_session) (results : ucl_object_t)
    (action : rspamd_metric_action) : rspamd_milter_session * bool :=
  let '(session, processed) :=
    match ucl_object_lookup results "milter" with
    | Some elt => rspamd_milter_process_milter_block milter_ctx session elt action
    | None => (session, false)
    end in
  let session :=
    match ucl_object_lookup results "dkim-signature" with
    | Some elt =>
        send session RSPAMD_MILTER_INSHEADER
             (va_idx_name_value 1 (g_string_new (Some RSPAMD_MILTER_DKIM_HEADER))
                                (g_string_new (ucl_object_tostring elt)))
    | None => session
    end in
  (session, processed).

(** The action of a verdict: [METRIC_ACTION_REJECT] unless
    [rspamd_action_from_str] finds another. *)
Definition results_action (elt : ucl_object_t) : rspamd_metric_action :=
  default METRIC_ACTION_REJECT (rspamd_action_from_str (ucl_object_tostring elt)).

(** The reply text of a verdict: [messages.smtp_message], if present. *)
Definition results_reply (results : ucl_object_t) : option bytes :=
  match ucl_object_lookup results "messages" with
  | Some elt =>
      match ucl_object_lookup elt "smtp_message" with
      | Some smtp_res => Some (default [] (ucl_object_tostring smtp_res))
      | None => None
      end
  | None => None
  end.

Definition rspamd_milter_send_task_results (milter_ctx : rspamd_milter_context)
    (session : rspamd_milter_session) (results : option ucl_object_t)
    : rspamd_milter_session :=
  match results with
  | None => send session RSPAMD_MILTER_TEMPFAIL va_none
  | Some results =>
      match ucl_object_lookup results "action" with
      | None => send session RSPAMD_MILTER_TEMPFAIL va_none
      | Some elt =>
          let str_action := ucl_object_tostring elt in
          let action := results_action elt in
          let reply := results_reply results in
          let '(session, processed) :=
            apply_milter_and_dkim milter_ctx session results action in
          if processed then session
          else if no_action (priv session) then
            let session :=
              send session RSPAMD_MILTER_ADDHEADER
                   (va_name_value (g_string_new (Some RSPAMD_MILTER_ACTION_HEADER))
                                  (g_string_new str_action)) in
            send session RSPAMD_MILTER_ACCEPT va_none
          else send_action_results milter_ctx session results action reply
      end
  end.

End Milter.

(** ** A concrete set of collaborators

    Used where a definition is run on explicit bytes. *)

Definition lc_byte (c : ascii) : ascii :=
  let n := Z_of_byte c in
  if bool_decide (65 <= n ∧ n <= 90) then byte_of_Z (n + 32) else c.

(** Modelled from the spec: a chunk of 65536 bytes (section 6.1 gives
    131072 for twice the chunk), protocol version 2 (scenario S1), the
    action names of section 4.7, keys compared without regard to case
    (section 9, for the macro table), capacity grown by doubling
    (section 4.2).  The masks and the default texts are not given by the
    spec; they stand for the constants of milter.h.  The address parsers
    accept every non-empty text. *)
Definition milter_defaults : Collaborators := {|
  RSPAMD_MILTER_MESSAGE_CHUNK := 65536;
  RSPAMD_MILTER_PROTO_VER := 2;
  RSPAMD_MILTER_ACTIONS_MASK := 0x3f;
  RSPAMD_MILTER_FLAG_NOREPLY_MASK := 0x7f;
  RSPAMD_MILTER_REJECT_MESSAGE := cstr "Spam message rejected";
  RSPAMD_MILTER_TEMPFAIL_MESSAGE := cstr "Try again later";
  rspamd_parse_inet_address_ip := fun txt => bool_decide (txt ≠ []);
  rspamd_email_address_from_smtp :=
    fun txt => if bool_decide (txt ≠ []) then Some txt else None;
  rspamd_lc_cmp :=
    fun a b => if bool_decide (lc_byte <$> a = lc_byte <$> b) then 0 else 1;
  rspamd_strcase_key := fmap lc_byte;
  rspamd_ftok_icase_key := fmap lc_byte;
  rspamd_action_from_str := fun s =>
    match s with
    | Some s =>
        if bool_decide (s = cstr "reject") then Some METRIC_ACTION_REJECT
        else if bool_decide (s = cstr "soft reject") then Some METRIC_ACTION_SOFT_REJECT
        else if bool_decide (s = cstr "rewrite subject") then Some METRIC_ACTION_REWRITE_SUBJECT
        else if bool_decide (s = cstr "add header") then Some METRIC_ACTION_ADD_HEADER
        else if bool_decide (s = cstr "greylist") then Some METRIC_ACTION_GREYLIST
        else if bool_decide (s = cstr "no action") then Some METRIC_ACTION_NOACTION
        else None
    | None => None
    end;
  rspamd_fstring_suggest_size := fun len allocated needed =>
    Z.max (len + needed) (2 * allocated)
|}.

Definition milter_ctx_defaults : rspamd_milter_context :=
  {| spam_header := cstr "X-Spam"; ctx_discard_on_reject := false |}.

(** A frame as the MTA puts it on the wire: length word, command
    letter, payload. *)
Definition wire_frame (cmd : ascii) (payload : bytes) : bytes :=
  htonl_bytes (blen payload + 1) ++ [cmd] ++ payload.

(** ** Entry points of the host *)

(** What the event loop reports to [rspamd_milter_io_handler]: the
    timeout, or the descriptor ready, with what the socket then does. *)
Inductive io_event :=
| io_timeout
| io_ready (io : io_result).

(** Modelled from the spec: the default name of the spam header,
    [RSPAMD_MILTER_SPAM_HEADER] of milter.h, is [X-Spam] (section 7). *)
Definition RSPAMD_MILTER_SPAM_HEADER : bytes := cstr "X-Spam".

(** [rspamd_milter_init_library]: the context the sessions are created
    from; the sessions cache is left out. *)
Definition rspamd_milter_init_library (spam_header : option bytes)
    (discard_on_reject : bool) : rspamd_milter_context :=
  {| spam_header := default RSPAMD_MILTER_SPAM_HEADER spam_header;
     ctx_discard_on_reject := discard_on_reject |}.

(** ** The scan request *)

(** Modelled from the spec: the names of the request headers, the
    macros of protocol_internal.h, as section 7 lists them. *)
Definition QUEUE_ID_HEADER : bytes := cstr "Queue-Id".

Definition MTA_TAG_HEADER : bytes := cstr "MTA-Tag".

Definition MTA_NAME_HEADER : bytes := cstr "MTA-Name".

Definition USER_AGENT_HEADER : bytes := cstr "User-Agent".

Definition TLS_CIPHER_HEADER : bytes := cstr "TLS-Cipher".

Definition TLS_VERSION_HEADER : bytes := cstr "TLS-Version".

Definition USER_HEADER : bytes := cstr "User".

Definition HOSTNAME_HEADER : bytes := cstr "Hostname".

Definition HELO_HEADER : bytes := cstr "Helo".

Definition FROM_HEADER : bytes := cstr "From".

Definition RCPT_HEADER : bytes := cstr "Rcpt".

Definition IP_ADDR_HEADER : bytes := cstr "IP".

Definition MILTER_HEADER : bytes := cstr "Milter".

(** What the request is built with and milter.c does not define: the
    name of the check command and the two printers of an address. *)
Class RequestCollaborators := {
  MSG_CMD_CHECK_V2 : bytes;
  rspamd_inet_address_to_string : rspamd_inet_addr_t -> bytes;
  rspamd_inet_address_to_string_pretty : rspamd_inet_addr_t -> bytes
}.

(** [struct rspamd_http_message], as far as milter.c fills it in: the
    URL, the body, and the headers in the order they were added. *)
Record rspamd_http_message := {
  url : bytes;
  body : option bytes;
  http_headers : list (bytes * bytes)
}.

(** [rspamd_http_message_add_header], [.._len] and [.._fstr] *)
Definition rspamd_http_message_add_header (msg : rspamd_http_message)
    (name value : bytes) : rspamd_http_message :=
  {| url := url msg; body := body msg;
     http_headers := http_headers msg ++ [(name, value)] |}.

Section Host.

Context `{!Collaborators} `{!RequestCollaborators}.

(** [rspamd_milter_io_handler] *)
Definition rspamd_milter_io_handler (session : rspamd_milter_session)
    (what : io_event) : option rspamd_milter_session :=
  match what with
  | io_timeout =>
      Some (rspamd_milter_on_protocol_error session
              (g_error_new ETIMEDOUT "connection timed out"))
  | io_ready io => fst <$> rspamd_milter_handle_session session io
  end.

(** [rspamd_milter_handle_socket]: a new session, and its first turn to
    the socket. *)
Definition rspamd_milter_handle_socket (milter_ctx : rspamd_milter_context)
    (io : io_result) : option (rspamd_milter_session * bool) :=
  rspamd_milter_handle_session (rspamd_milter_session_new milter_ctx) io.

(** [rspamd_milter_add_header].  Its sibling [rspamd_milter_del_header]
    hands a [GString] over by value where the reply builder takes a
    pointer from the argument list, and has no defined result. *)
Definition rspamd_milter_add_header (session : rspamd_milter_session)
    (name value : bytes) : rspamd_milter_session * bool :=
  rspamd_milter_send_action session RSPAMD_MILTER_ADDHEADER
    (va_name_value name value).

(** [IF_MACRO (lit)]: the lookup of a literal in the macro table *)
Definition IF_MACRO (macros : gmap bytes bytes) (lit : string) : option bytes :=
  macros !! rspamd_ftok_icase_key (cstr lit).

(** [IF_MACRO (lit1) ... else IF_MACRO (lit2) ...]: the first of the
    literals that is in the table. *)
Fixpoint first_macro (macros : gmap bytes bytes) (lits : list string)
    : option bytes :=
  match lits with
  | [] => None
  | lit :: lits =>
      match IF_MACRO macros lit with
      | Some found => Some found
      | None => first_macro macros lits
      end
  end.

(** A header added when there is a value for it. *)
Definition header_if_found (msg : rspamd_http_message) (name : bytes)
    (found : option bytes) : rspamd_http_message :=
  match found with
  | Some found => rspamd_http_message_add_header msg name found
  | None => msg
  end.

(** A header added for a string that is set and not empty:
    [if (f && f->len > 0)]. *)
Definition header_if_set (msg : rspamd_http_message) (name : bytes)
    (f : option bytes) : rspamd_http_message :=
  match f with
  | Some h =>
      if bool_decide (blen h > 0)
      then rspamd_http_message_add_header msg name h else msg
  | None => msg
  end.

(** [rspamd_milter_macro_http] *)
Definition rspamd_milter_macro_http (session : rspamd_milter_session)
    (msg : rspamd_http_message) : rspamd_http_message :=
  match macros session with
  | None => msg
  | Some macros =>
      let msg :=
        header_if_found msg QUEUE_ID_HEADER (first_macro macros ["{i}"; "i"]) in
      let msg :=
        header_if_found msg MTA_TAG_HEADER (IF_MACRO macros "{daemon_name}") in
      let msg :=
        header_if_found msg USER_AGENT_HEADER (first_macro macros ["{v}"; "v"]) in
      let msg :=
        header_if_found msg TLS_CIPHER_HEADER (IF_MACRO macros "{cipher}") in
      let msg :=
        header_if_found msg TLS_VERSION_HEADER (IF_MACRO macros "{tls_version}") in
      let msg :=
        header_if_found msg USER_HEADER (IF_MACRO macros "{auth_authen}") in
      let msg :=
        header_if_found msg HOSTNAME_HEADER
          (if bool_decide (default [] (hostname session) = [])
           then IF_MACRO macros "{client_name}" else None) in
      header_if_found msg MTA_NAME_HEADER
        (first_macro macros ["{daemon_name}"; "{j}"; "j"])
  end.

(** The text of the IP header: the plain printer for a UNIX socket, the
    pretty one for the other families. *)
Definition request_ip (a : rspamd_inet_addr_t) : bytes :=
  match af a with
  | AF_UNIX => rspamd_inet_address_to_string a
  | _ => rspamd_inet_address_to_string_pretty a
  end.

(** [rspamd_milter_to_http]: the request, and the session, which gives
    its message away. *)
Definition rspamd_milter_to_http (session : rspamd_milter_session)
    : rspamd_http_message * rspamd_milter_session :=
  let msg := {| url := cstr "/" ++ MSG_CMD_CHECK_V2; body := message session;
                http_headers := [] |} in
  let session :=
    match message session with
    | Some _ => set_message None session
    | None => session
    end in
  let msg := header_if_set msg HOSTNAME_HEADER (hostname session) in
  let msg := header_if_set msg HELO_HEADER (helo session) in
  let msg := header_if_found msg FROM_HEADER (from session) in
  let msg :=
    foldl (fun msg rcpt => rspamd_http_message_add_header msg RCPT_HEADER rcpt)
          msg (default [] (rcpts session)) in
  let msg := header_if_found msg IP_ADDR_HEADER (request_ip <$> addr session) in
  let msg := rspamd_milter_macro_http session msg in
  (rspamd_http_message_add_header msg MILTER_HEADER (cstr "Yes"), session).

End Host.

(** The printers used where a request is built on explicit bytes: the
    text the address holds, and the same with the port behind it. *)
Definition request_defaults : RequestCollaborators := {|
  MSG_CMD_CHECK_V2 := cstr "checkv2";
  rspamd_inet_address_to_string := fun a => default [] (addr_text a);
  rspamd_inet_address_to_string_pretty := fun a =>
    default [] (addr_text a) ++ cstr ":"
    ++ [byte_of_Z (Z.shiftr (addr_port a) 8); byte_of_Z (addr_port a)]
|}.

(** * The vocabulary of the properties *)

Section Vocabulary.

Context `{!Collaborators}.

(** The bytes of a string field, none for a NULL one. *)
Definition field_bytes (f : option bytes) : bytes := default [] f.

(** The outbound buffer of a CHGHEADER for position [i] of header [key]
    with an empty value. *)
Definition chgheader_frame (i : Z) (key : bytes) : rspamd_milter_outbuf :=
  {| obuf_buf := htonl_bytes (blen key + 7) ++ ["m"%char]
                 ++ htonl_bytes i ++ key ++ [NUL; NUL];
     obuf_pos := 0 |}.

(** The frames a removal request adds when the name has the count [K]. *)
Definition removal_frames (K : Z) (key : bytes) (p : Z)
    : list rspamd_milter_outbuf :=
  if bool_decide (p >= 1) then [chgheader_frame p key]
  else if bool_decide (p = 0) then
    (fun i => chgheader_frame i key) <$> positions K
  else if bool_decide (- K <= p) then [chgheader_frame (K + p + 1) key]
  else [].

(** The parser holds a HEADER command whose payload is the name, a NUL,
    the value and a NUL. *)
Definition holds_header (ps : rspamd_milter_parser) (name value : bytes) : Prop :=
  cur_cmd ps = cmd_letter RSPAMD_MILTER_CMD_HEADER
  /\ (NUL ∉ name)
  /\ bytes_at (str (buf ps)) (cmd_start ps) (datalen ps)
     = Some (name ++ [NUL] ++ value ++ [NUL]).

(** The count the HEADER handler stores for a name whose stored count
    is [res] (0 when there is none). *)
Definition next_count (res : Z) : Z :=
  if bool_decide (res ≠ 0) then wrap_gint (res + 1) else 1.

(** The other commands leave the header table alone, except the two
    that reset the envelope. *)
Definition keeps_headers_cmd (c : ascii) : bool :=
  match cmd_of_byte c with
  | Some (RSPAMD_MILTER_CMD_ABORT | RSPAMD_MILTER_CMD_QUIT_NC
         | RSPAMD_MILTER_CMD_HEADER) => false
  | _ => true
  end.

(** The commands since the header table was last cleared:
    [command_run s0 names s] when [s] is reached from [s0] by commands
    none of which is an ABORT or a QUIT_NC, and [names] lists the names
    of the HEADER commands among them, in order.  The end of a message
    and the MAIL of the next one are commands like the others: only
    ABORT and QUIT_NC clear the table.  Between two commands the
    parser, the output queue and the rest of the session may change in
    any way that leaves the header table alone. *)
Inductive command_run (s0 : rspamd_milter_session)
    : list bytes -> rspamd_milter_session -> Prop :=
| run_start : command_run s0 [] s0
| run_header names s s1 name value s' :
    command_run s0 names s ->
    headers (priv s1) = headers (priv s) ->
    holds_header (parser (priv s1)) name value ->
    rspamd_milter_process_command s1 = Some (s', true) ->
    command_run s0 (names ++ [name]) s'
| run_other names s s1 s' ok :
    command_run s0 names s ->
    headers (priv s1) = headers (priv s) ->
    keeps_headers_cmd (cur_cmd (parser (priv s1))) = true ->
    rspamd_milter_process_command s1 = Some (s', ok) ->
    command_run s0 names s'.

(** How many of [names] the header table takes for the name [key]. *)
Definition count_name (key : bytes) (names : list bytes) : Z :=
  Z.of_nat (length (filter (fun n => rspamd_strcase_key n = rspamd_strcase_key key)
                           names)).

(** A call ended in a fatal protocol error: it returned FALSE with the
    session in [WANNA_DIE], the host's error callback invoked once
    more, and nothing added to the outbound queue. *)
Definition fatal_protocol_error (session : rspamd_milter_session)
    (r : option (rspamd_milter_session * bool)) : Prop :=
  exists session' err,
    r = Some (session', false)
    /\ state (priv session') = RSPAMD_MILTER_WANNA_DIE
    /\ calls (priv session') = calls (priv session) ++ [err_cb err]
    /\ out_chain (priv session') = out_chain (priv session).

(** The reply to an OPTNEG that asked for [actions]. *)
Definition optneg_reply (actions : Z) : rspamd_milter_outbuf :=
  {| obuf_buf :=
       htonl_bytes 13 ++ ["O"%char]
       ++ htonl_bytes RSPAMD_MILTER_PROTO_VER
       ++ htonl_bytes (Z.lor actions RSPAMD_MILTER_ACTIONS_MASK)
       ++ htonl_bytes RSPAMD_MILTER_FLAG_NOREPLY_MASK;
     obuf_pos := 0 |}.

(** An outbound buffer holding the frame of a command and its payload. *)
Definition out_frame (cmd : ascii) (payload : bytes) : rspamd_milter_outbuf :=
  {| obuf_buf := wire_frame cmd payload; obuf_pos := 0 |}.

(** A command was accepted: the dispatcher returned TRUE, the
    connection state and the outbound queue are the ones before, and
    the host was called as [called] lists. *)
Definition accepted (session : rspamd_milter_session) (called : list host_call)
    (r : option (rspamd_milter_session * bool)) : Prop :=
  exists session',
    r = Some (session', true)
    /\ state (priv session') = state (priv session)
    /\ calls (priv session') = calls (priv session) ++ called
    /\ out_chain (priv session') = out_chain (priv session).

(** The commands that carry the envelope and the message and whose
    handler has no failure exit. *)
Definition never_refused (k : rspamd_milter_command) : bool :=
  match k with
  | RSPAMD_MILTER_CMD_HELO | RSPAMD_MILTER_CMD_MAIL | RSPAMD_MILTER_CMD_RCPT
  | RSPAMD_MILTER_CMD_DATA | RSPAMD_MILTER_CMD_EOH | RSPAMD_MILTER_CMD_BODY
  | RSPAMD_MILTER_CMD_BODYEOB => true
  | _ => false
  end.

(** What is left of the loop: two turns for a byte to read, one more
    when a command waits to be handed over. *)
Definition loop_measure (session : rspamd_milter_session) (p end_ : Z) : Z :=
  2 * (end_ - p)
  + match pstate (parser (priv session)) with
    | st_read_data => 1
    | _ => 0
    end.

(** The payload length owed is not negative once the command byte was
    read. *)
Definition datalen_ok (session : rspamd_milter_session) : Prop :=
  pstate (parser (priv session)) = st_read_data ->
  0 <= datalen (parser (priv session)).

(** The session after a reset, block by block: each flag of [how]
    governs fields of its own. *)
Definition reset_blocks (io common addr_ macro : bool)
    (s : rspamd_milter_session) : rspamd_milter_session :=
  {| addr := if addr_ then None else addr s;
     hostname := if common then fstring_truncate (hostname s) else hostname s;
     helo := if common then fstring_truncate (helo s) else helo s;
     from := if common then None else from s;
     rcpts := if common then None else rcpts s;
     message := if common then fstring_truncate (message s) else message s;
     macros := if macro then None else macros s;
     priv :=
       {| parser :=
            if io then set_buf (set_len 0 (buf (parser (priv s)))) (parser (priv s))
            else parser (priv s);
          out_chain := if io then [] else out_chain (priv s);
          state := state (priv s);
          headers := if common then ∅ else headers (priv s);
          discard_on_reject := discard_on_reject (priv s);
          no_action := no_action (priv s);
          ev := ev (priv s);
          calls := calls (priv s) |} |}.

(** The sender after a MAIL command whose address text is [txt]. *)
Definition mail_result (session : rspamd_milter_session) (txt : bytes)
    : rspamd_milter_session :=
  match rspamd_email_address_from_smtp txt with
  | Some a => set_from (Some a) session
  | None => session
  end.

(** The recipients after the address texts [addrs] were handed to the
    address parser one by one. *)
Definition rcpt_results (session : rspamd_milter_session) (addrs : list bytes)
    : rspamd_milter_session :=
  foldl (fun session a => rcpts_add session (rspamd_email_address_from_smtp a))
        session addrs.

(** A payload of NUL-terminated strings. *)
Definition nul_terminated (l : list bytes) : bytes :=
  concat ((fun a => a ++ [NUL]) <$> l).

(** What is left of a payload behind its non-empty NUL-terminated
    strings: nothing, or bytes that open with NUL, or bytes without
    NUL. *)
Definition rcpt_tail (tail : bytes) : Prop :=
  tail = [] \/ head tail = Some NUL \/ NUL ∉ tail.

(** The texts handed to the address parser for a payload of the strings
    [addrs] and the tail [tail]. *)
Definition rcpt_texts (addrs : list bytes) (tail : bytes) : list bytes :=
  addrs ++ (if decide (tail = []) then [] else [tail]).

(** The session a CONNECT command leaves when it stores the host name
    [host] and the address [a]. *)
Definition connected (session : rspamd_milter_session) (host : bytes)
    (a : rspamd_inet_addr_t) : rspamd_milter_session :=
  set_addr (Some a) (set_hostname (Some host) session).

(** The name and value pairs of a MACRO payload, laid out as the MTA
    sends them. *)
Definition macro_pairs (pairs : list (bytes * bytes)) : bytes :=
  concat ((fun nv => nv.1 ++ [NUL] ++ nv.2 ++ [NUL]) <$> pairs).

(** The macro table after the pairs were stored in order. *)
Definition macros_after (m : gmap bytes bytes) (pairs : list (bytes * bytes))
    : gmap bytes bytes :=
  foldl (fun m nv => <[rspamd_ftok_icase_key nv.1 := nv.2]> m) m pairs.

(** The host name after the pairs were stored: the value of the last
    pair named [{mail_host}], if there is one. *)
Definition hostname_after (h : option bytes) (pairs : list (bytes * bytes))
    : option bytes :=
  foldl (fun h nv => if bool_decide (nv.1 = cstr "{mail_host}") then Some nv.2 else h)
        h pairs.

Definition macro_results (session : rspamd_milter_session)
    (pairs : list (bytes * bytes)) : rspamd_milter_session :=
  foldl (fun session nv =>
           let session := macros_replace session nv.1 nv.2 in
           if bool_decide (nv.1 = cstr "{mail_host}")
           then set_hostname (Some nv.2) session else session)
        session pairs.

(** The session waits for a frame: it is in [READ_MORE], the buffer is
    empty and the parser is at the first length byte. *)
Definition awaits_frame (session : rspamd_milter_session) : Prop :=
  state (priv session) = RSPAMD_MILTER_READ_MORE
  /\ pstate (parser (priv session)) = st_len_1
  /\ len (buf (parser (priv session))) = 0
  /\ pos (parser (priv session)) = 0.

(** The session once a read has stored the frame of [cmd] and [payload]
    at the start of the buffer and the parser has taken the length word
    and the command byte. *)
Definition holds_frame (session : rspamd_milter_session) (cmd : ascii)
    (payload : bytes) : rspamd_milter_session :=
  on_parser (fun ps =>
    mk_parser {| str := store_at (str (buf ps)) 0 (wire_frame cmd payload);
                 len := blen (wire_frame cmd payload);
                 allocated := allocated (buf ps) |}
              0 5 (blen payload) st_read_data cmd) session.

(** What [rspamd_milter_consume_input] does once the command that ends
    the buffer has returned TRUE: the parser goes back to the first
    length byte, the buffer is rewound and the next event is planned. *)
Definition after_frame (session : rspamd_milter_session) : rspamd_milter_session :=
  let session := on_parser parser_next_command session in
  let session :=
    on_parser (fun ps => set_pos 0 (set_buf (set_len 0 (buf ps)) ps)) session in
  rspamd_milter_plan_io session
    (match out_chain (priv session) with
     | _ :: _ => EV_READ_WRITE
     | [] => EV_READ
     end).

(** A payload fits the session: it is no longer than two chunks, the
    buffer holds its frame, and its length word is below 2^31, where
    the parser's shift of the first length byte is defined. *)
Definition fits (session : rspamd_milter_session) (payload : bytes) : Prop :=
  blen payload <= RSPAMD_MILTER_MESSAGE_CHUNK * 2
  /\ blen payload + 5 <= allocated (buf (parser (priv session)))
  /\ blen payload + 1 < 2 ^ 31.

(** The payload of a HEADER command, and the line the header makes in
    the message. *)
Definition header_payload (h : bytes * bytes) : bytes :=
  h.1 ++ [NUL] ++ h.2 ++ [NUL].

Definition header_line (h : bytes * bytes) : bytes :=
  h.1 ++ cstr ": " ++ h.2 ++ ["013"; "010"]%char.

(** The frames of a message as the MTA sends it: the headers, the end
    of the headers, the body in chunks; and the text they stand for. *)
Definition message_frames (hs : list (bytes * bytes)) (bs : list bytes)
    : list bytes :=
  ((fun h => wire_frame "L" (header_payload h)) <$> hs)
  ++ [wire_frame "N" []] ++ (wire_frame "B" <$> bs).

Definition message_text (hs : list (bytes * bytes)) (bs : list bytes) : bytes :=
  concat (header_line <$> hs) ++ ["013"; "010"]%char ++ concat bs.





(** The two flags of [session'] are those of [session]. *)
Definition same_flags (session session' : rspamd_milter_session) : Prop :=
  discard_on_reject (priv session') = discard_on_reject (priv session)
  /\ no_action (priv session') = no_action (priv session).

(** The flags a milter block asks for, on a session that holds the
    flags [flags]: [reject] decides the first when it is a string,
    [no_action] the second when it is a boolean. *)
Definition block_flags (obj : ucl_object_t) (flags : bool * bool) : bool * bool :=
  (match ucl_object_lookup obj "reject" with
   | Some (UCL_STRING v) => bool_decide (v = cstr "discard")
   | _ => flags.1
   end,
   match ucl_object_lookup obj "no_action" with
   | Some (UCL_BOOLEAN b) => b
   | _ => flags.2
   end).

Definition session_flags (session : rspamd_milter_session) : bool * bool :=
  (discard_on_reject (priv session), no_action (priv session)).

(** Two requests with the same URL and headers. *)
Definition same_head (m1 m2 : rspamd_http_message) : Prop :=
  url m1 = url m2 /\ http_headers m1 = http_headers m2.

(** How often a request carries a header of the name [name]. *)
Definition header_count (name : bytes) (msg : rspamd_http_message) : nat :=
  length (filter (fun n => n = name) (fst <$> http_headers msg)).

(** The names of the headers [msg'] has behind those of [msg]. *)
Definition header_names_added (msg msg' : rspamd_http_message)
    (names : list bytes) : Prop :=
  fst <$> http_headers msg' = (fst <$> http_headers msg) ++ names.

(** One name, or none. *)
Definition name_if (b : bool) (name : bytes) : list bytes :=
  if b then [name] else [].

(** The names of the headers of a request, in the order they are
    added; [found] tells whether a macro is in the table. *)
Definition request_header_names (session : rspamd_milter_session) : list bytes :=
  let found lits :=
    bool_decide (is_Some (first_macro (default ∅ (macros session)) lits)) in
  name_if (bool_decide (blen (default [] (hostname session)) > 0)) HOSTNAME_HEADER
  ++ name_if (bool_decide (blen (default [] (helo session)) > 0)) HELO_HEADER
  ++ name_if (bool_decide (is_Some (from session))) FROM_HEADER
  ++ replicate (length (default [] (rcpts session))) RCPT_HEADER
  ++ name_if (bool_decide (is_Some (addr session))) IP_ADDR_HEADER
  ++ name_if (found ["{i}"; "i"]) QUEUE_ID_HEADER
  ++ name_if (found ["{daemon_name}"]) MTA_TAG_HEADER
  ++ name_if (found ["{v}"; "v"]) USER_AGENT_HEADER
  ++ name_if (found ["{cipher}"]) TLS_CIPHER_HEADER
  ++ name_if (found ["{tls_version}"]) TLS_VERSION_HEADER
  ++ name_if (found ["{auth_authen}"]) USER_HEADER
  ++ name_if (bool_decide (default [] (hostname session) = [])
              && found ["{client_name}"]) HOSTNAME_HEADER
  ++ name_if (found ["{daemon_name}"; "{j}"; "j"]) MTA_NAME_HEADER
  ++ [MILTER_HEADER].

End Vocabulary.

(** * Scenarios

    Sessions and verdicts on explicit bytes, with the collaborators of
    [milter_defaults]. *)

Section Scenarios.

#[local] Existing Instance milter_defaults.

(** A connection that has received nothing yet. *)
Definition fresh_session : rspamd_milter_session :=
  rspamd_milter_session_new milter_ctx_defaults.

(** [session] with the parser at a command [cmd] whose payload [payload]
    is the only content of the buffer. *)
Definition at_command (session : rspamd_milter_session) (cmd : ascii)
    (payload : bytes) : rspamd_milter_session :=
  on_parser (fun ps =>
    mk_parser {| str := payload; len := blen payload;
                 allocated := allocated (buf ps) |}
              (pos ps) 0 (blen payload) st_read_data cmd) session.

(** A fresh session with the parser at a command [cmd] whose payload
    [payload] opens the buffer, and with the bytes [behind] stored in
    the buffer after the frame (the next frame, or what an earlier read
    left there). *)
Definition at_command_before (cmd : ascii) (payload behind : bytes)
    : rspamd_milter_session :=
  on_parser (fun ps =>
    mk_parser {| str := payload ++ behind; len := blen payload;
                 allocated := allocated (buf ps) |}
              (pos ps) 0 (blen payload) st_read_data cmd) fresh_session.

(** A session in the middle of a message, at an ABORT command. *)
Definition session_at_abort : rspamd_milter_session :=
  {| addr := Some {| af := AF_INET; addr_text := Some (cstr "203.0.113.5");
                     addr_port := 25 |};
     hostname := Some (cstr "mx.example");
     helo := Some (cstr "mx.example");
     from := Some (cstr "<a@x>");
     rcpts := Some [cstr "<b@y>"];
     message := Some (cstr "Subject: Hi");
     macros := Some {[ cstr "i" := cstr "4F2A" ]};
     priv :=
       {| parser :=
            mk_parser {| str := wire_frame "A" []; len := 5; allocated := 65541 |}
                      0 5 0 st_read_data "A";
          out_chain := [];
          state := RSPAMD_MILTER_READ_MORE;
          headers := {[ cstr "subject" := 1 ]};
          discard_on_reject := false;
          no_action := false;
          ev := Some EV_READ;
          calls := [] |} |}.

(** The session after the HEADER commands [Subject: Hi] and
    [subject: again], and the steps that lead there. *)
Definition after_first_header : rspamd_milter_session :=
  default fresh_session
    (fst <$> rspamd_milter_process_command
               (at_command fresh_session "L"
                  (cstr "Subject" ++ [NUL] ++ cstr "Hi" ++ [NUL]))).

Definition after_second_header : rspamd_milter_session :=
  default fresh_session
    (fst <$> rspamd_milter_process_command
               (at_command after_first_header "L"
                  (cstr "subject" ++ [NUL] ++ cstr "again" ++ [NUL]))).

(** Two messages on one connection with no ABORT between them, each
    with one Subject header. *)
Definition first_message : list bytes :=
  [wire_frame "M" (cstr "<a@x>" ++ [NUL]);
   wire_frame "L" (cstr "Subject" ++ [NUL] ++ cstr "Hi" ++ [NUL]);
   wire_frame "N" []; wire_frame "B" (cstr "x"); wire_frame "E" []].

Definition second_message : list bytes :=
  [wire_frame "M" (cstr "<c@z>" ++ [NUL]);
   wire_frame "L" (cstr "Subject" ++ [NUL] ++ cstr "again" ++ [NUL]);
   wire_frame "N" []; wire_frame "B" (cstr "y"); wire_frame "E" []].

(** A verdict that asks for nothing. *)
Definition accept_verdict : ucl_object_t :=
  UCL_OBJECT [(cstr "action", UCL_STRING (cstr "no action"))].

(** The connection after the first message, after the host has built
    the request and delivered the verdict, and after the second
    message. *)
Definition after_first_message : rspamd_milter_session :=
  default fresh_session (fst <$> feed fresh_session first_message).

Definition between_messages : rspamd_milter_session :=
  rspamd_milter_send_task_results milter_ctx_defaults
    (snd (@rspamd_milter_to_http milter_defaults request_defaults
            after_first_message))
    (Some accept_verdict).

Definition after_second_message : rspamd_milter_session :=
  default fresh_session (fst <$> feed between_messages second_message).

(** Scenario S1: OPTNEG with version 2, no actions, no protocol flags. *)
Definition session_at_optneg : rspamd_milter_session :=
  at_command fresh_session "O" (htonl_bytes 2 ++ htonl_bytes 0 ++ htonl_bytes 0).

(** Scenario S2: the verdict [{action: reject, messages: {smtp_message: no}}]. *)
Definition reject_verdict : ucl_object_t :=
  UCL_OBJECT
    [(cstr "action", UCL_STRING (cstr "reject"));
     (cstr "messages", UCL_OBJECT [(cstr "smtp_message", UCL_STRING (cstr "no"))])].

(** A session created with [discard_on_reject] set. *)
Definition discard_session : rspamd_milter_session :=
  rspamd_milter_session_new
    {| spam_header := cstr "X-Spam"; ctx_discard_on_reject := true |}.

(** Reject verdicts whose milter block changes a flag. *)
Definition bounce_verdict : ucl_object_t :=
  UCL_OBJECT
    [(cstr "action", UCL_STRING (cstr "reject"));
     (cstr "milter", UCL_OBJECT [(cstr "reject", UCL_STRING (cstr "bounce"))])].

Definition no_action_verdict : ucl_object_t :=
  UCL_OBJECT
    [(cstr "action", UCL_STRING (cstr "reject"));
     (cstr "milter", UCL_OBJECT [(cstr "no_action", UCL_BOOLEAN true)])].

(** The session of the ABORT scenario, at a QUIT_NC command instead. *)
Definition session_at_quit_nc : rspamd_milter_session :=
  at_command session_at_abort "K" [].

(** A HELO command with the argument [mx.example]. *)
Definition session_at_helo : rspamd_milter_session :=
  at_command fresh_session "H" (cstr "mx.example" ++ [NUL]).

(** A MAIL command with an ESMTP argument behind the sender. *)
Definition session_at_mail : rspamd_milter_session :=
  at_command fresh_session "M"
    (cstr "<a@x>" ++ [NUL] ++ cstr "SIZE=100" ++ [NUL]).

(** A RCPT command whose second string is empty: the payload
    [<b@y> NUL NUL <c@z> NUL]. *)
Definition rcpt_tail_scenario : bytes := [NUL] ++ cstr "<c@z>" ++ [NUL].

Definition session_at_rcpt : rspamd_milter_session :=
  at_command fresh_session "R" (nul_terminated [cstr "<b@y>"] ++ rcpt_tail_scenario).

(** A CONNECT command of an INET peer, port 25. *)
Definition connect_payload : bytes :=
  cstr "mx.example" ++ [NUL; "4"; "000"; "025"]%char ++ cstr "203.0.113.5" ++ [NUL].

Definition session_at_connect : rspamd_milter_session :=
  at_command fresh_session "C" connect_payload.

(** A CONNECT command whose address has no NUL behind it. *)
Definition session_at_short_connect : rspamd_milter_session :=
  at_command fresh_session "C"
    (cstr "mx.example" ++ [NUL; "4"; "000"; "025"]%char ++ cstr "203.0.113.5").

(** A MACRO command for the stage of CONNECT with the queue id and the
    mail host. *)
Definition macro_scenario : list (bytes * bytes) :=
  [(cstr "i", cstr "4F2A"); (cstr "{mail_host}", cstr "mx.example")].

Definition session_at_macro : rspamd_milter_session :=
  at_command fresh_session "D" ("C"%char :: macro_pairs macro_scenario).

(** A QUIT command that arrives while the replies of a reject verdict
    are still in the queue. *)
Definition session_at_quit : rspamd_milter_session :=
  at_command (rspamd_milter_send_task_results milter_ctx_defaults fresh_session
                (Some reject_verdict)) "Q" [].

(** A message of one header and one body chunk. *)
Definition one_header : list (bytes * bytes) := [(cstr "Subject", cstr "Hi")].

Definition one_chunk : list bytes := [cstr "Hello"].

(** A scan result that names no action. *)
Definition verdict_without_action : ucl_object_t :=
  UCL_OBJECT [(cstr "score", UCL_INT 3)].

(** The verdict [{action: soft reject}]. *)
Definition soft_reject_verdict : ucl_object_t :=
  UCL_OBJECT [(cstr "action", UCL_STRING (cstr "soft reject"))].



(** The verdict [{action: rewrite subject, subject: *** SPAM *** Hi}]. *)
Definition rewrite_subject_verdict : ucl_object_t :=
  UCL_OBJECT [(cstr "action", UCL_STRING (cstr "rewrite subject"));
              (cstr "subject", UCL_STRING (cstr "*** SPAM *** Hi"))].

(** A reject verdict whose milter block asks to discard. *)
Definition discard_verdict : ucl_object_t :=
  UCL_OBJECT
    [(cstr "action", UCL_STRING (cstr "reject"));
     (cstr "milter", UCL_OBJECT [(cstr "reject", UCL_STRING (cstr "discard"))])].

(** A milter block that adds two headers, the first with an order. *)
Definition ordered_entry : ucl_object_t :=
  UCL_OBJECT [(cstr "value", UCL_STRING (cstr "one")); (cstr "order", UCL_INT 0)].

Definition plain_entry : ucl_object_t :=
  UCL_OBJECT [(cstr "value", UCL_STRING (cstr "two"))].

Definition two_headers_block : ucl_object_t :=
  UCL_OBJECT
    [(cstr "add_headers",
      UCL_OBJECT [(cstr "X-First", ordered_entry); (cstr "X-Second", plain_entry)])].

End Scenarios.

(** * Properties *)

(** ** Bytes and network byte order *)

Lemma Z_of_byte_range c : 0 <= Z_of_byte c < 256.
Proof.
  unfold Z_of_byte. pose proof (N_ascii_bounded c). lia.
Qed.

Lemma Z_of_byte_of_Z z : Z_of_byte (byte_of_Z z) = Z.land z 255.
Proof.
  unfold Z_of_byte, byte_of_Z.
  assert (H : 0 <= Z.land z 255 < 256).
  { change 255 with (Z.ones 8). rewrite Z.land_ones by lia.
    apply Z.mod_pos_bound. lia. }
  rewrite N_ascii_embedding by lia.
  rewrite Z2N.id; lia.
Qed.

Lemma byte_of_Z_of_byte c : byte_of_Z (Z_of_byte c) = c.
Proof.
  unfold byte_of_Z. pose proof (Z_of_byte_range c) as H.
  change 255 with (Z.ones 8). rewrite Z.land_ones by lia.
  rewrite Z.mod_small by lia.
  unfold Z_of_byte. rewrite N2Z.id. apply ascii_N_embedding.
Qed.

Lemma testbit_255 n : 0 <= n -> Z.testbit 255 n = bool_decide (n < 8).
Proof.
  intros Hn. change 255 with (Z.ones 8).
  destruct (decide (n < 8)) as [H|H].
  - rewrite Z.ones_spec_low by lia. by rewrite bool_decide_true.
  - rewrite Z.ones_spec_high by lia. by rewrite bool_decide_false.
Qed.

(** Reading back the four bytes [htonl_bytes] stored gives the value,
    reduced to 32 bits. *)
Lemma ntohl_htonl v :
  ntohl_bytes (byte_of_Z (Z.shiftr v 24)) (byte_of_Z (Z.shiftr v 16))
              (byte_of_Z (Z.shiftr v 8)) (byte_of_Z v)
  = Z.land v (Z.ones 32).
Proof.
  unfold ntohl_bytes. rewrite !Z_of_byte_of_Z.
  apply Z.bits_inj'. intros n Hn.
  rewrite !Z.lor_spec, !Z.land_spec.
  rewrite !Z.shiftl_spec by lia.
  destruct (decide (n < 32)) as [H32|H32].
  - rewrite Z.ones_spec_low by lia. rewrite andb_true_r.
    destruct (decide (n < 8)) as [H8|H8].
    { rewrite (Z.testbit_neg_r _ (n - 24)), (Z.testbit_neg_r _ (n - 16)),
        (Z.testbit_neg_r _ (n - 8)) by lia.
      rewrite testbit_255 by lia. rewrite bool_decide_true by lia.
      simpl. by rewrite andb_true_r. }
    destruct (decide (n < 16)) as [H16|H16].
    { rewrite (Z.testbit_neg_r _ (n - 24)), (Z.testbit_neg_r _ (n - 16)) by lia.
      rewrite !Z.land_spec, Z.shiftr_spec by lia.
      rewrite !testbit_255 by lia.
      rewrite (bool_decide_true (n - 8 < 8)), (bool_decide_false (n < 8)) by lia.
      replace (n - 8 + 8) with n by lia. simpl.
      by rewrite andb_true_r, andb_false_r, orb_false_r. }
    destruct (decide (n < 24)) as [H24|H24].
    { rewrite (Z.testbit_neg_r _ (n - 24)) by lia.
      rewrite !Z.land_spec, !Z.shiftr_spec by lia.
      rewrite !testbit_255 by lia.
      rewrite (bool_decide_true (n - 16 < 8)), (bool_decide_false (n - 8 < 8)),
        (bool_decide_false (n < 8)) by lia.
      replace (n - 16 + 16) with n by lia. simpl.
      by rewrite andb_true_r, !andb_false_r, !orb_false_r. }
    rewrite !Z.land_spec, !Z.shiftr_spec by lia.
    rewrite !testbit_255 by lia.
    rewrite (bool_decide_true (n - 24 < 8)), (bool_decide_false (n - 16 < 8)),
      (bool_decide_false (n - 8 < 8)), (bool_decide_false (n < 8)) by lia.
    replace (n - 24 + 24) with n by lia. simpl.
    by rewrite andb_true_r, !andb_false_r, !orb_false_r.
  - rewrite Z.ones_spec_high by lia. rewrite andb_false_r.
    rewrite !Z.land_spec, !Z.shiftr_spec by lia.
    rewrite !testbit_255 by lia.
    rewrite (bool_decide_false (n - 24 < 8)), (bool_decide_false (n - 16 < 8)),
      (bool_decide_false (n - 8 < 8)), (bool_decide_false (n < 8)) by lia.
    by rewrite !andb_false_r.
Qed.

Lemma ntohl_htonl_u32 v :
  0 <= v < 2 ^ 32 ->
  ntohl_bytes (byte_of_Z (Z.shiftr v 24)) (byte_of_Z (Z.shiftr v 16))
              (byte_of_Z (Z.shiftr v 8)) (byte_of_Z v) = v.
Proof.
  intros H. rewrite ntohl_htonl, Z.land_ones by lia.
  apply Z.mod_small. lia.
Qed.

(** ** Buffer reads *)

Lemma blen_app (a b : bytes) : blen (a ++ b) = blen a + blen b.
Proof. unfold blen. rewrite length_app. lia. Qed.

Lemma blen_nonneg (a : bytes) : 0 <= blen a.
Proof. unfold blen. lia. Qed.

Lemma bytes_at_app (pre l post : bytes) :
  bytes_at (pre ++ l ++ post) (blen pre) (blen l) = Some l.
Proof.
  unfold bytes_at, blen. rewrite bool_decide_true.
  - rewrite !Nat2Z.id. rewrite drop_app_length, take_app_length. done.
  - rewrite !length_app. lia.
Qed.

Lemma bytes_at_split (m : bytes) (i n : Z) (l : bytes) :
  bytes_at m i n = Some l ->
  exists pre post, m = pre ++ l ++ post /\ blen pre = i /\ blen l = n.
Proof.
  unfold bytes_at, blen. case_bool_decide as Hb; [|done].
  intros [= <-]. destruct Hb as (Hi & Hn & Hlen).
  exists (take (Z.to_nat i) m), (drop (Z.to_nat n) (drop (Z.to_nat i) m)).
  split; [|split].
  - by rewrite take_drop, take_drop.
  - rewrite length_take. lia.
  - rewrite length_take, length_drop. lia.
Qed.

Lemma byte_at_app (pre l post : bytes) (i : nat) (c : ascii) :
  l !! i = Some c ->
  byte_at (pre ++ l ++ post) (blen pre + Z.of_nat i) = Some c.
Proof.
  intros Hc. unfold byte_at, blen. rewrite bool_decide_true by lia.
  replace (Z.to_nat (Z.of_nat (length pre) + Z.of_nat i))
    with (length pre + i)%nat by lia.
  rewrite lookup_app_r by lia.
  replace (length pre + i - length pre)%nat with i by lia.
  by rewrite lookup_app_l by (by eapply lookup_lt_Some).
Qed.

Lemma memchr_scan_found (name rest : bytes) (i : Z) (n : nat) :
  NUL ∉ name -> (length name < n)%nat ->
  memchr_scan (name ++ NUL :: rest) i n = Some (Some (i + blen name)).
Proof.
  revert i n. induction name as [|c name IH]; intros i n Hnot Hn.
  - destruct n; [lia|]. cbn [app memchr_scan]. rewrite decide_True by done.
    unfold blen. simpl. do 2 f_equal. lia.
  - destruct n; [simpl in Hn; lia|]. cbn [app memchr_scan].
    rewrite decide_False by (intros ->; apply Hnot; left).
    rewrite IH; [|set_solver|simpl in Hn; lia].
    unfold blen. simpl. do 2 f_equal. lia.
Qed.

Lemma memchr_app (pre name rest : bytes) (n : Z) :
  NUL ∉ name -> blen name < n ->
  memchr (pre ++ name ++ NUL :: rest) (blen pre) n
  = Some (Some (blen pre + blen name)).
Proof.
  intros Hnot Hn. unfold memchr. rewrite bool_decide_true by apply blen_nonneg.
  unfold blen at 1. rewrite Nat2Z.id, drop_app_length.
  apply memchr_scan_found; [done|]. unfold blen in Hn. lia.
Qed.

(** ** Updates leave the other fields alone *)

Lemma cmd_of_byte_letter (k : rspamd_milter_command) :
  cmd_of_byte (cmd_letter k) = Some k.
Proof. by destruct k. Qed.

Section Properties.

Context `{!Collaborators}.

Lemma send_action_spec (session : rspamd_milter_session)
    (act : rspamd_milter_reply) (ap : va_list) (reply : bytes) :
  build_reply act ap = Some reply ->
  exists session',
    rspamd_milter_send_action session act ap = (session', true)
    /\ out_chain (priv session')
       = out_chain (priv session) ++ [{| obuf_buf := reply; obuf_pos := 0 |}]
    /\ state (priv session') = RSPAMD_MILTER_WRITE_REPLY
    /\ headers (priv session') = headers (priv session)
    /\ discard_on_reject (priv session') = discard_on_reject (priv session)
    /\ no_action (priv session') = no_action (priv session)
    /\ calls (priv session') = calls (priv session).
Proof.
  intros Hr. unfold rspamd_milter_send_action. rewrite Hr.
  eexists. split; [reflexivity|]. simpl. done.
Qed.

(** A reply is the length word, the letter and the payload of the
    design's table, whenever the arguments fit the action. *)
Lemma build_reply_layout (act : rspamd_milter_reply) (ap : va_list)
    (payload : bytes) :
  payload_layout act ap = Some payload ->
  build_reply act ap
  = Some (htonl_bytes (blen payload + 1) ++ [reply_letter act] ++ payload).
Proof.
  intros Hp.
  destruct act, ap; simpl in Hp; try discriminate; injection Hp as <-;
    unfold build_reply, SET_COMMAND; cbn [reply_letter];
    rewrite <- ?app_assoc; cbn [app];
    apply (f_equal Some), (f_equal2 app); try reflexivity;
    apply (f_equal htonl_bytes);
    unfold blen, htonl_bytes;
    repeat (progress (rewrite ?length_app; cbn [length])); lia.
Qed.

(** ** The session reset on ABORT (claim C7) *)

(** C7.  After an ABORT command is processed, the sender, the
    recipients, the HELO argument, the hostname and the message hold
    nothing and the header-count map is empty, while the connection
    address and the macro map are the ones the session had before. *)
Theorem abort_clears_envelope_keeps_addr_and_macros
    (session : rspamd_milter_session) :
  cur_cmd (parser (priv session)) = cmd_letter RSPAMD_MILTER_CMD_ABORT ->
  exists session',
    rspamd_milter_process_command session = Some (session', true)
    /\ from session' = None
    /\ rcpts session' = None
    /\ field_bytes (helo session') = []
    /\ field_bytes (hostname session') = []
    /\ field_bytes (message session') = []
    /\ headers (priv session') = ∅
    /\ addr session' = addr session
    /\ macros session' = macros session.
Proof.
  intros Hcmd. unfold rspamd_milter_process_command.
  rewrite Hcmd, cmd_of_byte_letter.
  eexists. split; [reflexivity|].
  unfold rspamd_milter_session_reset. simpl.
  repeat split; try reflexivity.
  - by destruct (helo session).
  - by destruct (hostname session).
  - by destruct (message session).
Qed.

(** ** Header removal *)

Lemma send_chgheader (session : rspamd_milter_session) (i : Z) (key : bytes) :
  let session' :=
    send session RSPAMD_MILTER_CHGHEADER (va_idx_name_value i key []) in
  out_chain (priv session')
  = out_chain (priv session) ++ [chgheader_frame i key]
  /\ headers (priv session') = headers (priv session).
Proof.
  unfold send, rspamd_milter_send_action, build_reply, chgheader_frame,
    SET_COMMAND.
  cbn -[htonl_bytes blen]. split; [|done].
  replace (blen key + blen [] + 2 + 4 + 1) with (blen key + 7)
    by (unfold blen; simpl; lia).
  by rewrite <- !app_assoc.
Qed.

Lemma send_chgheader_all (key : bytes) (l : list Z)
    (session : rspamd_milter_session) :
  out_chain (priv (foldl (fun session i =>
                            send session RSPAMD_MILTER_CHGHEADER
                                 (va_idx_name_value i key []))
                         session l))
  = out_chain (priv session) ++ ((fun i => chgheader_frame i key) <$> l).
Proof.
  revert session. induction l as [|i l IH]; intros session; simpl.
  - by rewrite app_nil_r.
  - rewrite IH. destruct (send_chgheader session i key) as [-> _].
    by rewrite <- app_assoc.
Qed.

(** C10.  For a header name that has no entry in the header-count map,
    a removal request leaves the session as it is, whatever the
    position: no frame is enqueued for a positive position, for
    position 0 or for a negative one. *)
Theorem remove_header_without_entry_is_noop
    (session : rspamd_milter_session) (key : bytes) (nhdr : Z) :
  headers (priv session) !! rspamd_strcase_key key = None ->
  rspamd_milter_remove_header_safe session key nhdr = session
  /\ out_chain (priv (rspamd_milter_remove_header_safe session key nhdr))
     = out_chain (priv session).
Proof.
  intros Hnone.
  assert (Heq : rspamd_milter_remove_header_safe session key nhdr = session).
  { unfold rspamd_milter_remove_header_safe, headers_lookup.
    rewrite Hnone. reflexivity. }
  by rewrite Heq.
Qed.

Lemma remove_header_with_count (session : rspamd_milter_session)
    (key : bytes) (K p : Z) :
  headers (priv session) !! rspamd_strcase_key key = Some K -> K ≠ 0 ->
  out_chain (priv (rspamd_milter_remove_header_safe session key p))
  = out_chain (priv session) ++ removal_frames K key p.
Proof.
  intros HK Hne.
  unfold rspamd_milter_remove_header_safe, headers_lookup, removal_frames.
  rewrite HK. simpl. rewrite bool_decide_true by done.
  unfold g_string_new. simpl.
  repeat case_bool_decide; try lia.
  - by destruct (send_chgheader session p key) as [-> _].
  - apply send_chgheader_all.
  - by destruct (send_chgheader session (K + p + 1) key) as [-> _].
  - by rewrite app_nil_r.
Qed.

(** ** Header counts (claim C4) *)

Lemma header_command (session : rspamd_milter_session) (name value : bytes) :
  holds_header (parser (priv session)) name value ->
  exists session',
    rspamd_milter_process_command session = Some (session', true)
    /\ headers (priv session')
       = <[rspamd_strcase_key name :=
             next_count (headers_lookup (headers (priv session)) name)]>
           (headers (priv session))
    /\ message session'
       = Some (field_bytes (message session)
               ++ name ++ cstr ": " ++ value ++ ["013"; "010"]%char).
Proof.
  intros (Hcmd & Hnul & Hat).
  destruct (bytes_at_split _ _ _ _ Hat) as (pre & post & Hm & Hpre & Hlen).
  unfold rspamd_milter_process_command.
  rewrite Hcmd, cmd_of_byte_letter.
  set (ps := parser (priv session)) in *.
  rewrite Hm, <- Hpre, <- Hlen.
  rewrite !blen_app. change (blen [NUL]) with 1.
  assert (Hzero :
    memchr (pre ++ (name ++ [NUL] ++ value ++ [NUL]) ++ post) (blen pre)
           (blen name + (1 + (blen value + 1)))
    = Some (Some (blen pre + blen name))).
  { rewrite <- !app_assoc. apply memchr_app; [done|].
    pose proof (blen_nonneg value). lia. }
  rewrite Hzero. cbn [mbind option_bind].
  assert (Hlast :
    byte_at (pre ++ (name ++ [NUL] ++ value ++ [NUL]) ++ post)
            (blen pre + (blen name + (1 + (blen value + 1))) - 1) = Some NUL).
  { replace (blen pre + (blen name + (1 + (blen value + 1))) - 1)
      with (blen pre + Z.of_nat (length name + 1 + length value))
      by (unfold blen; lia).
    apply byte_at_app.
    replace (name ++ [NUL] ++ value ++ [NUL])
      with ((name ++ [NUL] ++ value) ++ [NUL]) by (by rewrite <- !app_assoc).
    apply list_lookup_middle. rewrite !length_app. simpl. lia. }
  rewrite Hlast. cbn [mbind option_bind].
  rewrite bool_decide_true by (pose proof (blen_nonneg value); lia).
  rewrite bool_decide_true by done. cbn [andb].
  replace (blen pre + blen name - blen pre) with (blen name) by lia.
  assert (Hname :
    bytes_at (pre ++ (name ++ [NUL] ++ value ++ [NUL]) ++ post) (blen pre)
             (blen name) = Some name).
  { rewrite <- !app_assoc. apply bytes_at_app. }
  rewrite Hname. cbn [mbind option_bind].
  rewrite (bool_decide_true (0 <= _))
    by (pose proof (blen_nonneg value); lia).
  assert (Hvalue :
    bytes_at (pre ++ (name ++ [NUL] ++ value ++ [NUL]) ++ post)
             (blen pre + blen name + 1)
             (blen pre + (blen name + (1 + (blen value + 1)))
              - (blen pre + blen name) - 2) = Some value).
  { replace (blen pre + (blen name + (1 + (blen value + 1)))
             - (blen pre + blen name) - 2) with (blen value) by lia.
    replace (blen pre + blen name + 1) with (blen (pre ++ name ++ [NUL]))
      by (rewrite !blen_app; change (blen [NUL]) with 1; lia).
    replace (pre ++ (name ++ [NUL] ++ value ++ [NUL]) ++ post)
      with ((pre ++ name ++ [NUL]) ++ value ++ ([NUL] ++ post))
      by (by rewrite <- !app_assoc).
    apply bytes_at_app. }
  rewrite Hvalue. cbn [mbind option_bind].
  eexists. split; [reflexivity|]. split; reflexivity.
Qed.

(** Take a run of the option monad apart, branch by branch. *)
Ltac break_run :=
  repeat first [progress simplify_option_eq | case_match | case_bool_decide].

Lemma protocol_error_headers (session session' : rspamd_milter_session)
    (code : errno) (msg : string) (ok : bool) :
  protocol_error session code msg = Some (session', ok) ->
  headers (priv session') = headers (priv session).
Proof. by intros [= <- <-]. Qed.

Lemma macro_loop_headers (fuel : nat) (session : rspamd_milter_session)
    (m : bytes) (end_ pos cmdlen : Z) (session' : rspamd_milter_session)
    (ok : bool) :
  macro_loop fuel session m end_ pos cmdlen = Some (session', ok) ->
  headers (priv session') = headers (priv session).
Proof.
  revert session pos cmdlen.
  induction fuel as [|fuel IH]; intros session pos cmdlen; simpl;
    case_bool_decide; try (by intros [= <- <-]).
  intros Hrun. unfold protocol_error in Hrun. break_run; try done.
  all: match goal with
       | Hl : macro_loop _ _ _ _ _ _ = Some _ |- _ =>
           apply IH in Hl; by rewrite Hl
       end.
Qed.

Lemma rcpts_add_headers (session : rspamd_milter_session) (a : option bytes) :
  headers (priv (rcpts_add session a)) = headers (priv session).
Proof. by destruct a. Qed.

Lemma rcpt_loop_headers (fuel : nat) (session : rspamd_milter_session)
    (m : bytes) (end_ pos : Z) (session' : rspamd_milter_session) (ok : bool) :
  rcpt_loop fuel session m end_ pos = Some (session', ok) ->
  headers (priv session') = headers (priv session).
Proof.
  revert session pos.
  induction fuel as [|fuel IH]; intros session pos; simpl;
    case_bool_decide; try (by intros [= <- <-]).
  intros Hrun. break_run; try done; try (by rewrite rcpts_add_headers).
  all: match goal with
       | Hl : rcpt_loop _ _ _ _ _ = Some _ |- _ =>
           apply IH in Hl; by rewrite Hl, rcpts_add_headers
       end.
Qed.

Lemma connect_address_headers (session : rspamd_milter_session) (m : bytes)
    (pos end_ : Z) (session' : rspamd_milter_session) (ok : bool) :
  connect_address session m pos end_ = Some (session', ok) ->
  headers (priv session') = headers (priv session).
Proof.
  unfold connect_address, protocol_error. intros Hrun.
  break_run; done.
Qed.

Lemma set_from_if_headers (session : rspamd_milter_session) (a : option bytes) :
  headers (priv (set_from_if session a)) = headers (priv session).
Proof. by destruct a. Qed.

Lemma process_command_keeps_headers (session session' : rspamd_milter_session)
    (ok : bool) :
  keeps_headers_cmd (cur_cmd (parser (priv session))) = true ->
  rspamd_milter_process_command session = Some (session', ok) ->
  headers (priv session') = headers (priv session).
Proof.
  unfold keeps_headers_cmd, rspamd_milter_process_command.
  destruct (cmd_of_byte (cur_cmd (parser (priv session)))) as [[]|];
    try discriminate; intros _ Hrun.
  - break_run. done.
  - unfold protocol_error in Hrun. break_run; try done.
    all: match goal with
         | Hc : connect_address _ _ _ _ = Some _ |- _ =>
             apply connect_address_headers in Hc; by rewrite Hc
         end.
  - apply macro_loop_headers in Hrun. rewrite Hrun. by destruct (macros session).
  - by break_run.
  - break_run; done.
  - break_run; by rewrite ?set_from_if_headers.
  - by break_run.
  - unfold protocol_error, rspamd_milter_send_action in Hrun. break_run; done.
  - break_run; done.
  - by apply rcpt_loop_headers in Hrun.
  - break_run; done.
  - by break_run.
  - by break_run.
Qed.

Lemma count_name_snoc (key name : bytes) (names : list bytes) :
  count_name key (names ++ [name])
  = count_name key names
    + (if bool_decide (rspamd_strcase_key name = rspamd_strcase_key key)
       then 1 else 0).
Proof.
  unfold count_name. rewrite filter_app, length_app.
  case_bool_decide.
  - rewrite filter_cons_True by done. simpl. lia.
  - rewrite filter_cons_False by done. simpl. lia.
Qed.

Lemma wrap_gint_small (z : Z) : - 2 ^ 31 <= z < 2 ^ 31 -> wrap_gint z = z.
Proof.
  intros Hz. unfold wrap_gint. rewrite Z.mod_small; lia.
Qed.

Lemma command_run_counts (s0 s : rspamd_milter_session) (names : list bytes) :
  headers (priv s0) = ∅ ->
  command_run s0 names s ->
  forall key, count_name key names < 2 ^ 31 ->
    headers_lookup (headers (priv s)) key = count_name key names.
Proof.
  intros Hempty Hrun. induction Hrun as
    [|names s s1 name value s' Hrun IH Hsame Hholds Hstep
     |names s s1 s' ok Hrun IH Hsame Hkeeps Hstep]; intros key Hbound.
  - unfold headers_lookup. by rewrite Hempty, lookup_empty.
  - destruct (header_command s1 name value Hholds) as (s2 & Hs2 & Hh & _).
    rewrite Hstep in Hs2. injection Hs2 as <-.
    rewrite count_name_snoc in Hbound |- *.
    assert (Hge : 0 <= count_name name names) by (unfold count_name; lia).
    assert (Hge' : 0 <= count_name key names) by (unfold count_name; lia).
    unfold headers_lookup at 1. rewrite Hh.
    case_bool_decide as Hk.
    + rewrite Hk, lookup_insert_eq. simpl.
      assert (Hres : headers_lookup (headers (priv s1)) name
                     = count_name key names).
      { unfold headers_lookup. rewrite Hsame, Hk.
        apply (IH key). lia. }
      rewrite Hres. unfold next_count. case_bool_decide.
      * apply wrap_gint_small. lia.
      * lia.
    + rewrite lookup_insert_ne by done. rewrite Hsame.
      rewrite Z.add_0_r. apply IH. lia.
  - rewrite (process_command_keeps_headers _ _ _ Hkeeps Hstep), Hsame.
    by apply IH.
Qed.

Lemma positions_length (n : Z) : 0 <= n -> Z.of_nat (length (positions n)) = n.
Proof.
  intros Hn. unfold positions. rewrite length_fmap, length_seq. lia.
Qed.

Lemma positions_lookup (n : Z) (i : nat) :
  Z.of_nat i < n -> positions n !! i = Some (Z.of_nat i + 1).
Proof.
  intros Hi. unfold positions. rewrite list_lookup_fmap.
  rewrite lookup_seq_lt by lia. simpl. f_equal. lia.
Qed.

(** C4, as amended.  When the HEADER commands received since the
    header table was last empty (a new session, or the last ABORT or
    QUIT_NC: the end of a message does not clear the table) recorded
    the name [H] [K] times ([K] at least 1, and within the range of the
    [gint] that counts), the header-count map holds [K] for [H], and a
    removal request for [H] at position [p] enqueues one CHGHEADER
    (p, H, empty) when [p >= 1]; the [K] frames CHGHEADER (i, H, empty)
    for i = 1..K when [p = 0]; one CHGHEADER (K + p + 1, H, empty) when
    [-K <= p < 0]; and nothing when [p < -K].  Names are counted as the
    table compares them. *)
Theorem header_count_drives_removal
    (s0 s : rspamd_milter_session) (names : list bytes) (Hname : bytes)
    (K p : Z) :
  headers (priv s0) = ∅ ->
  command_run s0 names s ->
  count_name Hname names = K ->
  1 <= K < 2 ^ 31 - 1 ->
  let s' := rspamd_milter_remove_header_safe s Hname p in
  headers (priv s) !! rspamd_strcase_key Hname = Some K
  /\ (p >= 1 ->
      out_chain (priv s') = out_chain (priv s) ++ [chgheader_frame p Hname])
  /\ (p = 0 ->
      out_chain (priv s')
      = out_chain (priv s) ++ ((fun i => chgheader_frame i Hname) <$> positions K)
      /\ Z.of_nat (length (positions K)) = K
      /\ forall i : nat, Z.of_nat i < K ->
           positions K !! i = Some (Z.of_nat i + 1))
  /\ (- K <= p < 0 ->
      out_chain (priv s')
      = out_chain (priv s) ++ [chgheader_frame (K + p + 1) Hname])
  /\ (p < - K -> out_chain (priv s') = out_chain (priv s)).
Proof.
  intros Hempty Hrun HK Hrange s'.
  pose proof (command_run_counts s0 s names Hempty Hrun Hname) as Hcount.
  rewrite HK in Hcount. specialize (Hcount ltac:(lia)).
  assert (Hlook : headers (priv s) !! rspamd_strcase_key Hname = Some K).
  { unfold headers_lookup in Hcount.
    destruct (headers (priv s) !! rspamd_strcase_key Hname) as [k|];
      simpl in Hcount; [by subst|lia]. }
  pose proof (remove_header_with_count s Hname K p Hlook ltac:(lia)) as Hout.
  fold s' in Hout. unfold removal_frames in Hout.
  split; [done|]. repeat split.
  - intros Hp. rewrite Hout. by rewrite bool_decide_true by lia.
  - subst p. rewrite Hout. rewrite bool_decide_false by lia.
    by rewrite bool_decide_true by lia.
  - apply positions_length. lia.
  - intros i Hi. by apply positions_lookup.
  - intros Hp. rewrite Hout. rewrite !bool_decide_false by lia.
    by rewrite bool_decide_true by lia.
  - intros Hp. rewrite Hout. rewrite !bool_decide_false by lia.
    by rewrite app_nil_r.
Qed.

(** ** Reply frames and the frame codec (claim C9) *)

Lemma length_word_decoded (n : Z) :
  0 <= n < 2 ^ 32 ->
  Z.lor
    (Z.lor
       (Z.lor (Z.lor 0 (Z.shiftl (Z_of_byte (byte_of_Z (Z.shiftr n 24))) 24))
              (Z.shiftl (Z_of_byte (byte_of_Z (Z.shiftr n 16))) 16))
       (Z.shiftl (Z_of_byte (byte_of_Z (Z.shiftr n 8))) 8))
    (Z.shiftl (Z_of_byte (byte_of_Z n)) 0) = n.
Proof.
  intros Hn. rewrite Z.lor_0_l, Z.shiftl_0_r.
  by apply ntohl_htonl_u32.
Qed.

Lemma bytes_at_drop (hd l : bytes) :
  bytes_at (hd ++ l) (blen hd) (blen l) = Some l.
Proof.
  pose proof (bytes_at_app hd l []) as Hb. by rewrite app_nil_r in Hb.
Qed.

Lemma loop_exit_done (fuel : nat) (session : rspamd_milter_session) (p end_ : Z) :
  ~ p < end_ -> consume_loop fuel session p end_ = Some (loop_done session p).
Proof.
  intros Hp. destruct fuel; simpl; by rewrite bool_decide_false by done.
Qed.

Lemma byte_at_0 (a : ascii) (l : bytes) : byte_at (a :: l) 0 = Some a.
Proof. reflexivity. Qed.

Lemma byte_at_succ (a : ascii) (l : bytes) (i : Z) :
  0 <= i -> byte_at (a :: l) (i + 1) = byte_at l i.
Proof.
  intros Hi. unfold byte_at. rewrite !bool_decide_true by lia.
  replace (Z.to_nat (i + 1)) with (S (Z.to_nat i)) by lia. done.
Qed.

(** *** The shift of a length byte *)

Lemma parser_len_byte_defined (ps : rspamd_milter_parser) (c : ascii)
    (shift base : Z) (next : rspamd_milter_parser_state) :
  Z.shiftl (Z_of_byte c) shift < 2 ^ 31 ->
  parser_len_byte ps c shift base next
  = Some (parser_with_len ps (Z.shiftl (Z_of_byte c) shift) base next).
Proof.
  intros Hfit. unfold parser_len_byte. cbn zeta. by rewrite bool_decide_true.
Qed.

Lemma parser_len_byte_Some (ps ps' : rspamd_milter_parser) (c : ascii)
    (shift base : Z) (next : rspamd_milter_parser_state) :
  parser_len_byte ps c shift base next = Some ps' ->
  ps' = parser_with_len ps (Z.shiftl (Z_of_byte c) shift) base next.
Proof.
  unfold parser_len_byte. cbn zeta. case_bool_decide; [|done]. by intros [= <-].
Qed.

(** Only the shift by 24 can leave the range of [int]. *)
Lemma shifted_byte_fits (c : ascii) (shift : Z) :
  0 <= shift <= 16 -> Z.shiftl (Z_of_byte c) shift < 2 ^ 31.
Proof.
  intros Hs. pose proof (Z_of_byte_range c) as Hc.
  rewrite Z.shiftl_mul_pow2 by lia.
  assert (0 < 2 ^ shift <= 2 ^ 16)
    by (split; [apply Z.pow_pos_nonneg; lia|apply Z.pow_le_mono_r; lia]).
  change (2 ^ 16) with 65536 in *. nia.
Qed.

(** The first byte of a length word below 2^31 is below 128. *)
Lemma first_len_byte (n : Z) :
  0 <= n < 2 ^ 32 ->
  Z.shiftl (Z_of_byte (byte_of_Z (Z.shiftr n 24))) 24 = 2 ^ 24 * (n / 2 ^ 24).
Proof.
  intros Hn. rewrite Z_of_byte_of_Z, Z.shiftr_div_pow2 by lia.
  change 255 with (Z.ones 8). rewrite Z.land_ones by lia.
  assert (0 <= n / 2 ^ 24 < 2 ^ 8).
  { split; [apply Z.div_pos; lia|apply Z.div_lt_upper_bound; lia]. }
  rewrite Z.mod_small by lia. rewrite Z.shiftl_mul_pow2 by lia. lia.
Qed.

Lemma first_len_byte_fits (n : Z) :
  0 <= n < 2 ^ 31 ->
  Z.shiftl (Z_of_byte (byte_of_Z (Z.shiftr n 24))) 24 < 2 ^ 31.
Proof.
  intros Hn. rewrite first_len_byte by lia.
  pose proof (Z.mul_div_le n (2 ^ 24) ltac:(lia)). lia.
Qed.

Lemma first_len_byte_overflows (n : Z) :
  2 ^ 31 <= n < 2 ^ 32 ->
  ~ Z.shiftl (Z_of_byte (byte_of_Z (Z.shiftr n 24))) 24 < 2 ^ 31.
Proof.
  intros Hn. rewrite first_len_byte by lia.
  assert (2 ^ 7 <= n / 2 ^ 24) by (apply Z.div_le_lower_bound; lia). lia.
Qed.

(** *** One turn of the parser loop, state by state *)

Lemma loop_step_len (fuel : nat) (session : rspamd_milter_session) (p end_ : Z)
    (c : ascii) :
  p < end_ ->
  byte_at (str (buf (parser (priv session)))) p = Some c ->
  (pstate (parser (priv session)) = st_len_1 ->
   Z.shiftl (Z_of_byte c) 24 < 2 ^ 31) ->
  consume_loop (S fuel) session p end_
  = match pstate (parser (priv session)) with
    | st_len_1 =>
        consume_loop fuel
          (on_parser (fun ps =>
             parser_with_len ps (Z.shiftl (Z_of_byte c) 24) 0 st_len_2) session)
          (p + 1) end_
    | st_len_2 =>
        consume_loop fuel
          (on_parser (fun ps =>
             parser_with_len ps (Z.shiftl (Z_of_byte c) 16) (datalen ps) st_len_3)
             session) (p + 1) end_
    | st_len_3 =>
        consume_loop fuel
          (on_parser (fun ps =>
             parser_with_len ps (Z.shiftl (Z_of_byte c) 8) (datalen ps) st_len_4)
             session) (p + 1) end_
    | st_len_4 =>
        consume_loop fuel
          (on_parser (fun ps =>
             parser_with_len ps (Z.shiftl (Z_of_byte c) 0) (datalen ps)
                             st_read_cmd)
             session) (p + 1) end_
    | st_read_cmd =>
        let session1 :=
          on_parser (fun ps =>
            mk_parser (buf ps) (pos ps) (cmd_start ps) (datalen ps)
                      st_read_data c) session in
        if bool_decide (datalen (parser (priv session)) < 1) then
          Some (loop_return
                  (rspamd_milter_on_protocol_error session1
                     (g_error_new EINVAL "Command length is too short"))
                  false)
        else
          consume_loop fuel
            (on_parser (fun ps =>
               mk_parser (buf ps) (pos ps) (p + 1) (datalen ps - 1)
                         (pstate ps) (cur_cmd ps)) session1)
            (p + 1) end_
    | st_read_data => consume_loop (S fuel) session p end_
    end.
Proof.
  intros Hp Hc Hfit. cbn [consume_loop]. rewrite bool_decide_true by done.
  destruct (pstate (parser (priv session))) eqn:Hst;
    rewrite ?Hc; cbn [mbind option_bind];
    rewrite ?parser_len_byte_defined
      by (by apply Hfit || (apply shifted_byte_fits; lia));
    reflexivity.
Qed.

(** The loop over the length word [n] and the command byte [cmd] that
    open the buffer. *)
Lemma loop_reads_head (fuel : nat) (session : rspamd_milter_session)
    (n : Z) (cmd : ascii) (tail : bytes) (end_ : Z) :
  pstate (parser (priv session)) = st_len_1 ->
  str (buf (parser (priv session))) = htonl_bytes n ++ [cmd] ++ tail ->
  0 <= n < 2 ^ 31 ->
  5 <= end_ ->
  consume_loop (S (S (S (S (S fuel))))) session 0 end_
  = if bool_decide (n < 1) then
      Some (loop_return
              (rspamd_milter_on_protocol_error
                 (on_parser (fun ps =>
                    mk_parser (buf ps) (pos ps) (cmd_start ps) n st_read_data cmd)
                    session)
                 (g_error_new EINVAL "Command length is too short"))
              false)
    else
      consume_loop fuel
        (on_parser (fun ps =>
           mk_parser (buf ps) (pos ps) 5 (n - 1) st_read_data cmd) session)
        5 end_.
Proof.
  intros Hst Hstr Hn Hend. unfold htonl_bytes in Hstr. cbn [app] in Hstr.
  pose proof (first_len_byte_fits n Hn) as Hfit.
  remember (byte_of_Z (Z.shiftr n 24)) as b0 eqn:Hb0.
  remember (byte_of_Z (Z.shiftr n 16)) as b1 eqn:Hb1.
  remember (byte_of_Z (Z.shiftr n 8)) as b2 eqn:Hb2.
  remember (byte_of_Z n) as b3 eqn:Hb3.
  assert (Hword :
    Z.lor (Z.lor (Z.lor (Z.lor 0 (Z.shiftl (Z_of_byte b0) 24))
                        (Z.shiftl (Z_of_byte b1) 16))
                 (Z.shiftl (Z_of_byte b2) 8))
          (Z.shiftl (Z_of_byte b3) 0) = n).
  { subst. apply length_word_decoded. lia. }
  rewrite (loop_step_len _ _ 0 end_ b0) by (rewrite ?Hstr; done || lia).
  rewrite Hst.
  rewrite (loop_step_len _ _ (0 + 1) end_ b1)
    by (cbn; rewrite ?Hstr; done || lia).
  cbn [pstate parser priv on_parser on_priv set_priv set_parser
       parser_with_len mk_parser].
  rewrite (loop_step_len _ _ (0 + 1 + 1) end_ b2)
    by (cbn; rewrite ?Hstr; done || lia).
  cbn [pstate parser priv on_parser on_priv set_priv set_parser
       parser_with_len mk_parser].
  rewrite (loop_step_len _ _ (0 + 1 + 1 + 1) end_ b3)
    by (cbn; rewrite ?Hstr; done || lia).
  cbn [pstate parser priv on_parser on_priv set_priv set_parser
       parser_with_len mk_parser].
  rewrite (loop_step_len _ _ (0 + 1 + 1 + 1 + 1) end_ cmd)
    by (cbn; rewrite ?Hstr; done || lia).
  cbn -[Z.lor Z.shiftl Z_of_byte Z.add Z.sub bool_decide bytes_at blen
        consume_loop].
  rewrite !Hword.
  change (0 + 1 + 1 + 1 + 1 + 1) with 5.
  destruct (decide (n < 1));
    [rewrite !bool_decide_true by lia; do 2 f_equal
    |rewrite !bool_decide_false by lia; f_equal].
  all: unfold rspamd_milter_on_protocol_error, on_parser, on_priv,
         parser_with_len, mk_parser.
  all: cbn -[Z.lor Z.shiftl Z_of_byte Z.add Z.sub].
  all: rewrite ?Hword; reflexivity.
Qed.

(** A length word of 2^31 and more: its first byte is 128 at least, and
    the shift that takes it has no defined result. *)
Lemma loop_head_overflows (fuel : nat) (session : rspamd_milter_session)
    (n : Z) (tail : bytes) (end_ : Z) :
  pstate (parser (priv session)) = st_len_1 ->
  str (buf (parser (priv session))) = htonl_bytes n ++ tail ->
  2 ^ 31 <= n < 2 ^ 32 ->
  0 < end_ ->
  consume_loop (S fuel) session 0 end_ = None.
Proof.
  intros Hst Hstr Hn Hend. cbn [consume_loop].
  rewrite bool_decide_true by done. rewrite Hst, Hstr.
  unfold htonl_bytes. cbn [app]. rewrite byte_at_0. cbn [mbind option_bind].
  unfold parser_len_byte. cbn zeta.
  by rewrite bool_decide_false by (by apply first_len_byte_overflows).
Qed.

(** Decoding a frame laid out as length word, letter and payload gives
    the letter and the payload back. *)
Lemma decode_frame_encoded (c : ascii) (payload : bytes) :
  blen payload + 1 < 2 ^ 31 ->
  decode_frame (htonl_bytes (blen payload + 1) ++ [c] ++ payload)
  = Some (c, payload).
Proof.
  intros Hlen. pose proof (blen_nonneg payload) as Hge.
  unfold decode_frame.
  rewrite (loop_reads_head 0 _ (blen payload + 1) c payload 5)
    by (done || lia).
  rewrite bool_decide_false by lia.
  rewrite loop_exit_done by lia. cbn [mbind option_bind].
  cbn [pstate cmd_start datalen cur_cmd parser priv on_parser on_priv set_priv
       set_parser mk_parser].
  rewrite bool_decide_true
    by (unfold htonl_bytes, blen; rewrite !length_app; simpl length; lia).
  replace (blen payload + 1 - 1) with (blen payload) by lia.
  change (htonl_bytes (blen payload + 1) ++ [c] ++ payload)
    with ((htonl_bytes (blen payload + 1) ++ [c]) ++ payload).
  change 5 with (blen (htonl_bytes (blen payload + 1) ++ [c])).
  by rewrite bytes_at_drop.
Qed.

(** A frame that announces 2^31 bytes and more has no decoding. *)
Lemma decode_frame_overflows (c : ascii) (payload : bytes) :
  2 ^ 31 <= blen payload + 1 < 2 ^ 32 ->
  decode_frame (htonl_bytes (blen payload + 1) ++ [c] ++ payload) = None.
Proof.
  intros Hlen. unfold decode_frame.
  by rewrite (loop_head_overflows 4 _ (blen payload + 1) ([c] ++ payload) 5).
Qed.

(** C9.  An action whose arguments fit it is enqueued as one buffer at
    the end of the outbound queue; the buffer is the big-endian word
    [1 + payload length], the command letter at offset 4, and then the
    payload that section 4.5 lays out for the action; and the frame
    codec decodes the buffer to that letter and that payload again,
    for every length word the codec's shifts are defined for, that is,
    below 2^31. *)
Theorem reply_is_one_frame_and_decodes
    (session : rspamd_milter_session) (act : rspamd_milter_reply)
    (ap : va_list) (payload : bytes) :
  payload_layout act ap = Some payload ->
  blen payload + 1 < 2 ^ 32 ->
  exists session' frame,
    rspamd_milter_send_action session act ap = (session', true)
    /\ out_chain (priv session')
       = out_chain (priv session) ++ [{| obuf_buf := frame; obuf_pos := 0 |}]
    /\ take 4 frame = htonl_bytes (1 + blen payload)
    /\ frame !! 4%nat = Some (reply_letter act)
    /\ drop 5 frame = payload
    /\ (blen payload + 1 < 2 ^ 31 ->
        decode_frame frame = Some (reply_letter act, payload)).
Proof.
  intros Hlayout Hlen.
  pose proof (build_reply_layout act ap payload Hlayout) as Hreply.
  destruct (send_action_spec session act ap _ Hreply)
    as (session' & Hsend & Hout & _).
  exists session', (htonl_bytes (blen payload + 1) ++ [reply_letter act] ++ payload).
  split; [done|]. split; [done|].
  split; [by rewrite Z.add_comm|].
  split; [done|]. split; [done|].
  by apply decode_frame_encoded.
Qed.

(** ** Fatal protocol errors *)

Lemma protocol_error_fatal (session : rspamd_milter_session) (code : errno)
    (msg : string) :
  fatal_protocol_error session (protocol_error session code msg).
Proof. by eexists _, _. Qed.

(** ** Option negotiation (claim C5) *)

Lemma byte_at_app_Z (pre l post : bytes) (k : Z) (c : ascii) :
  0 <= k -> l !! Z.to_nat k = Some c ->
  byte_at (pre ++ l ++ post) (blen pre + k) = Some c.
Proof.
  intros Hk Hc. replace k with (Z.of_nat (Z.to_nat k)) at 1 by lia.
  by apply byte_at_app.
Qed.

(** C5.  For an OPTNEG command: a payload that is not 12 bytes long is
    a fatal protocol error; a 12-byte payload holding the big-endian
    words (version, actions, protocol) is a fatal protocol error with
    no reply enqueued when the version is below the supported one, and
    otherwise enqueues exactly one OPTNEG reply carrying the supported
    version, [actions | ACTIONS_MASK] and the NOREPLY mask. *)
Theorem optneg_negotiates_or_fails
    (session : rspamd_milter_session) (version actions protocol : Z) :
  let ps := parser (priv session) in
  cur_cmd ps = cmd_letter RSPAMD_MILTER_CMD_OPTNEG ->
  (datalen ps ≠ 12 ->
   fatal_protocol_error session (rspamd_milter_process_command session))
  /\ (datalen ps = 12 ->
      0 <= version < 2 ^ 32 -> 0 <= actions < 2 ^ 32 ->
      0 <= protocol < 2 ^ 32 ->
      bytes_at (str (buf ps)) (cmd_start ps) 12
      = Some (htonl_bytes version ++ htonl_bytes actions ++ htonl_bytes protocol) ->
      (version < RSPAMD_MILTER_PROTO_VER ->
       fatal_protocol_error session (rspamd_milter_process_command session))
      /\ (RSPAMD_MILTER_PROTO_VER <= version ->
          exists session',
            rspamd_milter_process_command session = Some (session', true)
            /\ out_chain (priv session')
               = out_chain (priv session) ++ [optneg_reply actions]
            /\ state (priv session') = RSPAMD_MILTER_WRITE_REPLY
            /\ calls (priv session') = calls (priv session))).
Proof.
  intros ps Hcmd. subst ps.
  unfold rspamd_milter_process_command.
  rewrite Hcmd, cmd_of_byte_letter. split.
  - intros Hlen. rewrite bool_decide_true by done. apply protocol_error_fatal.
  - intros Hlen Hv Ha Hp Hat.
    rewrite Hlen. rewrite bool_decide_false by (intros Hne; by apply Hne).
    destruct (bytes_at_split _ _ _ _ Hat) as (pre & post & Hm & Hpre & _).
    rewrite Hm, <- Hpre.
    replace (byte_at (pre ++ (htonl_bytes version ++ htonl_bytes actions
                              ++ htonl_bytes protocol) ++ post) (blen pre))
      with (byte_at (pre ++ (htonl_bytes version ++ htonl_bytes actions
                             ++ htonl_bytes protocol) ++ post) (blen pre + 0))
      by (by rewrite Z.add_0_r).
    set (l := htonl_bytes version ++ htonl_bytes actions ++ htonl_bytes protocol).
    rewrite (byte_at_app_Z pre l post 0 (byte_of_Z (Z.shiftr version 24))),
      (byte_at_app_Z pre l post 1 (byte_of_Z (Z.shiftr version 16))),
      (byte_at_app_Z pre l post 2 (byte_of_Z (Z.shiftr version 8))),
      (byte_at_app_Z pre l post 3 (byte_of_Z version)),
      (byte_at_app_Z pre l post 4 (byte_of_Z (Z.shiftr actions 24))),
      (byte_at_app_Z pre l post 5 (byte_of_Z (Z.shiftr actions 16))),
      (byte_at_app_Z pre l post 6 (byte_of_Z (Z.shiftr actions 8))),
      (byte_at_app_Z pre l post 7 (byte_of_Z actions)),
      (byte_at_app_Z pre l post 8 (byte_of_Z (Z.shiftr protocol 24))),
      (byte_at_app_Z pre l post 9 (byte_of_Z (Z.shiftr protocol 16))),
      (byte_at_app_Z pre l post 10 (byte_of_Z (Z.shiftr protocol 8))),
      (byte_at_app_Z pre l post 11 (byte_of_Z protocol))
      by (done || lia).
    cbn [mbind option_bind].
    rewrite !ntohl_htonl_u32 by done.
    split.
    + intros Hlt. rewrite bool_decide_true by done. apply protocol_error_fatal.
    + intros Hge. rewrite bool_decide_false by lia.
      eexists. split; [reflexivity|]. done.
Qed.

(** ** The reject verdict (claim C6) *)

Lemma send_plain (session : rspamd_milter_session) (act : rspamd_milter_reply) :
  payload_layout act va_none = Some [] ->
  out_chain (priv (send session act va_none))
  = out_chain (priv session) ++ [out_frame (reply_letter act) []].
Proof.
  intros Hl. unfold send.
  destruct (send_action_spec session act va_none _
              (build_reply_layout act va_none [] Hl)) as (s' & Hs & Hout & _).
  rewrite Hs. cbn [fst]. by rewrite Hout.
Qed.

Lemma set_reply_frame (session : rspamd_milter_session) (xcode rcode reply : bytes) :
  let session' := fst (rspamd_milter_set_reply session xcode rcode reply) in
  out_chain (priv session')
  = out_chain (priv session)
    ++ [out_frame "y" (xcode ++ cstr " " ++ rcode ++ cstr " " ++ reply ++ [NUL])]
  /\ discard_on_reject (priv session') = discard_on_reject (priv session).
Proof.
  unfold rspamd_milter_set_reply.
  set (text := xcode ++ cstr " " ++ rcode ++ cstr " " ++ reply).
  destruct (send_action_spec session RSPAMD_MILTER_REPLYCODE (va_value text) _
              (build_reply_layout RSPAMD_MILTER_REPLYCODE (va_value text)
                 (text ++ [NUL]) eq_refl))
    as (s' & Hs & Hout & _ & _ & Hd & _).
  rewrite Hs. cbn [fst]. rewrite Hout, Hd. split; [|done].
  unfold out_frame, wire_frame, text. cbn [reply_letter].
  by rewrite <- !app_assoc.
Qed.

(** C6, as amended.  A verdict whose action is reject: its own milter
    block is applied first and may set or clear both flags of the
    session, and never takes the action over.  When [no_action] is
    clear after that: if [discard_on_reject] is then set, the one frame
    DISCARD follows what the block and the DKIM signature enqueued,
    otherwise the REPLYCODE frame carrying [554 5.7.1 text] (the text
    of [messages.smtp_message] when the verdict has one, the default
    reject message otherwise) and then the REJECT frame.  A verdict
    without milter block and DKIM signature enqueues nothing before
    them and leaves the flags as they were, so that the flags of the
    session it is delivered to decide. *)
Theorem reject_verdict_discards_or_rejects
    (milter_ctx : rspamd_milter_context) (session : rspamd_milter_session)
    (results elt : ucl_object_t) :
  ucl_object_lookup results "action" = Some elt ->
  results_action elt = METRIC_ACTION_REJECT ->
  let r := apply_milter_and_dkim milter_ctx session results METRIC_ACTION_REJECT in
  let text := default RSPAMD_MILTER_REJECT_MESSAGE (results_reply results) in
  snd r = false
  /\ (no_action (priv (fst r)) = false ->
      out_chain (priv (rspamd_milter_send_task_results milter_ctx session
                         (Some results)))
      = out_chain (priv (fst r))
        ++ (if discard_on_reject (priv (fst r))
            then [out_frame "d" []]
            else [out_frame "y" (cstr "554 5.7.1 " ++ text ++ [NUL]);
                  out_frame "r" []]))
  /\ (ucl_object_lookup results "milter" = None ->
      ucl_object_lookup results "dkim-signature" = None ->
      fst r = session).
Proof.
  intros Haction Hreject r text.
  assert (Hsnd : snd r = false).
  { unfold r, apply_milter_and_dkim.
    destruct (ucl_object_lookup results "milter"); reflexivity. }
  split; [done|]. split.
  - intros Hno. unfold rspamd_milter_send_task_results.
    rewrite Haction, Hreject. fold r.
    destruct r as [s1 processed] eqn:Hr. cbn [fst snd] in *. subst processed.
    rewrite Hno. unfold send_action_results. fold text.
    destruct (discard_on_reject (priv s1)) eqn:Hd.
    + by rewrite send_plain.
    + rewrite send_plain by done.
      destruct (set_reply_frame s1 RSPAMD_MILTER_RCODE_REJECT
                  RSPAMD_MILTER_XCODE_REJECT text) as [-> _].
      by rewrite <- app_assoc.
  - intros Hm Hd. unfold r, apply_milter_and_dkim. by rewrite Hm, Hd.
Qed.

(** ** Commands and option negotiation (claim C1) *)

Lemma bytes_at_bounds (m : bytes) (i n : Z) (l : bytes) :
  bytes_at m i n = Some l -> 0 <= i /\ 0 <= n /\ i + n <= blen m.
Proof.
  unfold bytes_at, blen. intros Hb. case_bool_decide; [done|discriminate].
Qed.

Lemma bytes_at_defined (m : bytes) (i n : Z) :
  0 <= i -> 0 <= n -> i + n <= blen m -> is_Some (bytes_at m i n).
Proof.
  intros Hi Hn Hle. unfold bytes_at. rewrite bool_decide_true; [done|].
  unfold blen in Hle. lia.
Qed.

Lemma byte_at_defined (m : bytes) (i : Z) :
  0 <= i < blen m -> is_Some (byte_at m i).
Proof.
  intros Hi. unfold byte_at. rewrite bool_decide_true by lia.
  apply lookup_lt_is_Some. unfold blen in Hi. lia.
Qed.

Lemma memchr_scan_defined (l : bytes) (i : Z) (n : nat) :
  (n <= length l)%nat ->
  memchr_scan l i n = Some None
  \/ exists z, memchr_scan l i n = Some (Some z) /\ i <= z < i + Z.of_nat n.
Proof.
  revert l i. induction n as [|n IH]; intros l i Hn; [by left|].
  destruct l as [|c l]; [simpl in Hn; lia|]. cbn [memchr_scan].
  destruct (decide (c = NUL)).
  - right. exists i. split; [done|lia].
  - destruct (IH l (i + 1)) as [->|(z & -> & Hz)]; [simpl in Hn; lia|by left|].
    right. exists z. split; [done|lia].
Qed.

Lemma memchr_defined (m : bytes) (i n : Z) :
  0 <= i -> 0 <= n -> i + n <= blen m ->
  memchr m i n = Some None
  \/ exists z, memchr m i n = Some (Some z) /\ i <= z < i + n.
Proof.
  intros Hi Hn Hle. unfold memchr. rewrite bool_decide_true by done.
  destruct (memchr_scan_defined (drop (Z.to_nat i) m) i (Z.to_nat n))
    as [->|(z & -> & Hz)].
  - rewrite length_drop. unfold blen in Hle. lia.
  - by left.
  - right. exists z. split; [done|lia].
Qed.

Lemma rcpt_loop_accepts (fuel : nat) (session : rspamd_milter_session)
    (m : bytes) (end_ pos : Z) :
  0 <= pos -> end_ <= blen m -> (Z.to_nat (end_ - pos) <= fuel)%nat ->
  accepted session [] (rcpt_loop fuel session m end_ pos).
Proof.
  revert session pos. induction fuel as [|fuel IH]; intros session pos Hpos Hend Hfuel.
  - simpl. rewrite bool_decide_false by lia.
    eexists. by rewrite app_nil_r.
  - cbn [rcpt_loop]. case_bool_decide as Hlt;
      [|eexists; by rewrite app_nil_r].
    destruct (bytes_at_defined m pos (end_ - pos)) as [cpy Hcpy]; [lia..|].
    rewrite Hcpy.
    destruct (memchr_defined m pos (end_ - pos)) as [->|(z & -> & Hz)]; [lia..| |];
      cbn [mbind option_bind].
    + eexists. split; [reflexivity|].
      destruct (rspamd_email_address_from_smtp cpy); by rewrite app_nil_r.
    + case_bool_decide.
      * destruct (IH (rcpts_add session
                        (rspamd_email_address_from_smtp
                           (take (Z.to_nat (z - pos)) cpy))) (z + 1))
          as (s' & Hs & Hst & Hc & Ho); [lia..|].
        exists s'. split; [done|].
        destruct (rspamd_email_address_from_smtp _); by rewrite Hst, Hc, Ho.
      * eexists. split; [reflexivity|].
        destruct (rspamd_email_address_from_smtp cpy); by rewrite app_nil_r.
Qed.

(** C1, as the code has it.  The dispatcher keeps no record of option
    negotiation and asks for none.  In every session state, so also
    before any OPTNEG: a HELO, MAIL, RCPT, DATA, EOH, BODY or BODYEOB
    command whose payload is in the buffer is accepted, the session
    does not go to [WANNA_DIE] and the error callback is not invoked
    (BODYEOB calls the finish callback); a HEADER command with a
    well-formed payload is accepted and recorded. *)
Theorem envelope_commands_accepted_in_any_state
    (session : rspamd_milter_session) (k : rspamd_milter_command)
    (payload name value : bytes) :
  let ps := parser (priv session) in
  cur_cmd ps = cmd_letter k ->
  bytes_at (str (buf ps)) (cmd_start ps) (datalen ps) = Some payload ->
  (never_refused k = true ->
   accepted session
     (match k with RSPAMD_MILTER_CMD_BODYEOB => [fin_cb] | _ => [] end)
     (rspamd_milter_process_command session))
  /\ (k = RSPAMD_MILTER_CMD_HEADER -> NUL ∉ name ->
      payload = name ++ [NUL] ++ value ++ [NUL] ->
      exists session',
        rspamd_milter_process_command session = Some (session', true)
        /\ state (priv session') = state (priv session)
        /\ calls (priv session') = calls (priv session)
        /\ headers_lookup (headers (priv session')) name
           = next_count (headers_lookup (headers (priv session)) name)).
Proof.
  intros ps Hcmd Hat. subst ps.
  destruct (bytes_at_bounds _ _ _ _ Hat) as (Hpos & Hlen & Hend).
  split.
  - intros Hk. unfold rspamd_milter_process_command.
    rewrite Hcmd, cmd_of_byte_letter.
    destruct k; try discriminate Hk.
    + (* BODY *)
      rewrite Hat. eexists. by rewrite app_nil_r.
    + (* BODYEOB *)
      by eexists.
    + (* HELO *)
      case_bool_decide as Hgt; [|eexists; by rewrite app_nil_r].
      destruct (byte_at_defined (str (buf (parser (priv session))))
                  (cmd_start (parser (priv session))
                   + datalen (parser (priv session)) - 1)) as [c Hc]; [lia|].
      rewrite Hc. cbn [mbind option_bind].
      destruct (bytes_at_defined (str (buf (parser (priv session))))
                  (cmd_start (parser (priv session)))
                  (datalen (parser (priv session)) - 1)) as [v Hv]; [lia..|].
      rewrite Hat, Hv.
      case_bool_decide; eexists; by rewrite app_nil_r.
    + (* MAIL *)
      case_bool_decide as Hlt; [|eexists; by rewrite app_nil_r].
      replace (cmd_start (parser (priv session))
               + datalen (parser (priv session))
               - cmd_start (parser (priv session)))
        with (datalen (parser (priv session))) by lia.
      rewrite Hat.
      destruct (memchr_defined (str (buf (parser (priv session))))
                  (cmd_start (parser (priv session)))
                  (datalen (parser (priv session))))
        as [->|(z & -> & Hz)]; [lia..| |]; cbn [mbind option_bind].
      * eexists. split; [reflexivity|].
        destruct (rspamd_email_address_from_smtp payload); by rewrite app_nil_r.
      * case_bool_decide.
        -- destruct (bytes_at_defined (str (buf (parser (priv session))))
                       (cmd_start (parser (priv session)))
                       (z - cmd_start (parser (priv session))))
             as [cpy Hcpy]; [lia..|].
           rewrite Hcpy. eexists. split; [reflexivity|].
           destruct (rspamd_email_address_from_smtp cpy); by rewrite app_nil_r.
        -- eexists. split; [reflexivity|].
           destruct (rspamd_email_address_from_smtp payload);
             by rewrite app_nil_r.
    + (* EOH *)
      eexists. by rewrite app_nil_r.
    + (* RCPT *)
      apply rcpt_loop_accepts; lia.
    + (* DATA *)
      eexists. split; [reflexivity|].
      destruct (message session); by rewrite app_nil_r.
  - intros -> Hnul ->.
    destruct (header_command session name value) as (s' & Hs & Hh & _);
      [done|].
    exists s'. split; [done|].
    unfold rspamd_milter_process_command in Hs.
    rewrite Hcmd, cmd_of_byte_letter in Hs.
    assert (Hfields : state (priv s') = state (priv session)
                      /\ calls (priv s') = calls (priv session)).
    { unfold protocol_error in Hs. break_run; done. }
    destruct Hfields as [-> ->]. split; [done|]. split; [done|].
    unfold headers_lookup at 1. by rewrite Hh, lookup_insert_eq.
Qed.

(** ** The parser loop: dispatch leaves the parser alone, fuel suffices *)

Lemma macro_loop_parser (fuel : nat) (session : rspamd_milter_session)
    (m : bytes) (end_ pos cmdlen : Z) (session' : rspamd_milter_session)
    (ok : bool) :
  macro_loop fuel session m end_ pos cmdlen = Some (session', ok) ->
  parser (priv session') = parser (priv session).
Proof.
  revert session pos cmdlen.
  induction fuel as [|fuel IH]; intros session pos cmdlen; simpl;
    case_bool_decide; try (by intros [= <- <-]).
  intros Hrun. unfold protocol_error in Hrun. break_run; try done.
  all: match goal with
       | Hl : macro_loop _ _ _ _ _ _ = Some _ |- _ =>
           apply IH in Hl; by rewrite Hl
       end.
Qed.

Lemma rcpts_add_parser (session : rspamd_milter_session) (a : option bytes) :
  parser (priv (rcpts_add session a)) = parser (priv session).
Proof. by destruct a. Qed.

Lemma rcpt_loop_parser (fuel : nat) (session : rspamd_milter_session)
    (m : bytes) (end_ pos : Z) (session' : rspamd_milter_session) (ok : bool) :
  rcpt_loop fuel session m end_ pos = Some (session', ok) ->
  parser (priv session') = parser (priv session).
Proof.
  revert session pos.
  induction fuel as [|fuel IH]; intros session pos; simpl;
    case_bool_decide; try (by intros [= <- <-]).
  intros Hrun. break_run; try done; try (by rewrite rcpts_add_parser).
  all: match goal with
       | Hl : rcpt_loop _ _ _ _ _ = Some _ |- _ =>
           apply IH in Hl; by rewrite Hl, rcpts_add_parser
       end.
Qed.

Lemma connect_address_parser (session : rspamd_milter_session) (m : bytes)
    (pos end_ : Z) (session' : rspamd_milter_session) (ok : bool) :
  connect_address session m pos end_ = Some (session', ok) ->
  parser (priv session') = parser (priv session).
Proof.
  unfold connect_address, protocol_error. intros Hrun.
  break_run; done.
Qed.

Lemma set_from_if_parser (session : rspamd_milter_session) (a : option bytes) :
  parser (priv (set_from_if session a)) = parser (priv session).
Proof. by destruct a. Qed.

(** No command changes the parser: the dispatcher reads the frame and
    writes the session. *)
Lemma process_command_keeps_parser (session session' : rspamd_milter_session)
    (ok : bool) :
  rspamd_milter_process_command session = Some (session', ok) ->
  parser (priv session') = parser (priv session).
Proof.
  unfold rspamd_milter_process_command.
  destruct (cmd_of_byte (cur_cmd (parser (priv session)))) as [[]|];
    intros Hrun.
  - by break_run.
  - break_run. done.
  - unfold protocol_error in Hrun. break_run; try done.
    all: match goal with
         | Hc : connect_address _ _ _ _ = Some _ |- _ =>
             apply connect_address_parser in Hc; by rewrite Hc
         end.
  - apply macro_loop_parser in Hrun. rewrite Hrun. by destruct (macros session).
  - by break_run.
  - break_run; done.
  - by break_run.
  - unfold protocol_error in Hrun. break_run; done.
  - break_run; by rewrite ?set_from_if_parser.
  - by break_run.
  - unfold protocol_error, rspamd_milter_send_action in Hrun. break_run; done.
  - break_run; done.
  - by apply rcpt_loop_parser in Hrun.
  - break_run; done.
  - by break_run.
  - by break_run.
Qed.

(** More fuel than the measure asks for changes nothing: the loop of
    [rspamd_milter_consume_input] ends by itself. *)
Lemma consume_loop_enough_fuel (fuel : nat) (session : rspamd_milter_session)
    (p end_ : Z) :
  datalen_ok session ->
  loop_measure session p end_ <= Z.of_nat fuel ->
  consume_loop (S fuel) session p end_ = consume_loop fuel session p end_.
Proof.
  revert session p.
  induction fuel as [|fuel IH]; intros session p Hok Hm.
  - unfold loop_measure in Hm.
    assert (~ p < end_) by (destruct (pstate (parser (priv session))); lia).
    by rewrite !loop_exit_done.
  - unfold loop_measure, datalen_ok in Hm, Hok.
    cbn [consume_loop].
    case_bool_decide as Hlt; [|done].
    destruct (pstate (parser (priv session))) eqn:Hst.
    + destruct (byte_at _ p) as [c|]; [|done]. cbn [mbind option_bind].
      destruct (parser_len_byte _ c _ _ _) as [ps'|] eqn:Hps; [|done].
      apply parser_len_byte_Some in Hps as ->. cbn [mbind option_bind].
      apply IH; [by unfold datalen_ok|unfold loop_measure; simpl; lia].
    + destruct (byte_at _ p) as [c|]; [|done]. cbn [mbind option_bind].
      destruct (parser_len_byte _ c _ _ _) as [ps'|] eqn:Hps; [|done].
      apply parser_len_byte_Some in Hps as ->. cbn [mbind option_bind].
      apply IH; [by unfold datalen_ok|unfold loop_measure; simpl; lia].
    + destruct (byte_at _ p) as [c|]; [|done]. cbn [mbind option_bind].
      destruct (parser_len_byte _ c _ _ _) as [ps'|] eqn:Hps; [|done].
      apply parser_len_byte_Some in Hps as ->. cbn [mbind option_bind].
      apply IH; [by unfold datalen_ok|unfold loop_measure; simpl; lia].
    + destruct (byte_at _ p) as [c|]; [|done]. cbn [mbind option_bind].
      destruct (parser_len_byte _ c _ _ _) as [ps'|] eqn:Hps; [|done].
      apply parser_len_byte_Some in Hps as ->. cbn [mbind option_bind].
      apply IH; [by unfold datalen_ok|unfold loop_measure; simpl; lia].
    + destruct (byte_at _ p) as [c|]; [|done]. cbn [mbind option_bind].
      case_bool_decide as Hshort; [done|].
      apply IH; [unfold datalen_ok; simpl; lia|unfold loop_measure; simpl; lia].
    + destruct (bool_decide (datalen (parser (priv session))
                             > RSPAMD_MILTER_MESSAGE_CHUNK * 2)); [done|].
      destruct (negb (rspamd_milter_is_valid_cmd _)); [done|].
      destruct (bool_decide (allocated (buf (parser (priv session)))
                             < datalen (parser (priv session)))); [done|].
      destruct (bool_decide (p + datalen (parser (priv session)) <= end_));
        [|done].
      destruct (rspamd_milter_process_command session) as [[s' ok]|] eqn:Hcmd;
        [|done].
      cbn [mbind option_bind]. destruct ok; [|done].
      pose proof (process_command_keeps_parser _ _ _ Hcmd) as Hp.
      apply IH; [by unfold datalen_ok|].
      unfold loop_measure. simpl. rewrite Hp. specialize (Hok eq_refl). lia.
Qed.

(** The fuel [rspamd_milter_consume_input] hands to the loop is enough:
    any surplus gives the same result. *)
Lemma consume_input_fuel (session : rspamd_milter_session) (extra : nat) :
  datalen_ok session ->
  let p := pos (parser (priv session)) in
  let end_ := len (buf (parser (priv session))) in
  consume_loop (Z.to_nat (2 * (end_ - p) + 1) + extra) session p end_
  = consume_loop (Z.to_nat (2 * (end_ - p) + 1)) session p end_.
Proof.
  intros Hok p end_. induction extra as [|extra IH].
  - by rewrite Nat.add_0_r.
  - rewrite <- IH. rewrite Nat.add_succ_r.
    apply consume_loop_enough_fuel; [done|].
    unfold loop_measure. destruct (pstate (parser (priv session))); lia.
Qed.

Lemma memchr_scan_ge (l : bytes) (i : Z) (n : nat) (z : Z) :
  memchr_scan l i n = Some (Some z) -> i <= z.
Proof.
  revert l i. induction n as [|n IH]; intros l i; [done|].
  destruct l as [|c l]; [done|]. cbn [memchr_scan].
  destruct (decide (c = NUL)); [intros [= ->]; lia|].
  intros Hz. apply IH in Hz. lia.
Qed.

Lemma memchr_ge (m : bytes) (i n z : Z) :
  memchr m i n = Some (Some z) -> i <= z.
Proof.
  unfold memchr. case_bool_decide; [|done]. apply memchr_scan_ge.
Qed.

(** The loops of the MACRO and RCPT handlers end by themselves too. *)
Lemma macro_loop_enough_fuel (fuel : nat) (session : rspamd_milter_session)
    (m : bytes) (end_ pos cmdlen : Z) :
  end_ - pos <= Z.of_nat fuel ->
  macro_loop (S fuel) session m end_ pos cmdlen
  = macro_loop fuel session m end_ pos cmdlen.
Proof.
  revert session pos cmdlen.
  induction fuel as [|fuel IH]; intros session pos cmdlen Hfuel.
  - simpl. by rewrite bool_decide_false by lia.
  - cbn [macro_loop]. case_bool_decide; [|done].
    destruct (memchr m pos cmdlen) as [[zero|]|] eqn:Hzero; [|done..].
    cbn [mbind option_bind].
    destruct (memchr m (zero + 1) cmdlen) as [[zero_val|]|] eqn:Hval; [|done..].
    cbn [mbind option_bind].
    case_bool_decide; [|done].
    destruct (bytes_at m pos (zero - pos)) as [name|]; [|done].
    cbn [mbind option_bind].
    destruct (bytes_at m (zero + 1) (zero_val - zero - 1)) as [value|]; [|done].
    cbn [mbind option_bind].
    apply memchr_ge in Hzero, Hval. apply IH. lia.
Qed.

Lemma rcpt_loop_enough_fuel (fuel : nat) (session : rspamd_milter_session)
    (m : bytes) (end_ pos : Z) :
  end_ - pos <= Z.of_nat fuel ->
  rcpt_loop (S fuel) session m end_ pos = rcpt_loop fuel session m end_ pos.
Proof.
  revert session pos.
  induction fuel as [|fuel IH]; intros session pos Hfuel.
  - simpl. by rewrite bool_decide_false by lia.
  - cbn [rcpt_loop]. case_bool_decide; [|done].
    destruct (memchr m pos (end_ - pos)) as [[zero|]|]; [|done..].
    cbn [mbind option_bind].
    destruct (bytes_at m pos (end_ - pos)) as [cpy|]; [|done].
    cbn [mbind option_bind].
    case_bool_decide; [|done]. apply IH. lia.
Qed.

(** ** Framing errors inside the loop (the part of claim C8 that holds) *)

(** A length field of zero is refused when the byte behind it is read. *)
Lemma zero_length_refused (fuel : nat) (session : rspamd_milter_session)
    (p end_ : Z) (c : ascii) :
  pstate (parser (priv session)) = st_read_cmd ->
  datalen (parser (priv session)) < 1 ->
  p < end_ ->
  byte_at (str (buf (parser (priv session)))) p = Some c ->
  exists session',
    consume_loop (S fuel) session p end_ = Some (loop_return session' false)
    /\ state (priv session') = RSPAMD_MILTER_WANNA_DIE
    /\ calls (priv session')
       = calls (priv session)
         ++ [err_cb (g_error_new EINVAL "Command length is too short")]
    /\ out_chain (priv session') = out_chain (priv session).
Proof.
  intros Hst Hlen Hp Hc.
  rewrite (loop_step_len _ _ _ _ c) by (done || by rewrite Hst). rewrite Hst.
  cbn zeta. rewrite bool_decide_true by done.
  eexists. split; [reflexivity|]. done.
Qed.

(** A payload longer than two chunks is refused when the loop turns to
    it, before the command byte is looked at. *)
Lemma oversized_payload_refused (fuel : nat) (session : rspamd_milter_session)
    (p end_ : Z) :
  pstate (parser (priv session)) = st_read_data ->
  datalen (parser (priv session)) > RSPAMD_MILTER_MESSAGE_CHUNK * 2 ->
  p < end_ ->
  exists session',
    consume_loop (S fuel) session p end_ = Some (loop_return session' false)
    /\ state (priv session') = RSPAMD_MILTER_WANNA_DIE
    /\ calls (priv session')
       = calls (priv session)
         ++ [err_cb (g_error_new E2BIG "Command length is too big: %zd")]
    /\ out_chain (priv session') = out_chain (priv session).
Proof.
  intros Hst Hlen Hp. cbn [consume_loop].
  rewrite bool_decide_true by done. rewrite Hst.
  rewrite bool_decide_true by done.
  eexists. split; [reflexivity|]. done.
Qed.

(** An unknown command byte is refused when the loop turns to its
    payload, that is, when a byte behind the command byte is in the
    buffer. *)
Lemma unknown_command_refused_in_loop (fuel : nat)
    (session : rspamd_milter_session) (p end_ : Z) :
  pstate (parser (priv session)) = st_read_data ->
  datalen (parser (priv session)) <= RSPAMD_MILTER_MESSAGE_CHUNK * 2 ->
  rspamd_milter_is_valid_cmd (cur_cmd (parser (priv session))) = false ->
  p < end_ ->
  exists session',
    consume_loop (S fuel) session p end_ = Some (loop_return session' false)
    /\ state (priv session') = RSPAMD_MILTER_WANNA_DIE
    /\ calls (priv session')
       = calls (priv session) ++ [err_cb (g_error_new E2BIG "Unvalid command: %c")]
    /\ out_chain (priv session') = out_chain (priv session).
Proof.
  intros Hst Hlen Hcmd Hp. cbn [consume_loop].
  rewrite bool_decide_true by done. rewrite Hst.
  rewrite bool_decide_false by lia. rewrite Hcmd.
  eexists. split; [reflexivity|]. done.
Qed.

(** * Further properties of the code *)

(** ** Buffer reads, continued *)

(** Bring both sides of an equation between concatenations to the
    right-nested form. *)
Ltac shape :=
  repeat (progress (cbn [app]; rewrite <- ?app_assoc, ?app_nil_r));
  reflexivity.

Lemma bytes_at_inside (m pre l post : bytes) (i n : Z) :
  m = pre ++ l ++ post -> i = blen pre -> n = blen l ->
  bytes_at m i n = Some l.
Proof. intros -> -> ->. apply bytes_at_app. Qed.

Lemma memchr_inside (m pre name rest : bytes) (i n : Z) :
  m = pre ++ name ++ NUL :: rest ->
  NUL ∉ name -> i = blen pre -> blen name < n ->
  memchr m i n = Some (Some (i + blen name)).
Proof. intros -> Hnul -> Hn. by apply memchr_app. Qed.

Lemma byte_at_inside (m pre : bytes) (c : ascii) (post : bytes) (i : Z) :
  m = pre ++ c :: post -> i = blen pre -> byte_at m i = Some c.
Proof.
  intros -> ->.
  replace (blen pre) with (blen pre + Z.of_nat 0) by lia.
  by apply (byte_at_app pre [c] post).
Qed.

(** A scan that meets no NUL among the bytes it is given. *)
Lemma memchr_scan_none (l rest : bytes) (i : Z) :
  NUL ∉ l -> memchr_scan (l ++ rest) i (length l) = Some None.
Proof.
  revert i. induction l as [|c l IH]; intros i Hnul; [done|].
  cbn [app length memchr_scan].
  rewrite decide_False by (intros ->; apply Hnul; left).
  apply IH. set_solver.
Qed.

Lemma memchr_none (m pre l post : bytes) (i n : Z) :
  m = pre ++ l ++ post -> NUL ∉ l -> i = blen pre -> n = blen l ->
  memchr m i n = Some None.
Proof.
  intros -> Hnul -> ->. unfold memchr.
  rewrite bool_decide_true by apply blen_nonneg.
  unfold blen. rewrite !Nat2Z.id, drop_app_length. by apply memchr_scan_none.
Qed.

Lemma blen_nil : blen [] = 0.
Proof. reflexivity. Qed.

Lemma blen_cons (c : ascii) (l : bytes) : blen (c :: l) = 1 + blen l.
Proof. unfold blen. simpl. lia. Qed.

Lemma blen_pos (l : bytes) : l ≠ [] -> 0 < blen l.
Proof. destruct l; [done|]. rewrite blen_cons. pose proof (blen_nonneg l). lia. Qed.

(** Lengths of concatenations, summand by summand. *)
Ltac blens := repeat (progress (rewrite ?blen_app, ?blen_cons, ?blen_nil)).

(** ** Session reset *)

Lemma land_lor_flag (a b f : Z) :
  bool_decide (Z.land (Z.lor a b) f ≠ 0)
  = bool_decide (Z.land a f ≠ 0) || bool_decide (Z.land b f ≠ 0).
Proof.
  rewrite Z.land_lor_distr_l.
  destruct (decide (Z.land a f = 0)) as [Ha|Ha],
    (decide (Z.land b f = 0)) as [Hb|Hb].
  - rewrite Ha, Hb. reflexivity.
  - rewrite Ha, Z.lor_0_l, (bool_decide_true _ Hb), orb_true_r. reflexivity.
  - rewrite (bool_decide_true _ Ha). rewrite bool_decide_true; [done|].
    rewrite Z.lor_eq_0_iff. tauto.
  - rewrite (bool_decide_true _ Ha). rewrite bool_decide_true; [done|].
    rewrite Z.lor_eq_0_iff. tauto.
Qed.

Lemma session_reset_blocks (s : rspamd_milter_session) (how : Z) :
  rspamd_milter_session_reset s how
  = reset_blocks (bool_decide (Z.land how RSPAMD_MILTER_RESET_IO ≠ 0))
                 (bool_decide (Z.land how RSPAMD_MILTER_RESET_COMMON ≠ 0))
                 (bool_decide (Z.land how RSPAMD_MILTER_RESET_ADDR ≠ 0))
                 (bool_decide (Z.land how RSPAMD_MILTER_RESET_MACRO ≠ 0)) s.
Proof.
  unfold rspamd_milter_session_reset.
  destruct s as [ad ho he fr rc me ma [pa oc sta hd dr na e ca]].
  destruct (bool_decide (Z.land how RSPAMD_MILTER_RESET_IO ≠ 0)),
    (bool_decide (Z.land how RSPAMD_MILTER_RESET_COMMON ≠ 0)),
    (bool_decide (Z.land how RSPAMD_MILTER_RESET_ADDR ≠ 0)),
    (bool_decide (Z.land how RSPAMD_MILTER_RESET_MACRO ≠ 0)); reflexivity.
Qed.

Lemma fstring_truncate_idemp f : fstring_truncate (fstring_truncate f) = fstring_truncate f.
Proof. by destruct f. Qed.

Lemma reset_blocks_compose (i1 c1 a1 m1 i2 c2 a2 m2 : bool)
    (s : rspamd_milter_session) :
  reset_blocks i2 c2 a2 m2 (reset_blocks i1 c1 a1 m1 s)
  = reset_blocks (i1 || i2) (c1 || c2) (a1 || a2) (m1 || m2) s.
Proof.
  unfold reset_blocks. cbn [addr hostname helo from rcpts message macros priv
    parser out_chain state headers discard_on_reject no_action ev calls].
  f_equal.
  - by destruct a1, a2.
  - destruct c1, c2; cbn; by rewrite ?fstring_truncate_idemp.
  - destruct c1, c2; cbn; by rewrite ?fstring_truncate_idemp.
  - by destruct c1, c2.
  - by destruct c1, c2.
  - destruct c1, c2; cbn; by rewrite ?fstring_truncate_idemp.
  - by destruct m1, m2.
  - f_equal.
    + by destruct i1, i2.
    + by destruct i1, i2.
    + by destruct c1, c2.
Qed.

(** X1.  Resetting a session for the flags [a | b] is resetting it for
    [a] and then for [b], whatever the two flag sets are; in particular
    a reset done twice is the reset done once. *)
Theorem session_reset_flags_compose (session : rspamd_milter_session) (a b : Z) :
  rspamd_milter_session_reset session (Z.lor a b)
  = rspamd_milter_session_reset (rspamd_milter_session_reset session a) b
  /\ rspamd_milter_session_reset (rspamd_milter_session_reset session a) a
     = rspamd_milter_session_reset session a.
Proof.
  rewrite !session_reset_blocks, !reset_blocks_compose, !land_lor_flag.
  split; [reflexivity|]. by rewrite !orb_diag.
Qed.

(** ** Commands *)

(** X2.  A QUIT_NC command is accepted and clears what the connection
    had told: address, macros, sender, recipients, HELO, host name,
    message and header counts.  It leaves the parser, the outbound
    queue, the connection state and the host calls as they were, and
    also the two flags a verdict may have set, [discard_on_reject] and
    [no_action]. *)
Theorem quit_nc_clears_connection_data_keeps_io_and_flags
    (session : rspamd_milter_session) :
  cur_cmd (parser (priv session)) = cmd_letter RSPAMD_MILTER_CMD_QUIT_NC ->
  exists session',
    rspamd_milter_process_command session = Some (session', true)
    /\ (addr session' = None /\ macros session' = None
        /\ from session' = None /\ rcpts session' = None)
    /\ (field_bytes (helo session') = [] /\ field_bytes (hostname session') = []
        /\ field_bytes (message session') = [])
    /\ headers (priv session') = ∅
    /\ parser (priv session') = parser (priv session)
    /\ out_chain (priv session') = out_chain (priv session)
    /\ state (priv session') = state (priv session)
    /\ calls (priv session') = calls (priv session)
    /\ discard_on_reject (priv session') = discard_on_reject (priv session)
    /\ no_action (priv session') = no_action (priv session).
Proof.
  intros Hcmd. unfold rspamd_milter_process_command.
  rewrite Hcmd, cmd_of_byte_letter.
  eexists. split; [reflexivity|].
  rewrite session_reset_blocks.
  change (bool_decide (Z.land RSPAMD_MILTER_RESET_QUIT_NC RSPAMD_MILTER_RESET_IO ≠ 0)) with false.
  change (bool_decide (Z.land RSPAMD_MILTER_RESET_QUIT_NC RSPAMD_MILTER_RESET_COMMON ≠ 0)) with true.
  change (bool_decide (Z.land RSPAMD_MILTER_RESET_QUIT_NC RSPAMD_MILTER_RESET_ADDR ≠ 0)) with true.
  change (bool_decide (Z.land RSPAMD_MILTER_RESET_QUIT_NC RSPAMD_MILTER_RESET_MACRO ≠ 0)) with true.
  unfold reset_blocks. cbn.
  repeat split; try reflexivity.
  - by destruct (helo session).
  - by destruct (hostname session).
  - by destruct (message session).
Qed.

(** X3.  HELO: an empty payload leaves the stored HELO argument as it
    is; from a payload that ends in NUL exactly that one byte is
    dropped; a payload that does not end in NUL is stored whole. *)
Theorem helo_drops_one_trailing_nul
    (session : rspamd_milter_session) (payload : bytes) :
  let ps := parser (priv session) in
  cur_cmd ps = cmd_letter RSPAMD_MILTER_CMD_HELO ->
  bytes_at (str (buf ps)) (cmd_start ps) (datalen ps) = Some payload ->
  (payload = [] -> rspamd_milter_process_command session = Some (session, true))
  /\ (forall v, payload = v ++ [NUL] ->
      rspamd_milter_process_command session
      = Some (set_helo (Some v) session, true))
  /\ (payload ≠ [] -> last payload ≠ Some NUL ->
      rspamd_milter_process_command session
      = Some (set_helo (Some payload) session, true)).
Proof.
  intros ps Hcmd Hat. subst ps.
  destruct (bytes_at_split _ _ _ _ Hat) as (pre & post & Hm & Hpre & Hlen).
  unfold rspamd_milter_process_command.
  rewrite Hcmd, cmd_of_byte_letter, Hm, <- Hpre, <- Hlen.
  split; [|split].
  - intros ->. by rewrite bool_decide_false by (change (blen []) with 0; lia).
  - intros v ->. rewrite blen_app. change (blen [NUL]) with 1.
    rewrite bool_decide_true by (pose proof (blen_nonneg v); lia).
    rewrite (byte_at_inside _ (pre ++ v) NUL post) by (shape || rewrite blen_app; lia).
    cbn [mbind option_bind]. rewrite bool_decide_true by done.
    rewrite (bytes_at_inside _ pre v ([NUL] ++ post)) by (shape || lia).
    reflexivity.
  - intros Hne Hlast.
    destruct (decide (payload = [])) as [->|_]; [done|].
    destruct (exists_last Hne) as (v & c & ->).
    rewrite last_snoc in Hlast.
    rewrite blen_app. change (blen [c]) with 1.
    rewrite bool_decide_true by (pose proof (blen_nonneg v); lia).
    rewrite (byte_at_inside _ (pre ++ v) c post) by (shape || rewrite blen_app; lia).
    cbn [mbind option_bind].
    rewrite bool_decide_false by (intros ->; by apply Hlast).
    pose proof (bytes_at_app pre (v ++ [c]) post) as Hb.
    rewrite blen_app in Hb. change (blen [c]) with 1 in Hb.
    rewrite Hb. reflexivity.
Qed.

(** X4.  MAIL: the sender is parsed from the bytes before the first
    NUL of the payload, what follows (the ESMTP arguments) is not
    looked at, and the sender stored before stays when the address
    parser refuses the text.  A payload without NUL, or with an empty
    first string, is handed to the address parser whole; an empty
    payload changes nothing. *)
Theorem mail_takes_first_string
    (session : rspamd_milter_session) (payload : bytes) :
  let ps := parser (priv session) in
  cur_cmd ps = cmd_letter RSPAMD_MILTER_CMD_MAIL ->
  bytes_at (str (buf ps)) (cmd_start ps) (datalen ps) = Some payload ->
  (payload = [] -> rspamd_milter_process_command session = Some (session, true))
  /\ (forall txt rest, payload = txt ++ [NUL] ++ rest -> (NUL ∉ txt) -> txt ≠ [] ->
      rspamd_milter_process_command session
      = Some (mail_result session txt, true))
  /\ (payload ≠ [] -> (NUL ∉ payload \/ head payload = Some NUL) ->
      rspamd_milter_process_command session
      = Some (mail_result session payload, true)).
Proof.
  intros ps Hcmd Hat. subst ps.
  destruct (bytes_at_split _ _ _ _ Hat) as (pre & post & Hm & Hpre & Hlen).
  pose proof (blen_nonneg payload) as Hge.
  unfold rspamd_milter_process_command, set_from_if, mail_result.
  rewrite Hcmd, cmd_of_byte_letter, Hm, <- Hpre, <- Hlen.
  replace (blen pre + blen payload - blen pre) with (blen payload) by lia.
  split; [|split].
  - intros ->. by rewrite bool_decide_false by (change (blen []) with 0; lia).
  - intros txt rest -> Hnul Hne.
    assert (0 < blen txt) by (destruct txt; [done|unfold blen; simpl; lia]).
    rewrite !blen_app. change (blen [NUL]) with 1.
    pose proof (blen_nonneg rest).
    rewrite bool_decide_true by lia.
    rewrite (memchr_inside _ pre txt (rest ++ post)) by (shape || done || lia).
    cbn [mbind option_bind]. rewrite bool_decide_true by lia.
    replace (blen pre + blen txt - blen pre) with (blen txt) by lia.
    rewrite (bytes_at_inside _ pre txt ([NUL] ++ rest ++ post)) by (shape || lia).
    reflexivity.
  - intros Hne Hshape.
    assert (0 < blen payload) by (destruct payload; [done|unfold blen; simpl; lia]).
    rewrite bool_decide_true by lia.
    pose proof (bytes_at_app pre payload post) as Hb.
    destruct Hshape as [Hnul|Hhead].
    + rewrite (memchr_none _ pre payload post) by (done || lia).
      cbn [mbind option_bind]. by rewrite Hb.
    + destruct payload as [|c rest]; [done|]. injection Hhead as ->.
      rewrite (memchr_inside _ pre [] (rest ++ post))
        by (shape || (apply not_elem_of_nil) || rewrite ?blen_nil; lia).
      cbn [mbind option_bind].
      rewrite bool_decide_false by (rewrite blen_nil; lia).
      by rewrite Hb.
Qed.

Lemma rcpt_loop_tail (tail : bytes) (session : rspamd_milter_session)
    (pre post : bytes) (fuel : nat) :
  rcpt_tail tail ->
  (length tail <= fuel)%nat ->
  rcpt_loop fuel session (pre ++ tail ++ post) (blen pre + blen tail) (blen pre)
  = Some (rcpt_results session (rcpt_texts [] tail), true).
Proof.
  intros Htail Hfuel. unfold rcpt_texts. cbn [app].
  destruct (decide (tail = [])) as [->|Hne].
  - rewrite blen_nil. destruct fuel; simpl; by rewrite bool_decide_false by lia.
  - pose proof (blen_pos tail Hne) as Hpos.
    destruct fuel as [|fuel]; [destruct tail; [done|simpl in Hfuel; lia]|].
    cbn [rcpt_loop]. rewrite bool_decide_true by lia.
    replace (blen pre + blen tail - blen pre) with (blen tail) by lia.
    rewrite (bytes_at_inside _ pre tail post) by done.
    destruct Htail as [->|[Hhead|Hnul]]; [done| |].
    + destruct tail as [|c t]; [done|]. injection Hhead as ->.
      rewrite (memchr_inside _ pre [] (t ++ post)) by (done || set_solver || lia).
      cbn [mbind option_bind]. rewrite blen_nil, Z.add_0_r.
      by rewrite bool_decide_false by lia.
    + by rewrite (memchr_none _ pre tail post).
Qed.

Lemma rcpt_loop_strings (addrs : list bytes) (tail : bytes)
    (session : rspamd_milter_session) (pre post : bytes) (fuel : nat) :
  Forall (fun a => (NUL ∉ a) /\ a ≠ []) addrs ->
  rcpt_tail tail ->
  (length (nul_terminated addrs ++ tail) <= fuel)%nat ->
  rcpt_loop fuel session (pre ++ (nul_terminated addrs ++ tail) ++ post)
            (blen pre + blen (nul_terminated addrs ++ tail)) (blen pre)
  = Some (rcpt_results session (rcpt_texts addrs tail), true).
Proof.
  revert session pre fuel.
  induction addrs as [|a addrs IH]; intros session pre fuel Hall Htail Hfuel.
  - unfold nul_terminated in *. cbn [fmap list_fmap concat app] in *.
    by apply rcpt_loop_tail.
  - apply Forall_cons in Hall as [[Hnul Hne] Hall].
    change (nul_terminated (a :: addrs))
      with ((a ++ [NUL]) ++ nul_terminated addrs) in *.
    replace (((a ++ [NUL]) ++ nul_terminated addrs) ++ tail)
      with ((a ++ [NUL]) ++ nul_terminated addrs ++ tail) in * by shape.
    set (rest := nul_terminated addrs ++ tail) in *.
    pose proof (blen_nonneg rest) as Hrest. pose proof (blen_pos a Hne) as Ha.
    destruct fuel as [|fuel];
      [rewrite !length_app in Hfuel; simpl in Hfuel; lia|].
    cbn [rcpt_loop].
    rewrite !blen_app. change (blen [NUL]) with 1.
    rewrite bool_decide_true by lia.
    rewrite (memchr_inside _ pre a (rest ++ post)) by (shape || done || lia).
    cbn [mbind option_bind].
    rewrite (bytes_at_inside _ pre ((a ++ [NUL]) ++ rest) post)
      by (shape || rewrite ?blen_app; change (blen [NUL]) with 1; lia).
    cbn [mbind option_bind].
    rewrite bool_decide_true by lia.
    replace (blen pre + blen a - blen pre) with (blen a) by lia.
    replace (take (Z.to_nat (blen a)) ((a ++ [NUL]) ++ rest)) with a.
    2:{ unfold blen. rewrite Nat2Z.id, <- !app_assoc. by rewrite take_app_length. }
    specialize (IH (rcpts_add session (rspamd_email_address_from_smtp a))
                   (pre ++ a ++ [NUL]) fuel Hall Htail).
    fold rest in IH.
    rewrite !blen_app in IH. change (blen [NUL]) with 1 in IH.
    replace (blen pre + (blen a + 1 + blen rest))
      with (blen pre + (blen a + 1) + blen rest) by lia.
    replace (blen pre + blen a + 1) with (blen pre + (blen a + 1)) by lia.
    replace (pre ++ ((a ++ [NUL]) ++ rest) ++ post)
      with ((pre ++ a ++ [NUL]) ++ rest ++ post) by shape.
    rewrite IH; [done|].
    rewrite !length_app in Hfuel. simpl in Hfuel. lia.
Qed.

(** Every payload is a run of non-empty NUL-terminated strings and a
    tail. *)
Lemma payload_strings_and_tail (payload : bytes) :
  exists addrs tail,
    payload = nul_terminated addrs ++ tail
    /\ Forall (fun a => (NUL ∉ a) /\ a ≠ []) addrs
    /\ rcpt_tail tail.
Proof.
  remember (length payload) as k eqn:Hk. revert payload Hk.
  induction k as [k IH] using lt_wf_ind. intros payload ->.
  destruct (decide (NUL ∈ payload)) as [Hin|Hnot];
    [|exists [], payload; repeat split; [constructor|by right; right]].
  apply list_elem_of_split_l in Hin as (a & rest & -> & Hnul).
  destruct a as [|c a].
  - exists [], (NUL :: rest). repeat split; [constructor|by right; left].
  - destruct (IH (length rest)
                 ltac:(rewrite length_app; simpl; lia) rest eq_refl)
      as (addrs & tail & -> & Hall & Htail).
    exists ((c :: a) :: addrs), tail. split; [|split; [|done]].
    + change (nul_terminated ((c :: a) :: addrs))
        with (((c :: a) ++ [NUL]) ++ nul_terminated addrs). shape.
    + by constructor.
Qed.

Lemma rcpt_results_rcpts (addrs : list bytes) (session : rspamd_milter_session) :
  rcpts (rcpt_results session addrs)
  = match omap rspamd_email_address_from_smtp addrs with
    | [] => rcpts session
    | l => Some (default [] (rcpts session) ++ l)
    end
  /\ priv (rcpt_results session addrs) = priv session
  /\ from (rcpt_results session addrs) = from session
  /\ message (rcpt_results session addrs) = message session.
Proof.
  revert session. induction addrs as [|a addrs IH]; intros session; [done|].
  cbn [rcpt_results foldl omap list_omap]. fold (rcpt_results (rcpts_add session (rspamd_email_address_from_smtp a)) addrs).
  destruct (IH (rcpts_add session (rspamd_email_address_from_smtp a)))
    as (-> & -> & -> & ->).
  destruct (rspamd_email_address_from_smtp a) as [x|]; cbn; [|done].
  split; [|done].
  destruct (omap rspamd_email_address_from_smtp addrs); [done|].
  by rewrite <- app_assoc.
Qed.

(** X5.  RCPT, for every payload.  The payload is read as the
    non-empty NUL-terminated strings it opens with, and a tail: nothing,
    or what begins with an empty string, or what has no NUL.  Each
    string is handed to the address parser, the ESMTP arguments behind
    the address as well as the address; a tail that is not empty is
    handed to it whole, NULs and all, and ends the command.  The texts
    the parser accepts are appended to the recipients in the order of
    the payload; nothing else of the session changes. *)
Theorem rcpt_adds_every_string_that_parses
    (session : rspamd_milter_session) (payload : bytes) :
  let ps := parser (priv session) in
  cur_cmd ps = cmd_letter RSPAMD_MILTER_CMD_RCPT ->
  bytes_at (str (buf ps)) (cmd_start ps) (datalen ps) = Some payload ->
  (exists addrs tail,
     payload = nul_terminated addrs ++ tail
     /\ Forall (fun a => (NUL ∉ a) /\ a ≠ []) addrs
     /\ rcpt_tail tail)
  /\ (forall addrs tail,
        payload = nul_terminated addrs ++ tail ->
        Forall (fun a => (NUL ∉ a) /\ a ≠ []) addrs ->
        rcpt_tail tail ->
        exists session',
          rspamd_milter_process_command session = Some (session', true)
          /\ rcpts session'
             = match omap rspamd_email_address_from_smtp
                       (rcpt_texts addrs tail) with
               | [] => rcpts session
               | l => Some (default [] (rcpts session) ++ l)
               end
          /\ priv session' = priv session
          /\ from session' = from session
          /\ message session' = message session).
Proof.
  intros ps Hcmd Hat. subst ps.
  split; [apply payload_strings_and_tail|].
  intros addrs tail -> Hall Htail.
  destruct (bytes_at_split _ _ _ _ Hat) as (pre & post & Hm & Hpre & Hlen).
  exists (rcpt_results session (rcpt_texts addrs tail)).
  split; [|apply rcpt_results_rcpts].
  unfold rspamd_milter_process_command.
  rewrite Hcmd, cmd_of_byte_letter, Hm, <- Hpre, <- Hlen.
  apply rcpt_loop_strings; [done..|]. unfold blen. lia.
Qed.

Lemma ntohs_bytes_value (p0 p1 : ascii) :
  ntohs_bytes p0 p1 = 256 * Z_of_byte p0 + Z_of_byte p1.
Proof.
  unfold ntohs_bytes.
  pose proof (Z_of_byte_range p0). pose proof (Z_of_byte_range p1).
  rewrite Z.shiftl_mul_pow2 by lia.
  rewrite <- Z.add_nocarry_lor; [lia|].
  apply Z.bits_inj'. intros n Hn. rewrite Z.land_spec, Z.bits_0.
  destruct (decide (n < 8)).
  - rewrite Z.mul_pow2_bits_low by lia. done.
  - destruct (decide (Z_of_byte p1 = 0)) as [->|];
      [by rewrite Z.bits_0, andb_false_r|].
    rewrite (Z.bits_above_log2 (Z_of_byte p1)), andb_false_r; [done|lia|].
    apply Z.log2_lt_pow2; [lia|].
    apply Z.lt_le_trans with (2 ^ 8); [lia|]. apply Z.pow_le_mono_r; lia.
Qed.

(** X6.  CONNECT: the host name is the text before the first NUL.  With
    family [U], or with nothing behind the port, only the host name is
    stored and the address stays as it was.  Otherwise the text behind
    the port, up to its NUL, is the socket path (family [S], port
    ignored) or the IP text handed to the address parser (families [4]
    and [6], the latter through [connect_ip6_str]), and the port is the
    big-endian value of its two bytes. *)
Theorem connect_stores_host_and_address
    (session : rspamd_milter_session) (payload host ip : bytes)
    (fam p0 p1 : ascii) :
  let ps := parser (priv session) in
  let port := 256 * Z_of_byte p0 + Z_of_byte p1 in
  cur_cmd ps = cmd_letter RSPAMD_MILTER_CMD_CONNECT ->
  bytes_at (str (buf ps)) (cmd_start ps) (datalen ps) = Some payload ->
  (NUL ∉ host) -> (NUL ∉ ip) ->
  (forall rest, payload = host ++ [NUL; "U"%char] ++ rest ->
     rspamd_milter_process_command session
     = Some (set_hostname (Some host) session, true))
  /\ (payload = host ++ [NUL; fam; p0; p1] -> fam ≠ "U"%char ->
      rspamd_milter_process_command session
      = Some (set_hostname (Some host) session, true))
  /\ (payload = host ++ [NUL; fam; p0; p1] ++ ip ++ [NUL] ->
      (fam = "S"%char ->
       rspamd_milter_process_command session
       = Some (connected session host
                 {| af := AF_UNIX; addr_text := Some ip; addr_port := 0 |}, true))
      /\ (fam = "4"%char -> rspamd_parse_inet_address_ip ip = true ->
          rspamd_milter_process_command session
          = Some (connected session host
                    {| af := AF_INET; addr_text := Some ip; addr_port := port |},
                  true))
      /\ (fam = "6"%char ->
          rspamd_parse_inet_address_ip (connect_ip6_str ip) = true ->
          rspamd_milter_process_command session
          = Some (connected session host
                    {| af := AF_INET6; addr_text := Some (connect_ip6_str ip);
                       addr_port := port |}, true))).
Proof.
  intros ps port Hcmd Hat Hhost Hip. subst ps port.
  destruct (bytes_at_split _ _ _ _ Hat) as (pre & post & Hm & Hpre & Hlen).
  pose proof (blen_nonneg host) as Hh. pose proof (blen_nonneg ip) as Hi.
  unfold rspamd_milter_process_command.
  rewrite Hcmd, cmd_of_byte_letter, Hm, <- Hpre, <- Hlen.
  split; [|split].
  - intros rest ->. pose proof (blen_nonneg rest).
    blens.
    rewrite (memchr_inside _ pre host ("U"%char :: rest ++ post))
      by (shape || done || lia).
    cbn [mbind option_bind]. rewrite bool_decide_false by lia.
    rewrite (bytes_at_inside _ pre host (NUL :: "U"%char :: rest ++ post))
      by (shape || lia).
    cbn [mbind option_bind]. unfold connect_address.
    rewrite (byte_at_inside _ (pre ++ host ++ [NUL]) "U"%char (rest ++ post) (blen pre + blen host + 1))
      by (shape || blens; lia).
    reflexivity.
  - intros -> Hfam.
    blens.
    rewrite (memchr_inside _ pre host ([fam; p0; p1] ++ post))
      by (shape || done || lia).
    cbn [mbind option_bind]. rewrite bool_decide_false by lia.
    rewrite (bytes_at_inside _ pre host ([NUL; fam; p0; p1] ++ post))
      by (shape || lia).
    cbn [mbind option_bind]. unfold connect_address.
    rewrite (byte_at_inside _ (pre ++ host ++ [NUL]) fam ([p0; p1] ++ post) (blen pre + blen host + 1))
      by (shape || blens; lia).
    cbn [mbind option_bind].
    rewrite bool_decide_false by done.
    rewrite (byte_at_inside _ (pre ++ host ++ [NUL; fam]) p0 ([p1] ++ post) (blen pre + blen host + 1 + 1))
      by (shape || blens; lia).
    rewrite (byte_at_inside _ (pre ++ host ++ [NUL; fam; p0]) p1 post (blen pre + blen host + 1 + 1 + 1))
      by (shape || blens; lia).
    cbn [mbind option_bind].
    by rewrite bool_decide_true by lia.
  - intros ->.
    blens.
    rewrite (memchr_inside _ pre host ([fam; p0; p1] ++ ip ++ [NUL] ++ post))
      by (shape || done || lia).
    cbn [mbind option_bind]. rewrite bool_decide_false by lia.
    rewrite (bytes_at_inside _ pre host
               ([NUL; fam; p0; p1] ++ ip ++ [NUL] ++ post)) by (shape || lia).
    cbn [mbind option_bind]. unfold connect_address.
    rewrite (byte_at_inside _ (pre ++ host ++ [NUL]) fam
               ([p0; p1] ++ ip ++ [NUL] ++ post) (blen pre + blen host + 1))
      by (shape || blens; lia).
    cbn [mbind option_bind].
    split; [|split]; [intros ->|intros -> Hparse|intros -> Hparse].
    all: rewrite (bool_decide_false (_ = RSPAMD_MILTER_CONN_UNKNOWN)) by done.
    all: rewrite (byte_at_inside _ (pre ++ host ++ [NUL; _]) p0
                    ([p1] ++ ip ++ [NUL] ++ post) (blen pre + blen host + 1 + 1))
           by (shape || blens; lia).
    all: rewrite (byte_at_inside _ (pre ++ host ++ [NUL; _; p0]) p1
                    (ip ++ [NUL] ++ post) (blen pre + blen host + 1 + 1 + 1))
           by (shape || blens; lia).
    all: cbn [mbind option_bind].
    all: rewrite bool_decide_false by lia.
    all: rewrite (memchr_inside _ (pre ++ host ++ [NUL; _; p0; p1]) ip post)
           by (shape || done || blens; lia).
    all: cbn [mbind option_bind].
    all: rewrite (bytes_at_inside _ (pre ++ host ++ [NUL; _; p0; p1]) ip
                    ([NUL] ++ post)) by (shape || blens; lia).
    all: cbn [mbind option_bind].
    all: rewrite ntohs_bytes_value.
    + reflexivity.
    + rewrite bool_decide_false by done. rewrite bool_decide_true by done.
      rewrite Hparse. reflexivity.
    + rewrite bool_decide_false by done. rewrite bool_decide_false by done.
      rewrite bool_decide_true by done.
      rewrite Hparse. reflexivity.
Qed.

(** X7.  CONNECT, refused: a payload without NUL fails before anything
    is stored.  A payload whose address is not NUL-terminated, whose IP
    text the address parser refuses or whose family is none of [U],
    [S], [4], [6] fails after the host name was stored, and for the
    families [4] and [6] after a blank address of that family replaced
    the stored one. *)
Theorem connect_failure_leaves_host_stored
    (session : rspamd_milter_session) (payload host ip : bytes)
    (fam p0 p1 : ascii) :
  let ps := parser (priv session) in
  let failed s msg :=
    Some (rspamd_milter_on_protocol_error s (g_error_new EINVAL msg), false) in
  cur_cmd ps = cmd_letter RSPAMD_MILTER_CMD_CONNECT ->
  bytes_at (str (buf ps)) (cmd_start ps) (datalen ps) = Some payload ->
  (NUL ∉ host) -> (NUL ∉ ip) -> fam ≠ "U"%char ->
  ((NUL ∉ payload) ->
   rspamd_milter_process_command session
   = failed session "invalid connect command (no name)")
  /\ (payload = host ++ [NUL; fam; p0; p1] ++ ip -> ip ≠ [] ->
      rspamd_milter_process_command session
      = failed (set_hostname (Some host) session)
               "invalid connect command (no zero terminated IP)")
  /\ (payload = host ++ [NUL; fam; p0; p1] ++ ip ++ [NUL] ->
      (fam = "4"%char -> rspamd_parse_inet_address_ip ip = false ->
       rspamd_milter_process_command session
       = failed (connected session host
                   {| af := AF_INET; addr_text := None; addr_port := 0 |})
                "invalid connect command (bad IPv4)")
      /\ (fam = "6"%char ->
          rspamd_parse_inet_address_ip (connect_ip6_str ip) = false ->
          rspamd_milter_process_command session
          = failed (connected session host
                      {| af := AF_INET6; addr_text := None; addr_port := 0 |})
                   "invalid connect command (bad IPv6)")
      /\ (fam ≠ "S"%char -> fam ≠ "4"%char -> fam ≠ "6"%char ->
          rspamd_milter_process_command session
          = failed (set_hostname (Some host) session)
                   "invalid connect command (bad protocol: %c)")).
Proof.
  intros ps failed Hcmd Hat Hhost Hip HU. subst ps failed.
  destruct (bytes_at_split _ _ _ _ Hat) as (pre & post & Hm & Hpre & Hlen).
  pose proof (blen_nonneg host) as Hh. pose proof (blen_nonneg ip) as Hi.
  unfold rspamd_milter_process_command.
  rewrite Hcmd, cmd_of_byte_letter, Hm, <- Hpre, <- Hlen.
  split; [|split].
  - intros Hnul. by rewrite (memchr_none _ pre payload post) by done.
  - intros -> Hne. pose proof (blen_pos ip Hne).
    blens.
    rewrite (memchr_inside _ pre host ([fam; p0; p1] ++ ip ++ post))
      by (shape || done || lia).
    cbn [mbind option_bind]. rewrite bool_decide_false by lia.
    rewrite (bytes_at_inside _ pre host ([NUL; fam; p0; p1] ++ ip ++ post))
      by (shape || lia).
    cbn [mbind option_bind]. unfold connect_address.
    rewrite (byte_at_inside _ (pre ++ host ++ [NUL]) fam
               ([p0; p1] ++ ip ++ post) (blen pre + blen host + 1))
      by (shape || blens; lia).
    cbn [mbind option_bind].
    rewrite (bool_decide_false (_ = RSPAMD_MILTER_CONN_UNKNOWN)) by done.
    rewrite (byte_at_inside _ (pre ++ host ++ [NUL; fam]) p0
               ([p1] ++ ip ++ post) (blen pre + blen host + 1 + 1))
      by (shape || blens; lia).
    rewrite (byte_at_inside _ (pre ++ host ++ [NUL; fam; p0]) p1
               (ip ++ post) (blen pre + blen host + 1 + 1 + 1))
      by (shape || blens; lia).
    cbn [mbind option_bind].
    rewrite bool_decide_false by lia.
    rewrite (memchr_none _ (pre ++ host ++ [NUL; fam; p0; p1]) ip post)
      by (shape || done || blens; lia).
    reflexivity.
  - intros ->. blens.
    rewrite (memchr_inside _ pre host ([fam; p0; p1] ++ ip ++ [NUL] ++ post))
      by (shape || done || lia).
    cbn [mbind option_bind]. rewrite bool_decide_false by lia.
    rewrite (bytes_at_inside _ pre host
               ([NUL; fam; p0; p1] ++ ip ++ [NUL] ++ post)) by (shape || lia).
    cbn [mbind option_bind]. unfold connect_address.
    rewrite (byte_at_inside _ (pre ++ host ++ [NUL]) fam
               ([p0; p1] ++ ip ++ [NUL] ++ post) (blen pre + blen host + 1))
      by (shape || blens; lia).
    cbn [mbind option_bind].
    rewrite (bool_decide_false (_ = RSPAMD_MILTER_CONN_UNKNOWN)) by done.
    rewrite (byte_at_inside _ (pre ++ host ++ [NUL; fam]) p0
               ([p1] ++ ip ++ [NUL] ++ post) (blen pre + blen host + 1 + 1))
      by (shape || blens; lia).
    rewrite (byte_at_inside _ (pre ++ host ++ [NUL; fam; p0]) p1
               (ip ++ [NUL] ++ post) (blen pre + blen host + 1 + 1 + 1))
      by (shape || blens; lia).
    cbn [mbind option_bind].
    rewrite bool_decide_false by lia.
    rewrite (memchr_inside _ (pre ++ host ++ [NUL; fam; p0; p1]) ip post)
      by (shape || done || blens; lia).
    cbn [mbind option_bind].
    rewrite (bytes_at_inside _ (pre ++ host ++ [NUL; fam; p0; p1]) ip
               ([NUL] ++ post)) by (shape || blens; lia).
    cbn [mbind option_bind].
    split; [|split].
    + intros -> Hparse.
      rewrite bool_decide_false by done. rewrite bool_decide_true by done.
      rewrite Hparse. reflexivity.
    + intros -> Hparse.
      rewrite bool_decide_false by done. rewrite bool_decide_false by done.
      rewrite bool_decide_true by done.
      rewrite Hparse. reflexivity.
    + intros HS H4 H6. by rewrite !bool_decide_false by done.
Qed.

(** *** MACRO *)

Lemma macro_loop_pairs (pairs : list (bytes * bytes))
    (session : rspamd_milter_session) (pre post : bytes) (fuel : nat)
    (cmdlen : Z) :
  Forall (fun nv => (NUL ∉ nv.1) /\ (NUL ∉ nv.2)) pairs ->
  blen (macro_pairs pairs) < cmdlen ->
  (length pairs <= fuel)%nat ->
  macro_loop fuel session (pre ++ macro_pairs pairs ++ post)
             (blen pre + blen (macro_pairs pairs)) (blen pre) cmdlen
  = Some (macro_results session pairs, true).
Proof.
  revert session pre fuel cmdlen.
  induction pairs as [|[n v] pairs IH]; intros session pre fuel cmdlen Hall Hlen Hfuel.
  - unfold macro_pairs. cbn [fmap list_fmap concat]. rewrite blen_nil.
    destruct fuel; simpl; by rewrite bool_decide_false by lia.
  - apply Forall_cons in Hall as [[Hn Hv] Hall]. cbn [fst snd] in Hn, Hv.
    change (macro_pairs ((n, v) :: pairs))
      with ((n ++ [NUL] ++ v ++ [NUL]) ++ macro_pairs pairs) in *.
    set (rest := macro_pairs pairs) in *.
    pose proof (blen_nonneg rest) as Hrest.
    pose proof (blen_nonneg n) as Hn0. pose proof (blen_nonneg v) as Hv0.
    destruct fuel as [|fuel]; [simpl in Hfuel; lia|].
    cbn [macro_loop]. revert Hlen. blens. intros Hlen.
    rewrite bool_decide_true by lia.
    rewrite (memchr_inside _ pre n (v ++ [NUL] ++ rest ++ post))
      by (shape || done || lia).
    cbn [mbind option_bind].
    rewrite (memchr_inside _ (pre ++ n ++ [NUL]) v (rest ++ post))
      by (shape || done || blens; lia).
    cbn [mbind option_bind].
    rewrite bool_decide_true by lia.
    rewrite (bytes_at_inside _ pre n ([NUL] ++ v ++ [NUL] ++ rest ++ post)
               (blen pre)) by (shape || lia).
    cbn [mbind option_bind].
    rewrite (bytes_at_inside _ (pre ++ n ++ [NUL]) v ([NUL] ++ rest ++ post)
               (blen pre + blen n + 1)) by (shape || blens; lia).
    cbn [mbind option_bind].
    etrans;
      [|apply (IH (if bool_decide (n = cstr "{mail_host}")
                   then set_hostname (Some v) (macros_replace session n v)
                   else macros_replace session n v)
                  (pre ++ n ++ [NUL] ++ v ++ [NUL]) fuel
                  (cmdlen - (blen pre + blen n + 1 + blen v - blen pre)) Hall);
        [lia|simpl in Hfuel; lia]].
    f_equal; [shape|blens; lia..].
Qed.

Lemma macro_results_fields (pairs : list (bytes * bytes))
    (session : rspamd_milter_session) (m : gmap bytes bytes) :
  macros session = Some m ->
  macros (macro_results session pairs) = Some (macros_after m pairs)
  /\ hostname (macro_results session pairs)
     = hostname_after (hostname session) pairs
  /\ priv (macro_results session pairs) = priv session
  /\ addr (macro_results session pairs) = addr session
  /\ helo (macro_results session pairs) = helo session
  /\ from (macro_results session pairs) = from session
  /\ rcpts (macro_results session pairs) = rcpts session
  /\ message (macro_results session pairs) = message session.
Proof.
  revert session m. induction pairs as [|[n v] pairs IH]; intros session m Hm.
  - unfold macro_results, macros_after, hostname_after. simpl. by rewrite Hm.
  - unfold macro_results, macros_after, hostname_after.
    cbn [foldl fst snd].
    fold (macro_results (if bool_decide (n = cstr "{mail_host}")
               then set_hostname (Some v) (macros_replace session n v)
               else macros_replace session n v) pairs).
    fold (macros_after (<[rspamd_ftok_icase_key n := v]> m) pairs).
    fold (hostname_after (if bool_decide (n = cstr "{mail_host}") then Some v else hostname session) pairs).
    set (s1 := if bool_decide (n = cstr "{mail_host}")
               then set_hostname (Some v) (macros_replace session n v)
               else macros_replace session n v).
    destruct (IH s1 (<[rspamd_ftok_icase_key n := v]> m))
      as (IH1 & IH2 & IH3 & IH4 & IH5 & IH6 & IH7 & IH8).
    { unfold s1, macros_replace. rewrite Hm. by case_bool_decide. }
    rewrite IH1, IH2, IH3, IH4, IH5, IH6, IH7, IH8.
    unfold s1. case_bool_decide; done.
Qed.

Lemma macros_after_lookup (m : gmap bytes bytes) (l1 l2 : list (bytes * bytes))
    (n v : bytes) :
  Forall (fun nv => rspamd_ftok_icase_key nv.1 ≠ rspamd_ftok_icase_key n) l2 ->
  macros_after m (l1 ++ (n, v) :: l2) !! rspamd_ftok_icase_key n = Some v.
Proof.
  intros Hl2. unfold macros_after. rewrite foldl_app. cbn [foldl fst snd].
  set (m1 := foldl _ m l1). clearbody m1.
  assert (Hin : <[rspamd_ftok_icase_key n:=v]> m1 !! rspamd_ftok_icase_key n = Some v)
    by apply lookup_insert_eq.
  revert Hin. generalize (<[rspamd_ftok_icase_key n:=v]> m1). 
  induction Hl2 as [|[n' v'] l2 Hne _ IH]; intros m2 Hin; [done|].
  cbn [foldl fst snd]. apply IH. rewrite lookup_insert_ne by done. done.
Qed.

(** X8.  MACRO: behind the first byte, which is ignored, every pair of
    NUL-terminated name and value is stored in the macro table under
    the key of its name, in order, so that a name looked up afterwards
    gives the value of its last pair; the table is created when there
    was none; the value of a pair named [{mail_host}] becomes the host
    name; the command is never refused for such a payload. *)
Theorem macro_stores_every_pair
    (session : rspamd_milter_session) (c : ascii)
    (pairs : list (bytes * bytes)) :
  let ps := parser (priv session) in
  cur_cmd ps = cmd_letter RSPAMD_MILTER_CMD_MACRO ->
  bytes_at (str (buf ps)) (cmd_start ps) (datalen ps)
  = Some (c :: macro_pairs pairs) ->
  Forall (fun nv => (NUL ∉ nv.1) /\ (NUL ∉ nv.2)) pairs ->
  exists session',
    rspamd_milter_process_command session = Some (session', true)
    /\ macros session'
       = Some (macros_after (default ∅ (macros session)) pairs)
    /\ hostname session' = hostname_after (hostname session) pairs
    /\ priv session' = priv session
    /\ (forall l1 l2 n v,
          pairs = l1 ++ (n, v) :: l2 ->
          Forall (fun nv => rspamd_ftok_icase_key nv.1 ≠ rspamd_ftok_icase_key n)
                 l2 ->
          macros_after (default ∅ (macros session)) pairs
            !! rspamd_ftok_icase_key n = Some v).
Proof.
  intros ps Hcmd Hat Hall. subst ps.
  destruct (bytes_at_split _ _ _ _ Hat) as (pre & post & Hm & Hpre & Hlen).
  set (s0 := match macros session with
             | Some _ => session
             | None => set_macros (Some ∅) session
             end).
  assert (Hs0 : macros s0 = Some (default ∅ (macros session))
                /\ hostname s0 = hostname session /\ priv s0 = priv session).
  { unfold s0. destruct (macros session) eqn:E; cbn; rewrite ?E; done. }
  destruct Hs0 as (Hmac & Hhost & Hpriv).
  destruct (macro_results_fields pairs s0 _ Hmac) as (H1 & H2 & H3 & _).
  exists (macro_results s0 pairs).
  split; [|split; [done|split; [by rewrite H2, Hhost|split; [by rewrite H3|]]]].
  - unfold rspamd_milter_process_command.
    rewrite Hcmd, cmd_of_byte_letter, Hm, <- Hpre, <- Hlen.
    fold s0. rewrite blen_cons.
    pose proof (macro_loop_pairs pairs s0 (pre ++ [c]) post
                  (Z.to_nat (1 + blen (macro_pairs pairs)))
                  (1 + blen (macro_pairs pairs)) Hall) as Hloop.
    revert Hloop. blens. intros Hloop.
    etrans; [|apply Hloop; [lia|]].
    + f_equal; [shape|lia..].
    + clear. induction pairs as [|[n v] pairs IH]; [simpl; lia|].
      change (macro_pairs ((n, v) :: pairs))
        with ((n ++ [NUL] ++ v ++ [NUL]) ++ macro_pairs pairs).
      blens. pose proof (blen_nonneg n). pose proof (blen_nonneg v).
      pose proof (blen_nonneg (macro_pairs pairs)). simpl. lia.
  - intros l1 l2 n v -> Hl2. by apply macros_after_lookup.
Qed.

(** *** QUIT *)

(** X9.  QUIT: with an empty outbound queue the session goes to
    [WANNA_DIE], the finish callback is invoked and FALSE is returned.
    With replies pending the state becomes [WRITE_AND_DIE] and TRUE is
    returned; the next turn of the driver writes the queue out and
    puts the session back to [READ_MORE] with a read planned, and the
    finish callback is not invoked. *)
Theorem quit_with_replies_pending_goes_back_to_reading
    (session : rspamd_milter_session) :
  cur_cmd (parser (priv session)) = cmd_letter RSPAMD_MILTER_CMD_QUIT ->
  (out_chain (priv session) = [] ->
   exists session',
     rspamd_milter_process_command session = Some (session', false)
     /\ state (priv session') = RSPAMD_MILTER_WANNA_DIE
     /\ calls (priv session') = calls (priv session) ++ [fin_cb])
  /\ (out_chain (priv session) ≠ [] ->
      exists session1 session2,
        rspamd_milter_process_command session = Some (session1, true)
        /\ state (priv session1) = RSPAMD_MILTER_WRITE_AND_DIE
        /\ out_chain (priv session1) = out_chain (priv session)
        /\ calls (priv session1) = calls (priv session)
        /\ rspamd_milter_handle_session session1 io_written
           = Some (session2, true)
        /\ state (priv session2) = RSPAMD_MILTER_READ_MORE
        /\ out_chain (priv session2) = []
        /\ ev (priv session2) = Some EV_READ
        /\ calls (priv session2) = calls (priv session)).
Proof.
  intros Hcmd. unfold rspamd_milter_process_command.
  rewrite Hcmd, cmd_of_byte_letter. split.
  - intros ->. eexists. split; [reflexivity|]. done.
  - intros Hne. destruct (out_chain (priv session)) as [|o l] eqn:Hout; [done|].
    eexists _, _. split; [reflexivity|].
    unfold rspamd_milter_handle_session. cbn. rewrite Hout.
    repeat split; reflexivity.
Qed.

(** *** The address text of an INET6 peer *)

(** X10.  The text handed to the address parser for an INET6 peer never
    exceeds the 48 bytes [ip6_str] holds; a text that does not open
    with [IPv6:] is handed over as it is, cut to that size; behind the
    prefix [IPv6:] an address already in brackets is taken as it is and
    a bare one is put in brackets. *)
Theorem connect_ip6_str_fits_and_brackets (txt : bytes) :
  blen (connect_ip6_str txt) <= 48
  /\ (rspamd_lc_cmp (take 5 txt) (cstr "IPv6:") ≠ 0 ->
      connect_ip6_str txt = take 48 txt)
  /\ (forall p a, txt = p ++ a -> blen p = 5 ->
      rspamd_lc_cmp p (cstr "IPv6:") = 0 -> 2 <= blen a <= 46 ->
      connect_ip6_str txt
      = if bool_decide (head a = Some "["%char) then a
        else cstr "[" ++ a ++ cstr "]").
Proof.
  split; [|split].
  - unfold connect_ip6_str, blen.
    repeat case_match; rewrite length_take; lia.
  - intros Hne. unfold connect_ip6_str.
    rewrite (bool_decide_false (_ = 0)) by done. by rewrite andb_false_r.
  - intros p a -> Hp Hcmp Ha. unfold connect_ip6_str.
    assert (Hlen : length p = 5%nat) by (unfold blen in Hp; lia).
    rewrite blen_app, bool_decide_true by lia.
    replace (take 5 (p ++ a)) with p by (by rewrite <- Hlen, take_app_length).
    rewrite bool_decide_true by done. cbn [andb].
    replace (drop 5 (p ++ a)) with a by (by rewrite <- Hlen, drop_app_length).
    unfold blen in Ha.
    repeat case_bool_decide; try done.
    + apply take_ge. rewrite !length_app. simpl. lia.
    + apply take_ge. lia.
Qed.

(** ** Whole frames *)

Lemma wire_frame_length (cmd : ascii) (payload : bytes) :
  blen (wire_frame cmd payload) = blen payload + 5.
Proof. unfold wire_frame, htonl_bytes. blens. lia. Qed.

Lemma holds_frame_payload (session : rspamd_milter_session) (cmd : ascii)
    (payload : bytes) :
  bytes_at (str (buf (parser (priv (holds_frame session cmd payload)))))
           5 (blen payload) = Some payload.
Proof.
  cbn. unfold store_at, wire_frame, htonl_bytes. cbn [take app].
  exact (bytes_at_app
           [byte_of_Z (Z.shiftr (blen payload + 1) 24);
            byte_of_Z (Z.shiftr (blen payload + 1) 16);
            byte_of_Z (Z.shiftr (blen payload + 1) 8);
            byte_of_Z (blen payload + 1); cmd] payload _).
Qed.

(** The loop over the first five bytes of a frame that opens the
    buffer. *)
Lemma loop_takes_frame_head (fuel : nat) (session : rspamd_milter_session)
    (cmd : ascii) (payload : bytes) (end_ : Z) :
  pstate (parser (priv session)) = st_len_1 ->
  pos (parser (priv session)) = 0 ->
  blen payload + 1 < 2 ^ 31 ->
  5 <= end_ ->
  consume_loop (S (S (S (S (S fuel)))))
    (on_parser
       (set_buf {| str := store_at (str (buf (parser (priv session)))) 0
                            (wire_frame cmd payload);
                   len := blen (wire_frame cmd payload);
                   allocated := allocated (buf (parser (priv session))) |})
       session) 0 end_
  = consume_loop fuel (holds_frame session cmd payload) 5 end_.
Proof.
  intros Hst Hpos Hlen Hend. pose proof (blen_nonneg payload) as Hge.
  rewrite (loop_reads_head fuel _ (blen payload + 1) cmd
             (payload ++ drop (Z.to_nat 0 + length (wire_frame cmd payload))
                              (str (buf (parser (priv session))))) end_)
    by (done || lia || (unfold store_at, wire_frame; cbn; shape)).
  rewrite bool_decide_false by lia. f_equal.
  unfold holds_frame, on_parser, on_priv. cbn. rewrite Hpos.
  by replace (blen payload + 1 - 1) with (blen payload) by lia.
Qed.

(** The read of one whole frame by a waiting session, as a run of the
    dispatcher. *)
Lemma read_whole_frame
    (session : rspamd_milter_session) (cmd : ascii) (payload : bytes) :
  awaits_frame session ->
  rspamd_milter_is_valid_cmd cmd = true ->
  blen payload <= RSPAMD_MILTER_MESSAGE_CHUNK * 2 ->
  blen payload + 5 <= allocated (buf (parser (priv session))) ->
  blen payload + 1 < 2 ^ 31 ->
  rspamd_milter_handle_session session (io_read (wire_frame cmd payload))
  = match rspamd_milter_process_command (holds_frame session cmd payload) with
    | Some (session', true) => Some (after_frame session', true)
    | Some (session', false) => Some (session', false)
    | None => None
    end.
Proof.
  intros (Hstate & Hst & Hlen0 & Hpos) Hvalid Hchunk Halloc H32.
  set (held := holds_frame session cmd payload).
  pose proof (blen_nonneg payload) as Hge.
  unfold rspamd_milter_handle_session. rewrite Hstate. cbn zeta.
  rewrite Hlen0.
  rewrite (bool_decide_false (_ >= _)) by lia.
  rewrite (bool_decide_true (_ /\ _)) by (rewrite wire_frame_length; lia).
  unfold rspamd_milter_consume_input.
  cbn [parser priv on_parser on_priv set_priv set_parser set_buf pos buf len
       mk_parser].
  rewrite Hpos, !Hlen0, !Z.add_0_l, Z.sub_0_r.
  pose proof (wire_frame_length cmd payload) as Hend.
  replace (Z.to_nat (2 * blen (wire_frame cmd payload) + 1))
    with (S (S (S (S (S (S (Z.to_nat (2 * blen payload + 5))))))))
    by lia.
  rewrite (loop_takes_frame_head _ session cmd payload) by (done || lia).
  fold held.
  assert (Hheld : pstate (parser (priv held)) = st_read_data
                  /\ datalen (parser (priv held)) = blen payload
                  /\ cur_cmd (parser (priv held)) = cmd
                  /\ allocated (buf (parser (priv held)))
                     = allocated (buf (parser (priv session))))
    by (repeat split; reflexivity).
  destruct Hheld as (Hhst & Hhlen & Hhcmd & Hhalloc).
  destruct (decide (blen payload = 0)) as [Hzero|Hpos'].
  - rewrite loop_exit_done by lia. cbn [mbind option_bind].
    rewrite Hhst, Hhlen. rewrite !bool_decide_true by lia.
    destruct (rspamd_milter_process_command held) as [[s' []]|];
      cbn [mbind option_bind]; reflexivity.
  - cbn [consume_loop]. rewrite bool_decide_true by lia.
    rewrite Hhst, Hhlen, Hhcmd, Hhalloc, Hvalid. cbn [negb].
    rewrite (bool_decide_false (_ > _)) by lia.
    rewrite (bool_decide_false (_ < _)) by lia.
    rewrite (bool_decide_true (_ <= _)) by lia.
    destruct (rspamd_milter_process_command held) as [[s' []]|] eqn:Hrun;
      cbn [mbind option_bind]; [|reflexivity..].
    pose proof (process_command_keeps_parser _ _ _ Hrun) as Hkeep.
    rewrite Hkeep, Hhlen.
    rewrite loop_exit_done by lia. cbn [mbind option_bind].
    cbn [pstate parser priv on_parser on_priv set_priv set_parser
         parser_next_command mk_parser].
    cbn [mbind option_bind].
    rewrite !bool_decide_true by lia. reflexivity.
Qed.

(** X11.  A session that waits for a frame and reads exactly the frame
    of a known command, with a payload of two chunks at most that
    fits the buffer and a length word below 2^31 (from there on the
    shift of the first length byte is undefined): the dispatcher is
    run once, on a parser whose
    command byte is the frame's and whose [cmd_start] and [datalen] mark
    exactly the payload; when it returns TRUE the parser is back at the
    first length byte with the buffer rewound, when it returns FALSE
    so does the driver. *)
Theorem read_of_one_frame_dispatches_its_payload
    (session : rspamd_milter_session) (cmd : ascii) (payload : bytes) :
  awaits_frame session ->
  rspamd_milter_is_valid_cmd cmd = true ->
  blen payload <= RSPAMD_MILTER_MESSAGE_CHUNK * 2 ->
  blen payload + 5 <= allocated (buf (parser (priv session))) ->
  blen payload + 1 < 2 ^ 31 ->
  let held := holds_frame session cmd payload in
  cur_cmd (parser (priv held)) = cmd
  /\ bytes_at (str (buf (parser (priv held)))) (cmd_start (parser (priv held)))
              (datalen (parser (priv held))) = Some payload
  /\ rspamd_milter_handle_session session (io_read (wire_frame cmd payload))
     = match rspamd_milter_process_command held with
       | Some (session', true) => Some (after_frame session', true)
       | Some (session', false) => Some (session', false)
       | None => None
       end.
Proof.
  intros Hwait Hvalid Hchunk Halloc H32 held.
  split; [reflexivity|]. split; [apply holds_frame_payload|].
  by apply read_whole_frame.
Qed.

(** ** A message, frame by frame *)

Lemma after_frame_awaits (session : rspamd_milter_session) :
  state (priv session) = RSPAMD_MILTER_READ_MORE ->
  awaits_frame (after_frame session)
  /\ allocated (buf (parser (priv (after_frame session))))
     = allocated (buf (parser (priv session)))
  /\ message (after_frame session) = message session
  /\ calls (priv (after_frame session)) = calls (priv session)
  /\ out_chain (priv (after_frame session)) = out_chain (priv session)
  /\ headers (priv (after_frame session)) = headers (priv session).
Proof. intros Hst. unfold awaits_frame. by rewrite <- Hst. Qed.

(** A frame read by a waiting session whose command is accepted: the
    next read finds the session the dispatcher left, waiting again. *)
Lemma feed_frame (session session' : rspamd_milter_session) (cmd : ascii)
    (payload : bytes) (rest : list bytes) :
  awaits_frame session ->
  rspamd_milter_is_valid_cmd cmd = true ->
  fits session payload ->
  rspamd_milter_process_command (holds_frame session cmd payload)
  = Some (session', true) ->
  feed session (wire_frame cmd payload :: rest)
  = feed (after_frame session') rest.
Proof.
  intros Hwait Hvalid (Hchunk & Halloc & H32) Hrun.
  pose proof (read_whole_frame session cmd payload Hwait Hvalid Hchunk Halloc
                H32) as Hread.
  rewrite Hrun in Hread.
  cbn [feed]. destruct Hwait as (-> & _). cbn [mbind option_bind].
  by rewrite Hread.
Qed.

Lemma header_command_keeps (session session' : rspamd_milter_session) :
  cur_cmd (parser (priv session)) = cmd_letter RSPAMD_MILTER_CMD_HEADER ->
  rspamd_milter_process_command session = Some (session', true) ->
  state (priv session') = state (priv session)
  /\ calls (priv session') = calls (priv session)
  /\ out_chain (priv session') = out_chain (priv session).
Proof.
  intros Hcmd Hs. unfold rspamd_milter_process_command in Hs.
  rewrite Hcmd, cmd_of_byte_letter in Hs.
  unfold protocol_error in Hs. break_run; done.
Qed.

Lemma feed_body_frames (bs : list bytes) (session : rspamd_milter_session) :
  awaits_frame session ->
  Forall (fits session) bs ->
  exists session',
    feed session (wire_frame "B" <$> bs) = Some (session', true)
    /\ message session'
       = (if bs is [] then message session
          else Some (field_bytes (message session) ++ concat bs))
    /\ awaits_frame session'
    /\ calls (priv session') = calls (priv session)
    /\ out_chain (priv session') = out_chain (priv session)
    /\ headers (priv session') = headers (priv session).
Proof.
  revert session. induction bs as [|b bs IH]; intros session Hwait Hall.
  - by exists session.
  - apply Forall_cons in Hall as [Hb Hall].
    pose proof (holds_frame_payload session "B" b) as Hat.
    set (held := holds_frame session "B" b) in *.
    assert (Hrun : rspamd_milter_process_command held
                   = Some (set_message (fstring_append (message held) b) held,
                           true)).
    { unfold rspamd_milter_process_command.
      change (cmd_of_byte (cur_cmd (parser (priv held))))
        with (Some RSPAMD_MILTER_CMD_BODY).
      change (cmd_start (parser (priv held))) with 5.
      change (datalen (parser (priv held))) with (blen b).
      by rewrite Hat. }
    cbn [fmap list_fmap].
    rewrite (feed_frame session _ "B" b _ Hwait eq_refl Hb Hrun).
    set (s1 := set_message (fstring_append (message held) b) held) in *.
    destruct (after_frame_awaits s1) as (Hw1 & Ha1 & Hm1 & Hc1 & Ho1 & Hh1);
      [by destruct Hwait|].
    destruct (IH (after_frame s1) Hw1) as (s' & Hfeed & Hmsg & Hw & Hc & Ho & Hh).
    { eapply Forall_impl; [exact Hall|]. intros p (? & ? & ?).
      split; [done|]. split; [|done]. by rewrite Ha1. }
    exists s'. split; [exact Hfeed|]. split; [|by rewrite Hc, Hc1, Ho, Ho1, Hh, Hh1].
    rewrite Hmsg, Hm1. unfold s1, fstring_append, field_bytes. cbn [message set_message].
    change (message held) with (message session).
    destruct bs; simpl; rewrite ?app_nil_r, <- ?app_assoc; reflexivity.
Qed.

Lemma feed_header_frames (hs : list (bytes * bytes))
    (session : rspamd_milter_session) :
  awaits_frame session ->
  Forall (fun h => (NUL ∉ h.1) /\ fits session (header_payload h)) hs ->
  exists session1,
    (forall rest,
       feed session (((fun h => wire_frame "L" (header_payload h)) <$> hs) ++ rest)
       = feed session1 rest)
    /\ message session1
       = (if hs is [] then message session
          else Some (field_bytes (message session) ++ concat (header_line <$> hs)))
    /\ awaits_frame session1
    /\ allocated (buf (parser (priv session1)))
       = allocated (buf (parser (priv session)))
    /\ calls (priv session1) = calls (priv session)
    /\ out_chain (priv session1) = out_chain (priv session).
Proof.
  revert session. induction hs as [|[n v] hs IH]; intros session Hwait Hall.
  - by exists session.
  - apply Forall_cons in Hall as [[Hnul Hfit] Hall]. cbn [fst] in Hnul.
    pose proof (holds_frame_payload session "L" (header_payload (n, v))) as Hat.
    set (held := holds_frame session "L" (header_payload (n, v))) in *.
    destruct (header_command held n v) as (s1 & Hrun & _ & Hmsg).
    { split; [reflexivity|]. split; [done|]. exact Hat. }
    destruct (header_command_keeps held s1 eq_refl Hrun) as (Hst & Hc & Ho).
    pose proof (process_command_keeps_parser _ _ _ Hrun) as Hkeep.
    destruct (after_frame_awaits s1) as (Hw1 & Ha1 & Hm1 & Hc1 & Ho1 & _).
    { rewrite Hst. by destruct Hwait. }
    destruct (IH (after_frame s1) Hw1) as (s2 & Hfeed & Hmsg2 & Hw & Ha & Hc2 & Ho2).
    { eapply Forall_impl; [exact Hall|]. intros p (? & ? & ? & ?).
      split; [done|]. split; [done|]. split; [|done].
      by rewrite Ha1, Hkeep. }
    exists s2. split; [|split; [|split; [done|split; [|split]]]].
    + intros rest. cbn [fmap list_fmap app].
      rewrite (feed_frame session s1 "L" (header_payload (n, v)) _ Hwait eq_refl
                 Hfit Hrun).
      apply Hfeed.
    + rewrite Hmsg2, Hm1, Hmsg. change (message held) with (message session).
      unfold header_line.
      destruct hs; simpl; rewrite ?app_nil_r, <- ?app_assoc; reflexivity.
    + by rewrite Ha, Ha1, Hkeep.
    + by rewrite Hc2, Hc1, Hc.
    + by rewrite Ho2, Ho1, Ho.
Qed.

(** X12.  A session that waits for a frame and is sent a message frame
    by frame, one frame a read (the headers with NUL-free names and
    values, the end of the headers, the body in chunks, each within the
    limits of the buffer): every frame is accepted, the session waits
    for the next frame again, and the message holds what it held
    before followed by every header as [name: value CRLF], an empty
    line and the body chunks in order. *)
Theorem message_is_assembled_from_its_frames
    (session : rspamd_milter_session) (hs : list (bytes * bytes))
    (bs : list bytes) :
  awaits_frame session ->
  Forall (fun h => (NUL ∉ h.1) /\ (NUL ∉ h.2) /\ fits session (header_payload h))
         hs ->
  fits session [] ->
  Forall (fits session) bs ->
  exists session',
    feed session (message_frames hs bs) = Some (session', true)
    /\ message session'
       = Some (field_bytes (message session) ++ message_text hs bs)
    /\ awaits_frame session'
    /\ calls (priv session') = calls (priv session)
    /\ out_chain (priv session') = out_chain (priv session).
Proof.
  intros Hwait Hhs Heoh Hbs.
  destruct (feed_header_frames hs session Hwait)
    as (s1 & Hfeed1 & Hmsg1 & Hw1 & Ha1 & Hc1 & Ho1).
  { eapply Forall_impl; [exact Hhs|]. by intros h (? & _ & ?). }
  unfold message_frames. rewrite Hfeed1.
  set (held := holds_frame s1 "N" []).
  assert (Hrun : rspamd_milter_process_command held
                 = Some (set_message
                           (fstring_append (message held) ["013"; "010"]%char)
                           held, true)) by reflexivity.
  cbn [app].
  set (s2 := set_message (fstring_append (message held) ["013"; "010"]%char) held)
    in *.
  rewrite (feed_frame s1 s2 "N" [] _ Hw1 eq_refl).
  2:{ destruct Heoh as (? & ? & ?). split; [done|]. split; [|done].
      by rewrite Ha1. }
  2: exact Hrun.
  destruct (after_frame_awaits s2) as (Hw2 & Ha2 & Hm2 & Hc2 & Ho2 & _);
    [by destruct Hw1|].
  destruct (feed_body_frames bs (after_frame s2) Hw2)
    as (s3 & Hfeed3 & Hmsg3 & Hw3 & Hc3 & Ho3 & _).
  { eapply Forall_impl; [exact Hbs|]. intros p (? & ? & ?).
    split; [done|]. split; [|done]. rewrite Ha2.
    change (allocated (buf (parser (priv s2))))
      with (allocated (buf (parser (priv s1)))). by rewrite Ha1. }
  exists s3. split; [exact Hfeed3|].
  split; [|split; [done|split]].
  - rewrite Hmsg3, Hm2. unfold s2, fstring_append, field_bytes, message_text.
    cbn [message set_message]. change (message held) with (message s1).
    rewrite Hmsg1. unfold header_line.
    destruct hs, bs; simpl; rewrite ?app_nil_r, <- ?app_assoc; reflexivity.
  - rewrite Hc3, Hc2. exact Hc1.
  - rewrite Ho3, Ho2. exact Ho1.
Qed.

(** X26.  The bounds of a frame are checked when the parser gets to
    them, one read after the other.  A length word of zero is refused
    at the command byte.  A length word that announces more than two
    chunks, and a command byte that is no known command, are refused
    only when at least one byte follows the command byte in the same
    read: the error callback gets the error, the session goes to
    [WANNA_DIE] and FALSE is returned.  When the read ends at the
    command byte and a payload is announced, the read is accepted
    whatever the length and the command byte are.  All this for a
    length word below 2^31: from 2^31 on, the shift of the first
    length byte leaves the range of [int] and the read has no defined
    result. *)
Theorem frame_bounds_are_checked_behind_the_command_byte
    (session : rspamd_milter_session) (n : Z) (cmd : ascii) (rest : bytes) :
  awaits_frame session ->
  0 <= n < 2 ^ 32 ->
  blen rest + 5 <= allocated (buf (parser (priv session))) ->
  let read :=
    rspamd_milter_handle_session session
      (io_read (htonl_bytes n ++ [cmd] ++ rest)) in
  let refused code msg :=
    exists session',
      read = Some (session', false)
      /\ state (priv session') = RSPAMD_MILTER_WANNA_DIE
      /\ calls (priv session')
         = calls (priv session) ++ [err_cb (g_error_new code msg)] in
  (n = 0 -> refused EINVAL "Command length is too short")
  /\ (1 <= n < 2 ^ 31 -> n - 1 > RSPAMD_MILTER_MESSAGE_CHUNK * 2 -> rest ≠ [] ->
      refused E2BIG "Command length is too big: %zd")
  /\ (1 <= n < 2 ^ 31 -> n - 1 <= RSPAMD_MILTER_MESSAGE_CHUNK * 2 -> rest ≠ [] ->
      rspamd_milter_is_valid_cmd cmd = false ->
      refused E2BIG "Unvalid command: %c")
  /\ (1 < n < 2 ^ 31 -> rest = [] ->
      exists session',
        read = Some (session', true)
        /\ state (priv session') = RSPAMD_MILTER_READ_MORE
        /\ calls (priv session') = calls (priv session)
        /\ pstate (parser (priv session')) = st_read_data
        /\ datalen (parser (priv session')) = n - 1)
  /\ (2 ^ 31 <= n -> read = None).
Proof.
  intros (Hstate & Hst & Hlen0 & Hpos) Hn Halloc read refused.
  pose proof (blen_nonneg rest) as Hge.
  set (chunk := htonl_bytes n ++ [cmd] ++ rest).
  assert (Hchunk : blen chunk = blen rest + 5)
    by (unfold chunk, htonl_bytes; blens; lia).
  assert (Hread : read
    = rspamd_milter_consume_input
        (on_parser
           (set_buf {| str := store_at (str (buf (parser (priv session)))) 0 chunk;
                       len := blen chunk;
                       allocated := allocated (buf (parser (priv session))) |})
           session)).
  { unfold read, rspamd_milter_handle_session. rewrite Hstate. cbn zeta.
    rewrite Hlen0. fold chunk.
    rewrite (bool_decide_false (_ >= _)) by lia.
    rewrite (bool_decide_true (_ /\ _)) by lia.
    by rewrite ?Hlen0, ?Z.add_0_l. }
  set (tail := rest ++ drop (Z.to_nat 0 + length chunk)
                            (str (buf (parser (priv session))))).
  assert (Hstr : store_at (str (buf (parser (priv session)))) 0 chunk
                 = htonl_bytes n ++ [cmd] ++ tail)
    by (unfold store_at, chunk, tail; cbn; by rewrite <- ?app_assoc).
  unfold rspamd_milter_consume_input in Hread.
  cbn [parser priv on_parser on_priv set_priv set_parser set_buf pos buf len
       mk_parser] in Hread.
  rewrite Hpos, Z.sub_0_r in Hread.
  replace (Z.to_nat (2 * blen chunk + 1))
    with (S (S (S (S (S (S (Z.to_nat (2 * blen rest + 5))))))))
    in Hread by lia.
  unfold refused. clear refused.
  destruct (decide (n < 2 ^ 31)) as [Hsmall|Hlarge].
  2:{ repeat (split; [intros; lia|]). intros _. rewrite Hread.
      by rewrite (loop_head_overflows _ _ n ([cmd] ++ tail) (blen chunk))
        by (done || lia). }
  rewrite (loop_reads_head _ _ n cmd tail (blen chunk)) in Hread
    by (done || lia).
  clearbody tail. clear Hstr. rewrite Hread. clear Hread read.
  split; [|split; [|split; [|split]]].
  - intros ->. rewrite (bool_decide_true (_ < 1)) by lia.
    cbn [mbind option_bind].
    eexists. repeat split.
  - intros Hn1 Hbig Hrest. pose proof (blen_pos rest Hrest) as Hpos'.
    rewrite (bool_decide_false (_ < 1)) by lia. cbn [consume_loop].
    rewrite (bool_decide_true (5 < _)) by lia.
    cbn [pstate datalen parser priv on_parser on_priv set_priv set_parser
         mk_parser].
    rewrite (bool_decide_true (_ > _)) by lia. cbn [mbind option_bind].
    eexists. repeat split.
  - intros Hn1 Hfew Hrest Hvalid. pose proof (blen_pos rest Hrest) as Hpos'.
    rewrite (bool_decide_false (_ < 1)) by lia. cbn [consume_loop].
    rewrite (bool_decide_true (5 < _)) by lia.
    cbn [pstate datalen cur_cmd parser priv on_parser on_priv set_priv
         set_parser mk_parser].
    rewrite (bool_decide_false (_ > _)) by lia. rewrite Hvalid.
    cbn [negb mbind option_bind].
    eexists. repeat split.
  - intros Hn1 Hrest. assert (Hend : blen chunk = 5) by (subst rest; done).
    rewrite (bool_decide_false (_ < 1)) by lia.
    rewrite loop_exit_done by lia. cbn [mbind option_bind].
    cbn [pstate datalen parser priv on_parser on_priv set_priv set_parser
         mk_parser].
    rewrite (bool_decide_false (_ <= _)) by lia. cbn [mbind option_bind].
    rewrite !(bool_decide_true (5 = _)) by lia.
    eexists. split; [reflexivity|]. repeat split. exact Hstate.
  - intros. lia.
Qed.

(** ** Verdicts *)

Lemma send_keeps (session : rspamd_milter_session) (act : rspamd_milter_reply)
    (ap : va_list) :
  let session' := send session act ap in
  headers (priv session') = headers (priv session)
  /\ discard_on_reject (priv session') = discard_on_reject (priv session)
  /\ no_action (priv session') = no_action (priv session)
  /\ calls (priv session') = calls (priv session)
  /\ parser (priv session') = parser (priv session).
Proof.
  unfold send, rspamd_milter_send_action. by destruct (build_reply act ap).
Qed.

Lemma send_frame (session : rspamd_milter_session) (act : rspamd_milter_reply)
    (ap : va_list) (payload : bytes) :
  payload_layout act ap = Some payload ->
  out_chain (priv (send session act ap))
  = out_chain (priv session) ++ [out_frame (reply_letter act) payload]
  /\ state (priv (send session act ap)) = RSPAMD_MILTER_WRITE_REPLY.
Proof.
  intros Hl. unfold send.
  destruct (send_action_spec session act ap _ (build_reply_layout act ap _ Hl))
    as (s' & Hs & Hout & Hst & _).
  rewrite Hs. cbn [fst]. by rewrite Hout, Hst.
Qed.

(** X13.  A scan without result, or a result without [action]: one
    TEMPFAIL frame is enqueued and nothing else of the result is
    applied, neither its milter block nor its DKIM signature; the
    flags of the session stay as they were. *)
Theorem verdict_without_action_is_tempfail
    (milter_ctx : rspamd_milter_context) (session : rspamd_milter_session)
    (results : option ucl_object_t) :
  (results = None
   \/ exists r, results = Some r /\ ucl_object_lookup r "action" = None) ->
  let session' := rspamd_milter_send_task_results milter_ctx session results in
  out_chain (priv session') = out_chain (priv session) ++ [out_frame "t" []]
  /\ state (priv session') = RSPAMD_MILTER_WRITE_REPLY
  /\ discard_on_reject (priv session') = discard_on_reject (priv session)
  /\ no_action (priv session') = no_action (priv session)
  /\ headers (priv session') = headers (priv session).
Proof.
  intros Hres session'.
  assert (Heq : session' = send session RSPAMD_MILTER_TEMPFAIL va_none).
  { unfold session', rspamd_milter_send_task_results.
    destruct Hres as [->|(r & -> & ->)]; reflexivity. }
  rewrite Heq.
  destruct (send_frame session RSPAMD_MILTER_TEMPFAIL va_none [] eq_refl)
    as [-> ->].
  destruct (send_keeps session RSPAMD_MILTER_TEMPFAIL va_none)
    as (-> & -> & -> & _).
  done.
Qed.

(** X14.  A verdict whose action is soft reject, on a session whose
    [no_action] flag is clear once the verdict's milter block has been
    applied: the REPLYCODE frame carrying [451 4.7.1 text] (the text of
    [messages.smtp_message], or the default temporary-failure message)
    and then a REJECT frame follow what the block and the DKIM
    signature enqueued, whether [discard_on_reject] is set or not. *)
Theorem soft_reject_verdict_replies_451_and_rejects
    (milter_ctx : rspamd_milter_context) (session : rspamd_milter_session)
    (results elt : ucl_object_t) :
  ucl_object_lookup results "action" = Some elt ->
  results_action elt = METRIC_ACTION_SOFT_REJECT ->
  let r := apply_milter_and_dkim milter_ctx session results
             METRIC_ACTION_SOFT_REJECT in
  let text := default RSPAMD_MILTER_TEMPFAIL_MESSAGE (results_reply results) in
  no_action (priv (fst r)) = false ->
  out_chain (priv (rspamd_milter_send_task_results milter_ctx session
                     (Some results)))
  = out_chain (priv (fst r))
    ++ [out_frame "y" (cstr "451 4.7.1 " ++ text ++ [NUL]); out_frame "r" []].
Proof.
  intros Haction Hsoft r text Hno.
  assert (Hsnd : snd r = false).
  { unfold r, apply_milter_and_dkim.
    destruct (ucl_object_lookup results "milter"); reflexivity. }
  unfold rspamd_milter_send_task_results.
  rewrite Haction, Hsoft. fold r.
  destruct r as [s1 processed] eqn:Hr. cbn [fst snd] in *. subst processed.
  rewrite Hno. unfold send_action_results. fold text.
  destruct (send_frame (fst (rspamd_milter_set_reply s1 RSPAMD_MILTER_RCODE_TEMPFAIL
                               RSPAMD_MILTER_XCODE_TEMPFAIL text))
              RSPAMD_MILTER_REJECT va_none [] eq_refl) as [-> _].
  destruct (set_reply_frame s1 RSPAMD_MILTER_RCODE_TEMPFAIL
              RSPAMD_MILTER_XCODE_TEMPFAIL text) as [-> _].
  by rewrite <- app_assoc.
Qed.

(** The session a verdict is applied to when it has neither milter
    block nor DKIM signature. *)
Lemma plain_verdict (milter_ctx : rspamd_milter_context)
    (session : rspamd_milter_session) (results : ucl_object_t)
    (action : rspamd_metric_action) :
  ucl_object_lookup results "milter" = None ->
  ucl_object_lookup results "dkim-signature" = None ->
  apply_milter_and_dkim milter_ctx session results action = (session, false).
Proof. intros Hm Hd. unfold apply_milter_and_dkim. by rewrite Hm, Hd. Qed.


(** X16.  A verdict whose action is rewrite subject, with neither
    milter block nor DKIM signature, on a session whose [no_action]
    flag is clear: the first Subject header is set to the text of
    [subject] when the verdict has one, and the message is accepted;
    without [subject] it is accepted unchanged. *)
Theorem rewrite_subject_verdict_changes_first_subject
    (milter_ctx : rspamd_milter_context) (session : rspamd_milter_session)
    (results elt : ucl_object_t) :
  ucl_object_lookup results "action" = Some elt ->
  results_action elt = METRIC_ACTION_REWRITE_SUBJECT ->
  ucl_object_lookup results "milter" = None ->
  ucl_object_lookup results "dkim-signature" = None ->
  no_action (priv session) = false ->
  let session' :=
    rspamd_milter_send_task_results milter_ctx session (Some results) in
  (forall subject,
     ucl_object_lookup results "subject" = Some (UCL_STRING subject) ->
     out_chain (priv session')
     = out_chain (priv session)
       ++ [out_frame "m" (htonl_bytes 1 ++ cstr "Subject" ++ [NUL]
                          ++ subject ++ [NUL]);
           out_frame "a" []])
  /\ (ucl_object_lookup results "subject" = None ->
      out_chain (priv session') = out_chain (priv session) ++ [out_frame "a" []]).
Proof.
  intros Haction Hrw Hm Hd Hno session'. unfold session'.
  unfold rspamd_milter_send_task_results.
  rewrite Haction, Hrw, (plain_verdict _ _ _ _ Hm Hd), Hno.
  unfold send_action_results. split.
  - intros subject ->. unfold g_string_new.
    cbn [ucl_object_tostring from_option id].
    destruct (send_frame
                (send session RSPAMD_MILTER_CHGHEADER
                   (va_idx_name_value 1 (cstr "Subject") subject))
                RSPAMD_MILTER_ACCEPT va_none [] eq_refl) as [-> _].
    destruct (send_frame session RSPAMD_MILTER_CHGHEADER
                (va_idx_name_value 1 (cstr "Subject") subject) _ eq_refl)
      as [-> _].
    by rewrite <- !app_assoc.
  - intros ->.
    by destruct (send_frame session RSPAMD_MILTER_ACCEPT va_none [] eq_refl)
      as [-> _].
Qed.

(** X17.  With the [no_action] flag set once the verdict's milter block
    has been applied, and the action not taken over by the block, no
    action is carried out, a reject no more than another: the header
    [X-Spam-Action] with the action string of the verdict is added and
    the message is accepted. *)
Theorem no_action_flag_turns_every_action_into_accept
    (milter_ctx : rspamd_milter_context) (session : rspamd_milter_session)
    (results elt : ucl_object_t) (str_action : bytes) :
  ucl_object_lookup results "action" = Some elt ->
  ucl_object_tostring elt = Some str_action ->
  let r := apply_milter_and_dkim milter_ctx session results (results_action elt) in
  snd r = false ->
  no_action (priv (fst r)) = true ->
  out_chain (priv (rspamd_milter_send_task_results milter_ctx session
                     (Some results)))
  = out_chain (priv (fst r))
    ++ [out_frame "h" (RSPAMD_MILTER_ACTION_HEADER ++ [NUL] ++ str_action ++ [NUL]);
        out_frame "a" []].
Proof.
  intros Haction Hstr r Hsnd Hno.
  unfold rspamd_milter_send_task_results.
  rewrite Haction. fold r.
  destruct r as [s1 processed] eqn:Hr. cbn [fst snd] in *. subst processed.
  rewrite Hno, Hstr. unfold g_string_new. cbn [from_option id].
  destruct (send_frame
              (send s1 RSPAMD_MILTER_ADDHEADER
                 (va_name_value RSPAMD_MILTER_ACTION_HEADER str_action))
              RSPAMD_MILTER_ACCEPT va_none [] eq_refl) as [-> _].
  destruct (send_frame s1 RSPAMD_MILTER_ADDHEADER
              (va_name_value RSPAMD_MILTER_ACTION_HEADER str_action) _ eq_refl)
    as [-> _].
  by rewrite <- !app_assoc.
Qed.

(** *** One disposition for every verdict *)



















(** *** The flags a milter block sets *)

Lemma same_flags_trans (s s1 s2 : rspamd_milter_session) :
  same_flags s s1 -> same_flags s1 s2 -> same_flags s s2.
Proof. intros [Ha Hb] [Hc Hd]. split; congruence. Qed.

Lemma same_flags_send (session : rspamd_milter_session)
    (act : rspamd_milter_reply) (ap : va_list) :
  same_flags session (send session act ap).
Proof. by destruct (send_keeps session act ap) as (_ & ? & ? & _). Qed.

Lemma same_flags_foldl {A : Type}
    (f : rspamd_milter_session -> A -> rspamd_milter_session) (l : list A)
    (session : rspamd_milter_session) :
  (forall s x, same_flags s (f s x)) -> same_flags session (foldl f session l).
Proof.
  intros Hf. revert session. induction l as [|x l IH]; intros session; [done|].
  cbn [foldl]. exact (same_flags_trans _ _ _ (Hf session x) (IH _)).
Qed.

Lemma same_flags_remove_header (session : rspamd_milter_session) (key : bytes)
    (nhdr : Z) :
  same_flags session (rspamd_milter_remove_header_safe session key nhdr).
Proof.
  unfold rspamd_milter_remove_header_safe.
  repeat case_bool_decide; try done; try apply same_flags_send.
  apply same_flags_foldl. intros s x. apply same_flags_send.
Qed.

Lemma same_flags_add_headers (fields : list (bytes * ucl_object_t))
    (st : rspamd_milter_session * Z) :
  same_flags (fst st) (fst (foldl milter_block_add_header st fields)).
Proof.
  revert st. induction fields as [|kv fields IH]; intros st; [done|].
  cbn [foldl]. refine (same_flags_trans _ _ _ _ (IH _)).
  destruct st as [s idx], kv as [key cur]. unfold milter_block_add_header.
  repeat case_match; cbn [fst]; try done; apply same_flags_send.
Qed.

Lemma same_flags_action_results (milter_ctx : rspamd_milter_context)
    (session : rspamd_milter_session) (results : ucl_object_t)
    (action : rspamd_metric_action) (reply : option bytes) :
  same_flags session (send_action_results milter_ctx session results action reply).
Proof.
  unfold send_action_results, rspamd_milter_set_reply.
  destruct action; repeat case_match;
    repeat first [ apply same_flags_send
                 | apply same_flags_remove_header
                 | done
                 | refine (same_flags_trans _ _ _ _ (same_flags_send _ _ _)) ].
Qed.

Lemma same_flags_eq (s s' : rspamd_milter_session) :
  same_flags s s' -> session_flags s' = session_flags s.
Proof. intros [Ha Hb]. unfold session_flags. by rewrite Ha, Hb. Qed.

Lemma milter_block_object_flags (session : rspamd_milter_session)
    (obj : ucl_object_t) :
  session_flags (milter_block_object session obj)
  = block_flags obj (session_flags session).
Proof.
  unfold milter_block_object.
  set (s1 := match ucl_object_lookup obj "remove_headers" with
             | Some (UCL_OBJECT fields) => _
             | _ => session
             end).
  assert (H1 : same_flags session s1).
  { unfold s1. repeat case_match; try done.
    all: apply same_flags_foldl; intros s kv.
    all: destruct (snd kv); try done; apply same_flags_remove_header. }
  set (s2 := match ucl_object_lookup obj "add_headers" with
             | Some (UCL_OBJECT fields) => _
             | _ => s1
             end).
  assert (H2 : same_flags s1 s2).
  { unfold s2. repeat case_match; try done;
      apply (same_flags_add_headers _ (s1, -1)). }
  set (s3 := match ucl_object_lookup obj "change_from" with
             | Some (UCL_STRING v) => _
             | _ => s2
             end).
  assert (H3 : same_flags s2 s3).
  { unfold s3. repeat case_match; try done; apply same_flags_send. }
  pose proof (same_flags_eq _ _ (same_flags_trans _ _ _ H1
                                   (same_flags_trans _ _ _ H2 H3))) as Hs3.
  clearbody s3. clear s1 s2 H1 H2 H3.
  unfold block_flags, session_flags in *. injection Hs3 as Hd Hn.
  rewrite <- Hd, <- Hn.
  destruct (ucl_object_lookup obj "reject") as [[]|];
    destruct (ucl_object_lookup obj "no_action") as [[]|]; reflexivity.
Qed.

(** X19.  A verdict with an action and a milter block that is an
    object: the session is left with the flags the block asks for,
    [discard_on_reject] set by [reject: discard] and cleared by any
    other string, [no_action] set or cleared by a boolean [no_action],
    each kept as it was when its key is missing or of another type;
    and no reset clears them, so they are in force for the next
    message of the connection as well. *)
Theorem milter_block_flags_stay_with_the_session
    (milter_ctx : rspamd_milter_context) (session : rspamd_milter_session)
    (results elt : ucl_object_t) (fields : list (bytes * ucl_object_t)) :
  ucl_object_lookup results "action" = Some elt ->
  ucl_object_lookup results "milter" = Some (UCL_OBJECT fields) ->
  let session' :=
    rspamd_milter_send_task_results milter_ctx session (Some results) in
  session_flags session'
  = block_flags (UCL_OBJECT fields) (session_flags session)
  /\ forall how,
       session_flags (rspamd_milter_session_reset session' how)
       = session_flags session'.
Proof.
  intros Haction Hmilter session'. split.
  - unfold session', rspamd_milter_send_task_results.
    rewrite Haction. unfold apply_milter_and_dkim. rewrite Hmilter.
    unfold rspamd_milter_process_milter_block.
    rewrite <- (milter_block_object_flags session (UCL_OBJECT fields)).
    set (s1 := milter_block_object session (UCL_OBJECT fields)).
    set (block := match results_action elt with
                  | METRIC_ACTION_ADD_HEADER => _
                  | _ => (s1, false)
                  end).
    assert (Hblock : same_flags s1 (fst block)).
    { unfold block. destruct (results_action elt); try done.
      destruct (ucl_object_lookup (UCL_OBJECT fields) "spam_header") as [[]|];
        cbn [fst]; try done.
      - refine (same_flags_trans _ _ _ _ (same_flags_send _ _ _)).
        refine (same_flags_trans _ _ _ _ (same_flags_send _ _ _)).
        apply same_flags_remove_header.
      - refine (same_flags_trans _ _ _ _ (same_flags_send _ _ _)).
        apply same_flags_foldl. intros s kv.
        refine (same_flags_trans _ _ _ _ (same_flags_send _ _ _)).
        apply same_flags_remove_header. }
    destruct block as [s2 processed]. cbn [fst] in Hblock.
    apply same_flags_eq. refine (same_flags_trans _ _ _ Hblock _).
    set (s3 := match ucl_object_lookup results "dkim-signature" with
               | Some e => _
               | None => s2
               end).
    assert (H3 : same_flags s2 s3).
    { unfold s3. case_match; [apply same_flags_send|done]. }
    refine (same_flags_trans _ _ _ H3 _).
    destruct processed; [done|].
    destruct (no_action (priv s3)); [|apply same_flags_action_results].
    refine (same_flags_trans _ _ _ _ (same_flags_send _ _ _)).
    apply same_flags_send.
  - intros how. by rewrite session_reset_blocks.
Qed.

(** *** The order of an added header *)

(** X20.  The order a milter block gives for one added header is
    carried over to the headers behind it that give none: of two
    entries of [add_headers], the first with a value and the order [n],
    the second with a value only, both are inserted at position [n];
    with the entries the other way round the one without order is
    appended and the other inserted at [n]. *)
Theorem added_header_inherits_the_order_before_it
    (milter_ctx : rspamd_milter_context) (session : rspamd_milter_session)
    (obj e1 e2 : ucl_object_t) (k1 k2 v1 v2 : bytes) (n : Z)
    (action : rspamd_metric_action) :
  ucl_object_lookup obj "remove_headers" = None ->
  ucl_object_lookup obj "change_from" = None ->
  ucl_object_lookup obj "spam_header" = None ->
  ucl_object_lookup e1 "value" = Some (UCL_STRING v1) ->
  ucl_object_lookup_any e1 "order" "index" = Some (UCL_INT n) ->
  ucl_object_lookup e2 "value" = Some (UCL_STRING v2) ->
  ucl_object_lookup_any e2 "order" "index" = None ->
  0 <= n < 2 ^ 31 ->
  let inserted k v := out_frame "i" (htonl_bytes n ++ k ++ [NUL] ++ v ++ [NUL]) in
  let appended k v := out_frame "h" (k ++ [NUL] ++ v ++ [NUL]) in
  (ucl_object_lookup obj "add_headers" = Some (UCL_OBJECT [(k1, e1); (k2, e2)]) ->
   out_chain (priv (fst (rspamd_milter_process_milter_block milter_ctx session
                           obj action)))
   = out_chain (priv session) ++ [inserted k1 v1; inserted k2 v2])
  /\ (ucl_object_lookup obj "add_headers"
      = Some (UCL_OBJECT [(k2, e2); (k1, e1)]) ->
      out_chain (priv (fst (rspamd_milter_process_milter_block milter_ctx session
                              obj action)))
      = out_chain (priv session) ++ [appended k2 v2; inserted k1 v1]).
Proof.
  intros Hrm Hfrom Hspam Hv1 Ho1 Hv2 Ho2 Hn inserted appended.
  assert (He1 : exists f1, e1 = UCL_OBJECT f1).
  { destruct e1; try discriminate Hv1. by eexists. }
  assert (He2 : exists f2, e2 = UCL_OBJECT f2).
  { destruct e2; try discriminate Hv2. by eexists. }
  destruct He1 as [f1 ->], He2 as [f2 ->].
  assert (Hblock : forall entries,
    ucl_object_lookup obj "add_headers" = Some (UCL_OBJECT entries) ->
    out_chain (priv (fst (rspamd_milter_process_milter_block milter_ctx session
                            obj action)))
    = out_chain (priv (fst (foldl milter_block_add_header (session, -1) entries)))).
  { intros entries Hadd.
    destruct obj as [| | | |fields]; try discriminate Hadd.
    unfold rspamd_milter_process_milter_block, milter_block_object.
    rewrite Hrm, Hadd, Hfrom, Hspam.
    destruct action; cbn [fst];
      destruct (ucl_object_lookup (UCL_OBJECT fields) "reject") as [[]|];
      destruct (ucl_object_lookup (UCL_OBJECT fields) "no_action") as [[]|];
      reflexivity. }
  split; intros Hadd; rewrite (Hblock _ Hadd); cbn [foldl milter_block_add_header].
  - rewrite Hv1, Ho1. cbn [ucl_object_toint].
    rewrite wrap_gint_small by lia. rewrite bool_decide_true by lia.
    cbn [milter_block_add_header]. rewrite Hv2, Ho2.
    rewrite bool_decide_true by lia.
    cbn [fst]. unfold g_string_new. cbn [from_option id].
    destruct (send_frame
                (send session RSPAMD_MILTER_INSHEADER (va_idx_name_value n k1 v1))
                RSPAMD_MILTER_INSHEADER (va_idx_name_value n k2 v2) _ eq_refl)
      as [-> _].
    destruct (send_frame session RSPAMD_MILTER_INSHEADER
                (va_idx_name_value n k1 v1) _ eq_refl) as [-> _].
    by rewrite <- app_assoc.
  - rewrite Hv2, Ho2. rewrite bool_decide_false by lia.
    cbn [milter_block_add_header]. rewrite Hv1, Ho1. cbn [ucl_object_toint].
    rewrite wrap_gint_small by lia. rewrite bool_decide_true by lia.
    cbn [fst]. unfold g_string_new. cbn [from_option id].
    destruct (send_frame
                (send session RSPAMD_MILTER_ADDHEADER (va_name_value k2 v2))
                RSPAMD_MILTER_INSHEADER (va_idx_name_value n k1 v1) _ eq_refl)
      as [-> _].
    destruct (send_frame session RSPAMD_MILTER_ADDHEADER
                (va_name_value k2 v2) _ eq_refl) as [-> _].
    by rewrite <- app_assoc.
Qed.

(** ** Entry points of the host *)

(** X21.  A timeout reported to the I/O handler, in whatever state:
    the session goes to [WANNA_DIE] and the error callback is invoked
    once with a timeout error; the replies still in the queue are not
    written and nothing the session holds is cleared; from then on the
    handler neither reads nor writes for this session. *)
Theorem timeout_ends_the_session_without_draining
    (session : rspamd_milter_session) (io : io_result) :
  exists session',
    rspamd_milter_io_handler session io_timeout = Some session'
    /\ state (priv session') = RSPAMD_MILTER_WANNA_DIE
    /\ calls (priv session')
       = calls (priv session)
         ++ [err_cb (g_error_new ETIMEDOUT "connection timed out")]
    /\ out_chain (priv session') = out_chain (priv session)
    /\ parser (priv session') = parser (priv session)
    /\ (message session' = message session /\ from session' = from session
        /\ rcpts session' = rcpts session)
    /\ rspamd_milter_handle_session session' io = Some (session', true)
    /\ rspamd_milter_io_handler session' (io_ready io) = Some session'.
Proof.
  eexists. split; [reflexivity|].
  cbn. by destruct io.
Qed.

(** X22.  The library context decides what a verdict does to the
    sessions created from it.  On a new session, a reject verdict
    without milter block and DKIM signature gives the one frame DISCARD
    when the library was initialised with [discard_on_reject], and the
    REPLYCODE and REJECT frames otherwise; an add-header verdict sets
    the first header of the name given at initialisation, [X-Spam]
    when none was given, to [Yes] and accepts, with no header to empty
    first. *)
Theorem library_context_decides_reject_and_spam_header
    (spam_header_name : option bytes) (discard : bool)
    (results elt : ucl_object_t) :
  let milter_ctx := rspamd_milter_init_library spam_header_name discard in
  let session := rspamd_milter_session_new milter_ctx in
  let session' :=
    rspamd_milter_send_task_results milter_ctx session (Some results) in
  let text := default RSPAMD_MILTER_REJECT_MESSAGE (results_reply results) in
  ucl_object_lookup results "action" = Some elt ->
  ucl_object_lookup results "milter" = None ->
  ucl_object_lookup results "dkim-signature" = None ->
  (results_action elt = METRIC_ACTION_REJECT ->
   out_chain (priv session')
   = if discard then [out_frame "d" []]
     else [out_frame "y" (cstr "554 5.7.1 " ++ text ++ [NUL]); out_frame "r" []])
  /\ (results_action elt = METRIC_ACTION_ADD_HEADER ->
      out_chain (priv session')
      = [out_frame "m" (htonl_bytes 1 ++ default (cstr "X-Spam") spam_header_name
                        ++ [NUL] ++ cstr "Yes" ++ [NUL]);
         out_frame "a" []]).
Proof.
  intros milter_ctx session session' text Haction Hm Hd.
  unfold session', rspamd_milter_send_task_results.
  rewrite Haction, (plain_verdict _ _ _ _ Hm Hd).
  change (no_action (priv session)) with false. cbv iota.
  split; intros ->; unfold send_action_results.
  - change (discard_on_reject (priv session)) with discard. fold text.
    destruct discard.
    + by destruct (send_frame session RSPAMD_MILTER_DISCARD va_none [] eq_refl)
        as [-> _].
    + destruct (send_frame
                  (fst (rspamd_milter_set_reply session RSPAMD_MILTER_RCODE_REJECT
                          RSPAMD_MILTER_XCODE_REJECT text))
                  RSPAMD_MILTER_REJECT va_none [] eq_refl) as [-> _].
      by destruct (set_reply_frame session RSPAMD_MILTER_RCODE_REJECT
                     RSPAMD_MILTER_XCODE_REJECT text) as [-> _].
  - change (rspamd_milter_remove_header_safe session (spam_header milter_ctx) 0)
      with session.
    destruct (send_frame
                (send session RSPAMD_MILTER_CHGHEADER
                   (va_idx_name_value 1 (g_string_new (Some (spam_header milter_ctx)))
                      (g_string_new (Some (cstr "Yes")))))
                RSPAMD_MILTER_ACCEPT va_none [] eq_refl) as [-> _].
    by destruct (send_frame session RSPAMD_MILTER_CHGHEADER
                   (va_idx_name_value 1 (g_string_new (Some (spam_header milter_ctx)))
                      (g_string_new (Some (cstr "Yes")))) _ eq_refl) as [-> _].
Qed.

(** X23.  [rspamd_milter_add_header] always succeeds: it enqueues one
    ADDHEADER frame behind the queue, whose payload is the name, a NUL,
    the value and a NUL; the frame codec decodes the buffer to the
    letter [h] and that payload when the length word is below 2^31,
    where the codec's shifts are defined; and for a NUL-free name the
    first NUL of the payload is the one that ends the name. *)
Theorem add_header_enqueues_name_and_value
    (session : rspamd_milter_session) (name value : bytes) :
  blen name + blen value + 3 < 2 ^ 32 ->
  let payload := name ++ [NUL] ++ value ++ [NUL] in
  exists session',
    rspamd_milter_add_header session name value = (session', true)
    /\ out_chain (priv session')
       = out_chain (priv session) ++ [out_frame "h" payload]
    /\ state (priv session') = RSPAMD_MILTER_WRITE_REPLY
    /\ (blen payload + 1 < 2 ^ 31 ->
        decode_frame (wire_frame "h" payload) = Some ("h"%char, payload))
    /\ ((NUL ∉ name) ->
        memchr payload 0 (blen payload) = Some (Some (blen name))).
Proof.
  intros Hlen payload.
  destruct (send_action_spec session RSPAMD_MILTER_ADDHEADER
              (va_name_value name value) _
              (build_reply_layout RSPAMD_MILTER_ADDHEADER
                 (va_name_value name value) payload eq_refl))
    as (s' & Hs & Hout & Hst & _).
  exists s'. split; [exact Hs|]. split; [exact Hout|]. split; [exact Hst|].
  split.
  - apply decode_frame_encoded.
  - intros Hnul.
    rewrite (memchr_inside _ [] name (value ++ [NUL]) 0)
      by (done || unfold payload; blens; pose proof (blen_nonneg value); lia).
    by rewrite Z.add_0_l.
Qed.

(** ** The scan request *)

Lemma same_head_add (m1 m2 : rspamd_http_message) (n v : bytes) :
  same_head m1 m2 ->
  same_head (rspamd_http_message_add_header m1 n v)
            (rspamd_http_message_add_header m2 n v).
Proof. intros [Hu Hh]. split; cbn; [done|]. by rewrite Hh. Qed.

Lemma same_head_found (m1 m2 : rspamd_http_message) (n : bytes)
    (v : option bytes) :
  same_head m1 m2 -> same_head (header_if_found m1 n v) (header_if_found m2 n v).
Proof. destruct v; [apply same_head_add|done]. Qed.

Lemma same_head_set (m1 m2 : rspamd_http_message) (n : bytes)
    (v : option bytes) :
  same_head m1 m2 -> same_head (header_if_set m1 n v) (header_if_set m2 n v).
Proof.
  destruct v as [h|]; [|done]. cbn. case_bool_decide; [apply same_head_add|done].
Qed.

Lemma same_head_macro `{!RequestCollaborators} (session : rspamd_milter_session)
    (m1 m2 : rspamd_http_message) :
  same_head m1 m2 ->
  same_head (rspamd_milter_macro_http session m1)
            (rspamd_milter_macro_http session m2).
Proof.
  intros Hs. unfold rspamd_milter_macro_http.
  destruct (macros session); [|done]. by repeat apply same_head_found.
Qed.

Lemma same_head_rcpts (l : list bytes) (m1 m2 : rspamd_http_message) :
  same_head m1 m2 ->
  same_head
    (foldl (fun msg rcpt => rspamd_http_message_add_header msg RCPT_HEADER rcpt)
           m1 l)
    (foldl (fun msg rcpt => rspamd_http_message_add_header msg RCPT_HEADER rcpt)
           m2 l).
Proof.
  revert m1 m2. induction l as [|x l IH]; intros m1 m2 Hs; [done|].
  cbn [foldl]. apply IH. by apply same_head_add.
Qed.

(** The steps that build a request add headers and leave the body. *)
Lemma header_if_found_body (msg : rspamd_http_message) (n : bytes)
    (v : option bytes) :
  body (header_if_found msg n v) = body msg.
Proof. by destruct v. Qed.

Lemma header_if_found_url (msg : rspamd_http_message) (n : bytes)
    (v : option bytes) :
  url (header_if_found msg n v) = url msg.
Proof. by destruct v. Qed.

Lemma header_if_set_body (msg : rspamd_http_message) (n : bytes)
    (v : option bytes) :
  body (header_if_set msg n v) = body msg.
Proof. destruct v as [h|]; [|done]. cbn. by case_bool_decide. Qed.

Lemma header_if_set_url (msg : rspamd_http_message) (n : bytes)
    (v : option bytes) :
  url (header_if_set msg n v) = url msg.
Proof. destruct v as [h|]; [|done]. cbn. by case_bool_decide. Qed.

Lemma macro_http_body `{!RequestCollaborators} (session : rspamd_milter_session)
    (msg : rspamd_http_message) :
  body (rspamd_milter_macro_http session msg) = body msg.
Proof.
  unfold rspamd_milter_macro_http. destruct (macros session); [|done].
  by rewrite !header_if_found_body.
Qed.

Lemma macro_http_url `{!RequestCollaborators} (session : rspamd_milter_session)
    (msg : rspamd_http_message) :
  url (rspamd_milter_macro_http session msg) = url msg.
Proof.
  unfold rspamd_milter_macro_http. destruct (macros session); [|done].
  by rewrite !header_if_found_url.
Qed.

Lemma rcpt_headers_body (l : list bytes) (msg : rspamd_http_message) :
  body (foldl (fun msg rcpt => rspamd_http_message_add_header msg RCPT_HEADER rcpt)
              msg l) = body msg.
Proof.
  revert msg. induction l as [|x l IH]; intros msg; [done|]. cbn [foldl].
  by rewrite IH.
Qed.

Lemma rcpt_headers_url (l : list bytes) (msg : rspamd_http_message) :
  url (foldl (fun msg rcpt => rspamd_http_message_add_header msg RCPT_HEADER rcpt)
             msg l) = url msg.
Proof.
  revert msg. induction l as [|x l IH]; intros msg; [done|]. cbn [foldl].
  by rewrite IH.
Qed.

(** X24.  Building the request hands the message over: the body of the
    request is the message of the session, the session is left without
    message and otherwise as it was; a request built again from that
    session has no body and the same URL and headers.  The URL is the
    check command, and the last header is [Milter: Yes]. *)
Theorem request_takes_the_message_from_the_session
    `{!RequestCollaborators} (session : rspamd_milter_session) :
  let r := rspamd_milter_to_http session in
  let r2 := rspamd_milter_to_http (snd r) in
  body (fst r) = message session
  /\ message (snd r) = None
  /\ (addr (snd r) = addr session /\ hostname (snd r) = hostname session
      /\ helo (snd r) = helo session /\ from (snd r) = from session
      /\ rcpts (snd r) = rcpts session /\ macros (snd r) = macros session
      /\ priv (snd r) = priv session)
  /\ url (fst r) = cstr "/" ++ MSG_CMD_CHECK_V2
  /\ last (http_headers (fst r)) = Some (MILTER_HEADER, cstr "Yes")
  /\ body (fst r2) = None
  /\ url (fst r2) = url (fst r)
  /\ http_headers (fst r2) = http_headers (fst r)
  /\ snd r2 = snd r.
Proof.
  intros r r2.
  assert (Hbody : forall s, body (fst (rspamd_milter_to_http s)) = message s).
  { intros s. unfold rspamd_milter_to_http. cbn [fst body rspamd_http_message_add_header].
    by rewrite macro_http_body, header_if_found_body, rcpt_headers_body,
      header_if_found_body, !header_if_set_body. }
  assert (Hsnd : snd r = match message session with
                         | Some _ => set_message None session
                         | None => session
                         end) by reflexivity.
  assert (Hmsg : message (snd r) = None).
  { rewrite Hsnd. by destruct (message session) eqn:E. }
  assert (Hhead : same_head (fst r2) (fst r)).
  { unfold r2. rewrite Hsnd. unfold r, rspamd_milter_to_http.
    destruct (message session) eqn:E; cbn [fst snd message set_message];
      rewrite ?E; [|done].
    apply same_head_add, same_head_macro, same_head_found, same_head_rcpts,
      same_head_found, same_head_set, same_head_set. done. }
  destruct Hhead as [Hu Hh].
  split; [apply Hbody|]. split; [done|]. split.
  { rewrite Hsnd. by destruct (message session). }
  split.
  { unfold r, rspamd_milter_to_http.
    cbn [fst url rspamd_http_message_add_header].
    by rewrite macro_http_url, header_if_found_url, rcpt_headers_url,
      header_if_found_url, !header_if_set_url. }
  split.
  { unfold r, rspamd_milter_to_http. cbn [fst http_headers rspamd_http_message_add_header].
    by rewrite last_snoc. }
  split.
  { unfold r2. by rewrite Hbody. }
  split; [done|]. split; [done|].
  unfold r2, rspamd_milter_to_http. cbn [snd]. by rewrite Hmsg.
Qed.

(** *** The headers of the request, by name *)

Lemma names_added_refl (msg : rspamd_http_message) :
  header_names_added msg msg [].
Proof. unfold header_names_added. by rewrite app_nil_r. Qed.

Lemma names_added_trans (m m1 m2 : rspamd_http_message) (a b : list bytes) :
  header_names_added m m1 a -> header_names_added m1 m2 b ->
  header_names_added m m2 (a ++ b).
Proof.
  unfold header_names_added. intros Ha Hb. by rewrite Hb, Ha, app_assoc.
Qed.

Lemma names_added_header (msg : rspamd_http_message) (n v : bytes) :
  header_names_added msg (rspamd_http_message_add_header msg n v) [n].
Proof. unfold header_names_added. cbn. by rewrite fmap_app. Qed.

Lemma names_added_found (msg : rspamd_http_message) (n : bytes)
    (v : option bytes) :
  header_names_added msg (header_if_found msg n v)
                     (name_if (bool_decide (is_Some v)) n).
Proof.
  destruct v.
  - rewrite bool_decide_true by done. apply names_added_header.
  - rewrite bool_decide_false by (by intros [? ?]). apply names_added_refl.
Qed.

Lemma names_added_set (msg : rspamd_http_message) (n : bytes)
    (f : option bytes) :
  header_names_added msg (header_if_set msg n f)
                     (name_if (bool_decide (blen (default [] f) > 0)) n).
Proof.
  destruct f as [h|]; cbn [header_if_set]; [|apply names_added_refl].
  change (default [] (Some h)) with h.
  destruct (bool_decide (blen h > 0));
    [apply names_added_header|apply names_added_refl].
Qed.

Lemma names_added_rcpts (l : list bytes) (msg : rspamd_http_message) :
  header_names_added msg
    (foldl (fun msg rcpt => rspamd_http_message_add_header msg RCPT_HEADER rcpt)
           msg l)
    (replicate (length l) RCPT_HEADER).
Proof.
  revert msg. induction l as [|x l IH]; intros msg; [apply names_added_refl|].
  cbn [foldl length replicate].
  exact (names_added_trans _ _ _ [_] _ (names_added_header msg RCPT_HEADER x)
           (IH _)).
Qed.

Lemma first_macro_one (macros : gmap bytes bytes) (lit : string) :
  first_macro macros [lit] = IF_MACRO macros lit.
Proof. cbn. by destruct (IF_MACRO macros lit). Qed.

Lemma first_macro_empty (lits : list string) : first_macro ∅ lits = None.
Proof. induction lits as [|lit lits IH]; [done|]. cbn. by rewrite IH. Qed.

Lemma request_names `{!RequestCollaborators} (session : rspamd_milter_session) :
  fst <$> http_headers (fst (rspamd_milter_to_http session))
  = request_header_names session.
Proof.
  set (msg0 := {| url := cstr "/" ++ MSG_CMD_CHECK_V2; body := message session;
                  http_headers := [] |}).
  assert (Hchain : header_names_added msg0 (fst (rspamd_milter_to_http session))
                     (request_header_names session)).
  { unfold rspamd_milter_to_http, request_header_names. cbv zeta. cbn [fst].
    fold msg0.
    replace (hostname (match message session with
                       | Some _ => set_message None session
                       | None => session
                       end)) with (hostname session)
      by (by destruct (message session)).
    replace (helo (match message session with
                   | Some _ => set_message None session
                   | None => session
                   end)) with (helo session) by (by destruct (message session)).
    replace (from (match message session with
                   | Some _ => set_message None session
                   | None => session
                   end)) with (from session) by (by destruct (message session)).
    replace (rcpts (match message session with
                    | Some _ => set_message None session
                    | None => session
                    end)) with (rcpts session) by (by destruct (message session)).
    replace (addr (match message session with
                   | Some _ => set_message None session
                   | None => session
                   end)) with (addr session) by (by destruct (message session)).
    eapply names_added_trans; [apply names_added_set|].
    eapply names_added_trans; [apply names_added_set|].
    eapply names_added_trans; [apply names_added_found|].
    eapply names_added_trans; [apply names_added_rcpts|].
    eapply names_added_trans.
    { replace (bool_decide (is_Some (addr session)))
        with (bool_decide (is_Some (request_ip <$> addr session)))
        by (by destruct (addr session)).
      apply names_added_found. }
    unfold rspamd_milter_macro_http.
    replace (macros (match message session with
                     | Some _ => set_message None session
                     | None => session
                     end)) with (macros session) by (by destruct (message session)).
    replace (hostname (match message session with
                       | Some _ => set_message None session
                       | None => session
                       end)) with (hostname session)
      by (by destruct (message session)).
    destruct (macros session) as [m|]; cbn [default from_option id].
    - rewrite !first_macro_one.
      eapply names_added_trans; [apply names_added_found|].
      eapply names_added_trans; [apply names_added_found|].
      eapply names_added_trans; [apply names_added_found|].
      eapply names_added_trans; [apply names_added_found|].
      eapply names_added_trans; [apply names_added_found|].
      eapply names_added_trans; [apply names_added_found|].
      eapply names_added_trans.
      { replace (bool_decide (default [] (hostname session) = [])
                 && bool_decide (is_Some (IF_MACRO m "{client_name}")))
          with (bool_decide (is_Some
                  (if bool_decide (default [] (hostname session) = [])
                   then IF_MACRO m "{client_name}" else None))).
        - apply names_added_found.
        - destruct (bool_decide (default [] (hostname session) = []));
            [done|]. by rewrite bool_decide_false by (by intros [? ?]). }
      eapply names_added_trans; [apply names_added_found|].
      apply names_added_header.
    - rewrite !first_macro_empty, andb_false_r.
      rewrite (bool_decide_false (is_Some None)) by (by intros [? ?]).
      apply names_added_header. }
  unfold header_names_added in Hchain. by rewrite Hchain.
Qed.

Lemma count_app (name : bytes) (a b : list bytes) :
  length (filter (fun n => n = name) (a ++ b))
  = (length (filter (fun n => n = name) a)
     + length (filter (fun n => n = name) b))%nat.
Proof. by rewrite filter_app, length_app. Qed.

Lemma count_name_if (name : bytes) (b : bool) (n : bytes) :
  length (filter (fun n => n = name) (name_if b n))
  = if b && bool_decide (n = name) then 1%nat else 0%nat.
Proof.
  destruct b; [|done]. cbn [name_if andb]. rewrite filter_cons.
  case_decide; [by rewrite bool_decide_true|by rewrite bool_decide_false].
Qed.

Lemma count_replicate (name n : bytes) (k : nat) :
  length (filter (fun n => n = name) (replicate k n))
  = if bool_decide (n = name) then k else 0%nat.
Proof.
  destruct (decide (n = name)) as [He|He].
  - rewrite bool_decide_true by done.
    induction k as [|k IH]; [done|]. cbn [replicate].
    rewrite filter_cons_True by done. cbn [length]. by rewrite IH.
  - rewrite bool_decide_false by done.
    induction k as [|k IH]; [done|]. cbn [replicate].
    by rewrite filter_cons_False by done.
Qed.

Lemma hostname_once (h : option bytes) :
  bool_decide (blen (default [] h) > 0) && bool_decide (default [] h = [])
  = false.
Proof.
  destruct h as [[|c l]|]; reflexivity.
Qed.

(** X25.  The request names every header once at most, the recipient
    header apart: it carries one [Rcpt] header for every recipient of
    the session and one [Milter] header, and never two headers of the
    name [Hostname], [Helo], [From], [IP], [Queue-Id], [MTA-Tag],
    [MTA-Name], [User-Agent], [TLS-Cipher], [TLS-Version] or [User],
    whatever macros the MTA has sent. *)
Theorem request_names_each_header_once
    `{!RequestCollaborators} (session : rspamd_milter_session) :
  let msg := fst (rspamd_milter_to_http session) in
  header_count MILTER_HEADER msg = 1%nat
  /\ header_count RCPT_HEADER msg = length (default [] (rcpts session))
  /\ Forall (fun name => (header_count name msg <= 1)%nat)
            [HOSTNAME_HEADER; HELO_HEADER; FROM_HEADER; IP_ADDR_HEADER;
             QUEUE_ID_HEADER; MTA_TAG_HEADER; MTA_NAME_HEADER; USER_AGENT_HEADER;
             TLS_CIPHER_HEADER; TLS_VERSION_HEADER; USER_HEADER].
Proof.
  intros msg. unfold header_count, msg. rewrite request_names.
  unfold request_header_names. cbv zeta.
  change [MILTER_HEADER] with (name_if true MILTER_HEADER).
  pose proof (hostname_once (hostname session)) as Hhost.
  split; [|split]; [| |repeat apply List.Forall_cons; try apply List.Forall_nil].
  all: rewrite !count_app, !count_name_if, count_replicate.
  all: repeat match goal with
              | |- context [bool_decide (?a = ?b)] =>
                  let v := eval vm_compute in (bool_decide (a = b)) in
                  lazymatch v with
                  | true => change (bool_decide (a = b)) with true
                  | false => change (bool_decide (a = b)) with false
                  end
              end.
  all: rewrite ?andb_false_r, ?andb_true_r.
  all: try (destruct (bool_decide (blen (default [] (hostname session)) > 0)),
              (bool_decide (default [] (hostname session) = []));
            try discriminate Hhost; cbn [andb]).
  all: repeat match goal with
              | |- context [if ?b then _ else _] => destruct b
              end; lia.
Qed.

End Properties.

(** * The code on explicit bytes

    From here on the collaborators are [milter_defaults]. *)

Section OnBytes.

#[local] Existing Instance milter_defaults.

(** ** C1: a command before OPTNEG *)

(** C1, counterexample.  A DATA command is the first frame of a
    connection: it is accepted, the session stays in [READ_MORE] and no
    callback is invoked; so it is no fatal protocol error, and OPTNEG
    and MACRO are not the only commands accepted before OPTNEG. *)
Lemma data_before_optneg_is_accepted :
  (exists s,
     feed fresh_session [wire_frame "T" []] = Some (s, true)
     /\ state (priv s) = RSPAMD_MILTER_READ_MORE
     /\ calls (priv s) = []
     /\ message s = Some [])
  /\ ~ fatal_protocol_error fresh_session
         (feed fresh_session [wire_frame "T" []]).
Proof.
  split.
  - eexists. split; [vm_compute; reflexivity|]. by vm_compute.
  - intros (s & err & Hfeed & _). vm_compute in Hfeed. discriminate.
Qed.

Lemma envelope_commands_accepted_witness :
  cur_cmd (parser (priv (at_command fresh_session "T" [])))
  = cmd_letter RSPAMD_MILTER_CMD_DATA
  /\ accepted (at_command fresh_session "T" []) []
       (rspamd_milter_process_command (at_command fresh_session "T" [])).
Proof.
  split; [reflexivity|].
  apply (envelope_commands_accepted_in_any_state
           (at_command fresh_session "T" []) RSPAMD_MILTER_CMD_DATA [] [] []);
    reflexivity.
Defined.

(** ** C2: reads past the frame *)

(** C2, at the failing input.  The CONNECT payload [h NUL] ends with
    the NUL of the host name.  With nothing stored behind the frame the
    handler reads a byte that was never received; with the three bytes
    [U 0 0] or [4 0 25] behind the frame it takes them for the family
    and the port and accepts the command, where the frame itself holds
    neither.  The MACRO payload [C a] holds no NUL: the error it raises
    depends on the byte behind the frame.  On the wire: a DATA frame
    behind the CONNECT frame in the same read lends its length word as
    family and port, and the CONNECT is accepted; a MACRO frame is
    refused for a bad value when a DATA frame follows, and for a
    missing name when a stale [x] of an earlier read follows. *)
Lemma connect_and_macro_read_past_frame :
  rspamd_milter_process_command
    (at_command_before "C" (cstr "h" ++ [NUL]) []) = None
  /\ (forall behind,
        behind = cstr "U" ++ [NUL; NUL] \/ behind = cstr "4" ++ [NUL; "025"%char] ->
        exists s,
          rspamd_milter_process_command
            (at_command_before "C" (cstr "h" ++ [NUL]) behind) = Some (s, true)
          /\ hostname s = Some (cstr "h")
          /\ addr s = None
          /\ calls (priv s) = [])
  /\ (exists s,
        rspamd_milter_process_command (at_command_before "D" (cstr "Ca") (cstr "x"))
        = Some (s, false)
        /\ calls (priv s)
           = [err_cb (g_error_new EINVAL "invalid macro command (no name)")])
  /\ (exists s,
        rspamd_milter_process_command
          (at_command_before "D" (cstr "Ca") [NUL; NUL])
        = Some (s, false)
        /\ calls (priv s)
           = [err_cb (g_error_new EINVAL "invalid macro command (bad value)")])
  /\ (exists s,
        feed fresh_session
             [wire_frame "C" (cstr "h" ++ [NUL]) ++ wire_frame "T" []]
        = Some (s, true)
        /\ hostname s = Some (cstr "h")
        /\ addr s = None
        /\ calls (priv s) = []
        /\ state (priv s) = RSPAMD_MILTER_READ_MORE)
  /\ feed fresh_session [wire_frame "C" (cstr "h" ++ [NUL])] = None
  /\ (exists s,
        feed fresh_session [wire_frame "D" (cstr "Ca") ++ wire_frame "T" []]
        = Some (s, false)
        /\ calls (priv s)
           = [err_cb (g_error_new EINVAL "invalid macro command (bad value)")])
  /\ (exists s,
        feed fresh_session
             [wire_frame "B" (cstr "xxxxxxxx"); wire_frame "D" (cstr "Ca")]
        = Some (s, false)
        /\ calls (priv s)
           = [err_cb (g_error_new EINVAL "invalid macro command (no name)")]).
Proof.
  split; [by vm_compute|].
  split.
  { intros behind [->| ->];
      (eexists; split; [vm_compute; reflexivity|]; by vm_compute). }
  split; [eexists; split; [vm_compute; reflexivity|]; by vm_compute|].
  split; [eexists; split; [vm_compute; reflexivity|]; by vm_compute|].
  split; [eexists; split; [vm_compute; reflexivity|]; by vm_compute|].
  split; [by vm_compute|].
  split; eexists; (split; [vm_compute; reflexivity|]); by vm_compute.
Qed.

(** ** C3: a read that ends behind the command byte *)

(** C3, at the failing input.  Two BODY frames, with the payloads
    [ABCDEFGHIJ] and [xyz].  Read at once, they give the message
    [ABCDEFGHIJxyz].  When the second frame arrives in two reads, its
    length word and command byte first and its payload next, the
    parser hands over the stale bytes [ABC] that the first frame left
    at the offset saved in [cmd_start]. *)
Lemma split_after_command_byte_changes_payload :
  let f1 := wire_frame "B" (cstr "ABCDEFGHIJ") in
  let f2 := wire_frame "B" (cstr "xyz") in
  (exists s,
     feed fresh_session [f1 ++ f2] = Some (s, true)
     /\ message s = Some (cstr "ABCDEFGHIJxyz"))
  /\ (exists s,
        feed fresh_session [f1; take 5 f2; drop 5 f2] = Some (s, true)
        /\ message s = Some (cstr "ABCDEFGHIJABC")
        /\ calls (priv s) = [])
  /\ f1 ++ f2 = f1 ++ take 5 f2 ++ drop 5 f2.
Proof.
  split; [|split].
  - eexists. split; [vm_compute; reflexivity|]. by vm_compute.
  - eexists. split; [vm_compute; reflexivity|]. by vm_compute.
  - reflexivity.
Qed.

(** ** C8: framing errors *)

(** C8, at the failing input.  The frame [00 00 00 01 5A] carries the
    command byte [Z], which is no command of section 6.1, and no
    payload.  When it ends a read it is handed to the dispatcher and
    accepted: no error callback, no [WANNA_DIE], and the parser waits
    for the next frame.  With one payload byte the same command byte is
    refused, and so are a length field of zero (at the byte behind it)
    and a BODY frame that announces 131073 payload bytes. *)
Lemma unknown_command_without_payload_is_accepted :
  rspamd_milter_is_valid_cmd "Z" = false
  /\ wire_frame "Z" [] = [NUL; NUL; NUL; "001"; "Z"]%char
  /\ (exists s,
        feed fresh_session [wire_frame "Z" []] = Some (s, true)
        /\ state (priv s) = RSPAMD_MILTER_READ_MORE
        /\ calls (priv s) = []
        /\ pstate (parser (priv s)) = st_len_1)
  /\ fatal_protocol_error fresh_session
       (feed fresh_session [wire_frame "Z" (cstr "a")])
  /\ fatal_protocol_error fresh_session
       (feed fresh_session [[NUL; NUL; NUL; NUL; "B"]%char])
  /\ fatal_protocol_error fresh_session
       (feed fresh_session [htonl_bytes 131074 ++ cstr "Ba"]).
Proof.
  split; [reflexivity|]. split; [reflexivity|]. split.
  - eexists. split; [vm_compute; reflexivity|]. by vm_compute.
  - split; [|split];
      (eexists _, _; split; [vm_compute; reflexivity|]; by vm_compute).
Qed.

(** ** The claims on the scenarios of the design *)

Lemma abort_witness :
  cur_cmd (parser (priv session_at_abort)) = cmd_letter RSPAMD_MILTER_CMD_ABORT
  /\ exists session',
       rspamd_milter_process_command session_at_abort = Some (session', true)
       /\ from session' = None
       /\ rcpts session' = None
       /\ field_bytes (helo session') = []
       /\ field_bytes (hostname session') = []
       /\ field_bytes (message session') = []
       /\ headers (priv session') = ∅
       /\ addr session' = addr session_at_abort
       /\ macros session' = macros session_at_abort.
Proof.
  split; [reflexivity|].
  apply (abort_clears_envelope_keeps_addr_and_macros session_at_abort).
  reflexivity.
Defined.

Lemma remove_header_without_entry_witness :
  headers (priv fresh_session) !! rspamd_strcase_key (cstr "X-Spam") = None
  /\ rspamd_milter_remove_header_safe fresh_session (cstr "X-Spam") 1
     = fresh_session
  /\ out_chain (priv (rspamd_milter_remove_header_safe fresh_session
                        (cstr "X-Spam") 1))
     = out_chain (priv fresh_session).
Proof.
  split; [reflexivity|].
  apply (remove_header_without_entry_is_noop fresh_session (cstr "X-Spam") 1).
  reflexivity.
Defined.

Lemma two_headers_run :
  command_run fresh_session [cstr "Subject"; cstr "subject"] after_second_header.
Proof.
  apply (run_header fresh_session [cstr "Subject"] after_first_header
           (at_command after_first_header "L"
              (cstr "subject" ++ [NUL] ++ cstr "again" ++ [NUL]))
           (cstr "subject") (cstr "again")).
  - apply (run_header fresh_session [] fresh_session
             (at_command fresh_session "L"
                (cstr "Subject" ++ [NUL] ++ cstr "Hi" ++ [NUL]))
             (cstr "Subject") (cstr "Hi")).
    + apply run_start.
    + reflexivity.
    + split; [reflexivity|]. split; [|reflexivity].
      apply (bool_decide_unpack _). by vm_compute.
    + by vm_compute.
  - reflexivity.
  - split; [reflexivity|]. split; [|reflexivity].
    apply (bool_decide_unpack _). by vm_compute.
  - by vm_compute.
Qed.

Lemma header_count_witness :
  headers (priv fresh_session) = ∅
  /\ command_run fresh_session [cstr "Subject"; cstr "subject"]
       after_second_header
  /\ count_name (cstr "Subject") [cstr "Subject"; cstr "subject"] = 2
  /\ headers (priv after_second_header) !! rspamd_strcase_key (cstr "Subject")
     = Some 2
  /\ out_chain (priv (rspamd_milter_remove_header_safe after_second_header
                        (cstr "Subject") 0))
     = out_chain (priv after_second_header)
       ++ [chgheader_frame 1 (cstr "Subject"); chgheader_frame 2 (cstr "Subject")].
Proof.
  pose proof (header_count_drives_removal fresh_session after_second_header
                [cstr "Subject"; cstr "subject"] (cstr "Subject") 2 0
                eq_refl two_headers_run eq_refl ltac:(lia)) as (Hcount & _ & Hzero & _).
  split; [reflexivity|]. split; [exact two_headers_run|].
  split; [reflexivity|]. split; [exact Hcount|].
  destruct (Hzero eq_refl) as [Hout _]. exact Hout.
Defined.

(** C4, counterexample.  Two messages arrive on a fresh connection
    with no ABORT between them; the request is built and a verdict
    without action delivered after the first, as the host does.  After
    the second message, whose text holds one Subject header, the
    header-count map holds 2 for Subject and a removal at position 0
    enqueues two CHGHEADER frames: the count is not that of the current
    message. *)
Lemma second_message_inherits_header_counts :
  feed fresh_session first_message = Some (after_first_message, true)
  /\ feed between_messages second_message = Some (after_second_message, true)
  /\ message after_second_message
     = Some (cstr "Subject: again" ++ ["013"; "010"; "013"; "010"]%char
             ++ cstr "y")
  /\ count_name (cstr "Subject") [cstr "Subject"] = 1
  /\ headers (priv after_second_message) !! rspamd_strcase_key (cstr "Subject")
     = Some 2
  /\ headers (priv after_second_message) !! rspamd_strcase_key (cstr "Subject")
     ≠ Some 1
  /\ out_chain (priv (rspamd_milter_remove_header_safe after_second_message
                        (cstr "Subject") 0))
     = out_chain (priv after_second_message)
       ++ [chgheader_frame 1 (cstr "Subject"); chgheader_frame 2 (cstr "Subject")].
Proof.
  split; [by vm_compute|]. split; [by vm_compute|]. split; [by vm_compute|].
  split; [by vm_compute|]. split; [by vm_compute|].
  split; [by vm_compute|]. by vm_compute.
Qed.

Lemma optneg_witness :
  cur_cmd (parser (priv session_at_optneg))
  = cmd_letter RSPAMD_MILTER_CMD_OPTNEG
  /\ exists session',
       rspamd_milter_process_command session_at_optneg = Some (session', true)
       /\ out_chain (priv session')
          = out_chain (priv session_at_optneg) ++ [optneg_reply 0]
       /\ state (priv session') = RSPAMD_MILTER_WRITE_REPLY
       /\ calls (priv session') = calls (priv session_at_optneg).
Proof.
  split; [reflexivity|].
  destruct (optneg_negotiates_or_fails session_at_optneg 2 0 0 eq_refl)
    as [_ Hreply].
  destruct (Hreply eq_refl ltac:(lia) ltac:(lia) ltac:(lia) eq_refl)
    as [_ Hok].
  apply Hok. vm_compute. discriminate.
Defined.

Lemma reject_verdict_witness :
  ucl_object_lookup reject_verdict "action" = Some (UCL_STRING (cstr "reject"))
  /\ results_action (UCL_STRING (cstr "reject")) = METRIC_ACTION_REJECT
  /\ out_chain (priv (rspamd_milter_send_task_results milter_ctx_defaults
                        fresh_session (Some reject_verdict)))
     = [out_frame "y" (cstr "554 5.7.1 no" ++ [NUL]); out_frame "r" []].
Proof.
  split; [reflexivity|]. split; [reflexivity|].
  destruct (reject_verdict_discards_or_rejects milter_ctx_defaults fresh_session
              reject_verdict (UCL_STRING (cstr "reject"))
              ltac:(reflexivity) ltac:(reflexivity))
    as (_ & Hframes & _).
  exact (Hframes ltac:(reflexivity)).
Defined.

(** C6, counterexample.  A session whose [discard_on_reject] flag is
    set and whose [no_action] flag is clear gets a reject verdict whose
    milter block says [reject: bounce]: the block clears the flag
    before the action is carried out, and the reply is REPLYCODE and
    REJECT, not DISCARD.  A session with both flags clear gets a reject
    verdict whose block says [no_action: true]: the message is
    accepted.  The flags of the session delivered to do not decide. *)
Lemma milter_block_overrides_session_flags :
  (no_action (priv discard_session) = false
   /\ discard_on_reject (priv discard_session) = true
   /\ snd (apply_milter_and_dkim milter_ctx_defaults discard_session
             bounce_verdict METRIC_ACTION_REJECT) = false
   /\ out_chain (priv (rspamd_milter_send_task_results milter_ctx_defaults
                         discard_session (Some bounce_verdict)))
      = [out_frame "y" (cstr "554 5.7.1 Spam message rejected" ++ [NUL]);
         out_frame "r" []]
   /\ out_chain (priv (rspamd_milter_send_task_results milter_ctx_defaults
                         discard_session (Some bounce_verdict)))
      ≠ [out_frame "d" []])
  /\ (no_action (priv fresh_session) = false
      /\ discard_on_reject (priv fresh_session) = false
      /\ snd (apply_milter_and_dkim milter_ctx_defaults fresh_session
                no_action_verdict METRIC_ACTION_REJECT) = false
      /\ out_chain (priv (rspamd_milter_send_task_results milter_ctx_defaults
                            fresh_session (Some no_action_verdict)))
         = [out_frame "h" (cstr "X-Spam-Action" ++ [NUL] ++ cstr "reject"
                           ++ [NUL]);
            out_frame "a" []]).
Proof.
  split.
  - split; [reflexivity|]. split; [reflexivity|]. split; [reflexivity|].
    split; [by vm_compute|]. by vm_compute.
  - split; [reflexivity|]. split; [reflexivity|]. split; [reflexivity|].
    by vm_compute.
Qed.

Lemma reply_frame_witness :
  payload_layout RSPAMD_MILTER_CHGHEADER
    (va_idx_name_value 1 (cstr "Subject") (cstr "*** SPAM *** Hi"))
  = Some (htonl_bytes 1 ++ cstr "Subject" ++ [NUL]
          ++ cstr "*** SPAM *** Hi" ++ [NUL])
  /\ exists session' frame,
       rspamd_milter_send_action fresh_session RSPAMD_MILTER_CHGHEADER
         (va_idx_name_value 1 (cstr "Subject") (cstr "*** SPAM *** Hi"))
       = (session', true)
       /\ out_chain (priv session')
          = out_chain (priv fresh_session)
            ++ [{| obuf_buf := frame; obuf_pos := 0 |}]
       /\ take 4 frame = htonl_bytes 29
       /\ frame !! 4%nat = Some "m"%char
       /\ drop 5 frame
          = htonl_bytes 1 ++ cstr "Subject" ++ [NUL]
            ++ cstr "*** SPAM *** Hi" ++ [NUL]
       /\ decode_frame frame
          = Some ("m"%char,
                  htonl_bytes 1 ++ cstr "Subject" ++ [NUL]
                  ++ cstr "*** SPAM *** Hi" ++ [NUL]).
Proof.
  split; [reflexivity|].
  destruct (reply_is_one_frame_and_decodes fresh_session RSPAMD_MILTER_CHGHEADER
              (va_idx_name_value 1 (cstr "Subject") (cstr "*** SPAM *** Hi"))
              (htonl_bytes 1 ++ cstr "Subject" ++ [NUL]
               ++ cstr "*** SPAM *** Hi" ++ [NUL])
              eq_refl eq_refl)
    as (session' & frame & Hsend & Hout & Hword & Hletter & Hpayload & Hdecode).
  exists session', frame.
  split; [exact Hsend|]. split; [exact Hout|]. split; [exact Hword|].
  split; [exact Hletter|]. split; [exact Hpayload|].
  exact (Hdecode eq_refl).
Defined.

(** ** The further properties on the scenarios *)

Ltac decided := apply (bool_decide_unpack _); vm_compute; exact I.

Lemma quit_nc_witness :
  cur_cmd (parser (priv session_at_quit_nc)) = cmd_letter RSPAMD_MILTER_CMD_QUIT_NC
  /\ exists session',
       rspamd_milter_process_command session_at_quit_nc = Some (session', true)
       /\ (addr session' = None /\ macros session' = None
           /\ from session' = None /\ rcpts session' = None)
       /\ (field_bytes (helo session') = [] /\ field_bytes (hostname session') = []
           /\ field_bytes (message session') = [])
       /\ headers (priv session') = ∅
       /\ parser (priv session') = parser (priv session_at_quit_nc)
       /\ out_chain (priv session') = out_chain (priv session_at_quit_nc)
       /\ state (priv session') = state (priv session_at_quit_nc)
       /\ calls (priv session') = calls (priv session_at_quit_nc)
       /\ discard_on_reject (priv session')
          = discard_on_reject (priv session_at_quit_nc)
       /\ no_action (priv session') = no_action (priv session_at_quit_nc).
Proof.
  split; [reflexivity|].
  apply (quit_nc_clears_connection_data_keeps_io_and_flags session_at_quit_nc).
  reflexivity.
Defined.

Lemma helo_witness :
  cur_cmd (parser (priv session_at_helo)) = cmd_letter RSPAMD_MILTER_CMD_HELO
  /\ rspamd_milter_process_command session_at_helo
     = Some (set_helo (Some (cstr "mx.example")) session_at_helo, true).
Proof.
  split; [reflexivity|].
  destruct (helo_drops_one_trailing_nul session_at_helo
              (cstr "mx.example" ++ [NUL]) eq_refl eq_refl) as (_ & Hnul & _).
  exact (Hnul (cstr "mx.example") eq_refl).
Defined.

Lemma mail_witness :
  cur_cmd (parser (priv session_at_mail)) = cmd_letter RSPAMD_MILTER_CMD_MAIL
  /\ (NUL ∉ cstr "<a@x>")
  /\ rspamd_milter_process_command session_at_mail
     = Some (set_from (Some (cstr "<a@x>")) session_at_mail, true).
Proof.
  split; [reflexivity|]. split; [decided|].
  destruct (mail_takes_first_string session_at_mail
              (cstr "<a@x>" ++ [NUL] ++ cstr "SIZE=100" ++ [NUL])
              eq_refl eq_refl) as (_ & Hfirst & _).
  apply (Hfirst (cstr "<a@x>") (cstr "SIZE=100" ++ [NUL]) eq_refl);
    [decided|discriminate].
Defined.

Lemma rcpt_witness :
  cur_cmd (parser (priv session_at_rcpt)) = cmd_letter RSPAMD_MILTER_CMD_RCPT
  /\ Forall (fun a => (NUL ∉ a) /\ a ≠ []) [cstr "<b@y>"]
  /\ rcpt_tail rcpt_tail_scenario
  /\ exists session',
       rspamd_milter_process_command session_at_rcpt = Some (session', true)
       /\ rcpts session' = Some [cstr "<b@y>"; rcpt_tail_scenario].
Proof.
  assert (Hall : Forall (fun a => (NUL ∉ a) /\ a ≠ []) [cstr "<b@y>"]).
  { apply List.Forall_cons; [split; [decided|discriminate]|].
    apply List.Forall_nil. }
  assert (Htail : rcpt_tail rcpt_tail_scenario) by (right; left; reflexivity).
  split; [reflexivity|]. split; [exact Hall|]. split; [exact Htail|].
  destruct (rcpt_adds_every_string_that_parses session_at_rcpt
              (nul_terminated [cstr "<b@y>"] ++ rcpt_tail_scenario)
              eq_refl eq_refl) as [_ Hrun].
  destruct (Hrun [cstr "<b@y>"] rcpt_tail_scenario eq_refl Hall Htail)
    as (session' & Hcmd & Hrcpts & _).
  exists session'. split; [exact Hcmd|]. exact Hrcpts.
Defined.

Lemma connect_witness :
  cur_cmd (parser (priv session_at_connect)) = cmd_letter RSPAMD_MILTER_CMD_CONNECT
  /\ (NUL ∉ cstr "mx.example")
  /\ (NUL ∉ cstr "203.0.113.5")
  /\ rspamd_parse_inet_address_ip (cstr "203.0.113.5") = true
  /\ rspamd_milter_process_command session_at_connect
     = Some (connected session_at_connect (cstr "mx.example")
               {| af := AF_INET; addr_text := Some (cstr "203.0.113.5");
                  addr_port := 25 |}, true).
Proof.
  split; [reflexivity|]. split; [decided|]. split; [decided|].
  split; [reflexivity|].
  destruct (connect_stores_host_and_address session_at_connect connect_payload
              (cstr "mx.example") (cstr "203.0.113.5") "4" "000" "025"
              eq_refl eq_refl ltac:(decided) ltac:(decided))
    as (_ & _ & Haddr).
  destruct (Haddr eq_refl) as (_ & Hinet & _).
  exact (Hinet eq_refl eq_refl).
Defined.

Lemma connect_failure_witness :
  cur_cmd (parser (priv session_at_short_connect))
  = cmd_letter RSPAMD_MILTER_CMD_CONNECT
  /\ (NUL ∉ cstr "mx.example")
  /\ (NUL ∉ cstr "203.0.113.5")
  /\ rspamd_milter_process_command session_at_short_connect
     = Some (rspamd_milter_on_protocol_error
               (set_hostname (Some (cstr "mx.example")) session_at_short_connect)
               (g_error_new EINVAL
                  "invalid connect command (no zero terminated IP)"),
             false).
Proof.
  split; [reflexivity|]. split; [decided|]. split; [decided|].
  destruct (connect_failure_leaves_host_stored session_at_short_connect
              (cstr "mx.example" ++ [NUL; "4"; "000"; "025"]%char
               ++ cstr "203.0.113.5")
              (cstr "mx.example") (cstr "203.0.113.5") "4" "000" "025"
              eq_refl eq_refl ltac:(decided) ltac:(decided)
              ltac:(discriminate))
    as (_ & Hshort & _).
  apply (Hshort eq_refl). discriminate.
Defined.

Lemma macro_witness :
  cur_cmd (parser (priv session_at_macro)) = cmd_letter RSPAMD_MILTER_CMD_MACRO
  /\ Forall (fun nv => (NUL ∉ nv.1) /\ (NUL ∉ nv.2)) macro_scenario
  /\ exists session',
       rspamd_milter_process_command session_at_macro = Some (session', true)
       /\ default ∅ (macros session') !! rspamd_ftok_icase_key (cstr "i")
          = Some (cstr "4F2A")
       /\ hostname session' = Some (cstr "mx.example").
Proof.
  assert (Hall : Forall (fun nv => (NUL ∉ nv.1) /\ (NUL ∉ nv.2)) macro_scenario).
  { apply List.Forall_cons; [split; decided|].
    apply List.Forall_cons; [split; decided|]. apply List.Forall_nil. }
  split; [reflexivity|]. split; [exact Hall|].
  destruct (macro_stores_every_pair session_at_macro "C" macro_scenario
              eq_refl eq_refl Hall)
    as (session' & Hrun & Hmacros & Hhost & _ & Hlast).
  exists session'. split; [exact Hrun|]. split; [|exact Hhost].
  rewrite Hmacros.
  apply (Hlast [] [(cstr "{mail_host}", cstr "mx.example")] (cstr "i")
           (cstr "4F2A") eq_refl).
  apply List.Forall_cons; [|apply List.Forall_nil]. vm_compute. discriminate.
Defined.

Lemma quit_witness :
  cur_cmd (parser (priv session_at_quit)) = cmd_letter RSPAMD_MILTER_CMD_QUIT
  /\ out_chain (priv session_at_quit) ≠ []
  /\ exists session1 session2,
       rspamd_milter_process_command session_at_quit = Some (session1, true)
       /\ state (priv session1) = RSPAMD_MILTER_WRITE_AND_DIE
       /\ out_chain (priv session1) = out_chain (priv session_at_quit)
       /\ calls (priv session1) = calls (priv session_at_quit)
       /\ rspamd_milter_handle_session session1 io_written
          = Some (session2, true)
       /\ state (priv session2) = RSPAMD_MILTER_READ_MORE
       /\ out_chain (priv session2) = []
       /\ ev (priv session2) = Some EV_READ
       /\ calls (priv session2) = calls (priv session_at_quit).
Proof.
  assert (Hout : out_chain (priv session_at_quit) ≠ [])
    by (vm_compute; discriminate).
  split; [reflexivity|]. split; [exact Hout|].
  destruct (quit_with_replies_pending_goes_back_to_reading session_at_quit
              eq_refl) as [_ Hpending].
  exact (Hpending Hout).
Defined.

Lemma connect_ip6_str_witness :
  rspamd_lc_cmp (cstr "IPv6:") (cstr "IPv6:") = 0
  /\ 2 <= blen (cstr "::1") <= 46
  /\ connect_ip6_str (cstr "IPv6:::1") = cstr "[::1]".
Proof.
  assert (Hlen : 2 <= blen (cstr "::1") <= 46) by (vm_compute; split; discriminate).
  split; [reflexivity|]. split; [exact Hlen|].
  destruct (connect_ip6_str_fits_and_brackets (cstr "IPv6:::1"))
    as (_ & _ & Hprefix).
  exact (Hprefix (cstr "IPv6:") (cstr "::1") eq_refl eq_refl eq_refl Hlen).
Defined.

Lemma fresh_session_awaits_frame : awaits_frame fresh_session.
Proof. repeat split. Qed.

Lemma fresh_session_fits (payload : bytes) :
  blen payload <= 100 -> fits fresh_session payload.
Proof.
  intros Hlen. unfold fits. pose proof (blen_pos payload).
  change (RSPAMD_MILTER_MESSAGE_CHUNK) with 65536.
  change (allocated (buf (parser (priv fresh_session)))) with 65541. lia.
Qed.

Lemma read_of_one_frame_witness :
  awaits_frame fresh_session
  /\ rspamd_milter_is_valid_cmd "T" = true
  /\ fits fresh_session []
  /\ rspamd_milter_handle_session fresh_session (io_read (wire_frame "T" []))
     = match rspamd_milter_process_command (holds_frame fresh_session "T" []) with
       | Some (session', true) => Some (after_frame session', true)
       | Some (session', false) => Some (session', false)
       | None => None
       end.
Proof.
  pose proof (fresh_session_fits [] ltac:(vm_compute; discriminate)) as Hfits.
  split; [exact fresh_session_awaits_frame|]. split; [reflexivity|].
  split; [exact Hfits|].
  destruct Hfits as (Hchunk & Hbuf & Hword).
  destruct (read_of_one_frame_dispatches_its_payload fresh_session "T" []
              fresh_session_awaits_frame eq_refl Hchunk Hbuf Hword)
    as (_ & _ & Hread).
  exact Hread.
Defined.

Lemma message_witness :
  awaits_frame fresh_session
  /\ Forall (fun h => (NUL ∉ h.1) /\ (NUL ∉ h.2)
                      /\ fits fresh_session (header_payload h)) one_header
  /\ fits fresh_session []
  /\ Forall (fits fresh_session) one_chunk
  /\ exists session',
       feed fresh_session (message_frames one_header one_chunk)
       = Some (session', true)
       /\ message session'
          = Some (cstr "Subject: Hi" ++ ["013"; "010"; "013"; "010"]%char
                  ++ cstr "Hello").
Proof.
  assert (Hhs : Forall (fun h => (NUL ∉ h.1) /\ (NUL ∉ h.2)
                                 /\ fits fresh_session (header_payload h))
                       one_header).
  { apply List.Forall_cons; [|apply List.Forall_nil].
    split; [decided|]. split; [decided|].
    apply fresh_session_fits. vm_compute. discriminate. }
  assert (Hbs : Forall (fits fresh_session) one_chunk).
  { apply List.Forall_cons; [|apply List.Forall_nil].
    apply fresh_session_fits. vm_compute. discriminate. }
  pose proof (fresh_session_fits [] ltac:(vm_compute; discriminate)) as Hfits.
  split; [exact fresh_session_awaits_frame|]. split; [exact Hhs|].
  split; [exact Hfits|]. split; [exact Hbs|].
  destruct (message_is_assembled_from_its_frames fresh_session one_header
              one_chunk fresh_session_awaits_frame Hhs Hfits Hbs)
    as (session' & Hfeed & Hmsg & _).
  exists session'. split; [exact Hfeed|]. exact Hmsg.
Defined.

Lemma verdict_without_action_witness :
  (Some verdict_without_action = None
   \/ exists r, Some verdict_without_action = Some r
                /\ ucl_object_lookup r "action" = None)
  /\ out_chain (priv (rspamd_milter_send_task_results milter_ctx_defaults
                        fresh_session (Some verdict_without_action)))
     = [out_frame "t" []].
Proof.
  assert (Hno : Some verdict_without_action = None
                \/ exists r, Some verdict_without_action = Some r
                             /\ ucl_object_lookup r "action" = None).
  { right. exists verdict_without_action. split; reflexivity. }
  split; [exact Hno|].
  destruct (verdict_without_action_is_tempfail milter_ctx_defaults fresh_session
              (Some verdict_without_action) Hno) as (Hout & _).
  exact Hout.
Defined.

Lemma soft_reject_verdict_witness :
  ucl_object_lookup soft_reject_verdict "action"
  = Some (UCL_STRING (cstr "soft reject"))
  /\ results_action (UCL_STRING (cstr "soft reject")) = METRIC_ACTION_SOFT_REJECT
  /\ out_chain (priv (rspamd_milter_send_task_results milter_ctx_defaults
                        fresh_session (Some soft_reject_verdict)))
     = [out_frame "y" (cstr "451 4.7.1 Try again later" ++ [NUL]);
        out_frame "r" []].
Proof.
  split; [reflexivity|]. split; [reflexivity|].
  exact (soft_reject_verdict_replies_451_and_rejects milter_ctx_defaults
           fresh_session soft_reject_verdict (UCL_STRING (cstr "soft reject"))
           eq_refl eq_refl eq_refl).
Defined.


Lemma rewrite_subject_verdict_witness :
  ucl_object_lookup rewrite_subject_verdict "action"
  = Some (UCL_STRING (cstr "rewrite subject"))
  /\ results_action (UCL_STRING (cstr "rewrite subject"))
     = METRIC_ACTION_REWRITE_SUBJECT
  /\ out_chain (priv (rspamd_milter_send_task_results milter_ctx_defaults
                        fresh_session (Some rewrite_subject_verdict)))
     = [out_frame "m" (htonl_bytes 1 ++ cstr "Subject" ++ [NUL]
                       ++ cstr "*** SPAM *** Hi" ++ [NUL]);
        out_frame "a" []].
Proof.
  split; [reflexivity|]. split; [reflexivity|].
  destruct (@rewrite_subject_verdict_changes_first_subject milter_defaults
              milter_ctx_defaults fresh_session rewrite_subject_verdict
              (UCL_STRING (cstr "rewrite subject")) eq_refl eq_refl eq_refl
              eq_refl eq_refl) as [Hsubject _].
  exact (Hsubject (cstr "*** SPAM *** Hi") eq_refl).
Defined.

Lemma no_action_verdict_witness :
  ucl_object_lookup no_action_verdict "action"
  = Some (UCL_STRING (cstr "reject"))
  /\ no_action (priv (fst (apply_milter_and_dkim milter_ctx_defaults
                             fresh_session no_action_verdict
                             METRIC_ACTION_REJECT))) = true
  /\ out_chain (priv (rspamd_milter_send_task_results milter_ctx_defaults
                        fresh_session (Some no_action_verdict)))
     = [out_frame "h" (cstr "X-Spam-Action" ++ [NUL] ++ cstr "reject" ++ [NUL]);
        out_frame "a" []].
Proof.
  split; [reflexivity|]. split; [reflexivity|].
  exact (no_action_flag_turns_every_action_into_accept milter_ctx_defaults
           fresh_session no_action_verdict (UCL_STRING (cstr "reject"))
           (cstr "reject") eq_refl eq_refl eq_refl eq_refl).
Defined.

Lemma milter_block_flags_witness :
  ucl_object_lookup discard_verdict "action" = Some (UCL_STRING (cstr "reject"))
  /\ ucl_object_lookup discard_verdict "milter"
     = Some (UCL_OBJECT [(cstr "reject", UCL_STRING (cstr "discard"))])
  /\ session_flags (rspamd_milter_send_task_results milter_ctx_defaults
                      fresh_session (Some discard_verdict)) = (true, false)
  /\ forall how,
       session_flags (rspamd_milter_session_reset
                        (rspamd_milter_send_task_results milter_ctx_defaults
                           fresh_session (Some discard_verdict)) how)
       = session_flags (rspamd_milter_send_task_results milter_ctx_defaults
                          fresh_session (Some discard_verdict)).
Proof.
  split; [reflexivity|]. split; [reflexivity|].
  exact (milter_block_flags_stay_with_the_session milter_ctx_defaults
           fresh_session discard_verdict (UCL_STRING (cstr "reject"))
           [(cstr "reject", UCL_STRING (cstr "discard"))] eq_refl eq_refl).
Defined.

Lemma added_header_order_witness :
  ucl_object_lookup ordered_entry "value" = Some (UCL_STRING (cstr "one"))
  /\ ucl_object_lookup_any ordered_entry "order" "index" = Some (UCL_INT 0)
  /\ ucl_object_lookup plain_entry "value" = Some (UCL_STRING (cstr "two"))
  /\ ucl_object_lookup_any plain_entry "order" "index" = None
  /\ out_chain (priv (fst (rspamd_milter_process_milter_block milter_ctx_defaults
                             fresh_session two_headers_block
                             METRIC_ACTION_NOACTION)))
     = [out_frame "i" (htonl_bytes 0 ++ cstr "X-First" ++ [NUL] ++ cstr "one"
                       ++ [NUL]);
        out_frame "i" (htonl_bytes 0 ++ cstr "X-Second" ++ [NUL] ++ cstr "two"
                       ++ [NUL])].
Proof.
  split; [reflexivity|]. split; [reflexivity|]. split; [reflexivity|].
  split; [reflexivity|].
  destruct (added_header_inherits_the_order_before_it milter_ctx_defaults
              fresh_session two_headers_block ordered_entry plain_entry
              (cstr "X-First") (cstr "X-Second") (cstr "one") (cstr "two") 0
              METRIC_ACTION_NOACTION eq_refl eq_refl eq_refl eq_refl eq_refl
              eq_refl eq_refl ltac:(lia)) as [Hordered _].
  exact (Hordered eq_refl).
Defined.

Lemma library_context_witness :
  ucl_object_lookup reject_verdict "action" = Some (UCL_STRING (cstr "reject"))
  /\ results_action (UCL_STRING (cstr "reject")) = METRIC_ACTION_REJECT
  /\ out_chain (priv (rspamd_milter_send_task_results
                        (rspamd_milter_init_library None true)
                        (rspamd_milter_session_new
                           (rspamd_milter_init_library None true))
                        (Some reject_verdict)))
     = [out_frame "d" []].
Proof.
  split; [reflexivity|]. split; [reflexivity|].
  destruct (@library_context_decides_reject_and_spam_header milter_defaults
              None true
              reject_verdict (UCL_STRING (cstr "reject")) eq_refl eq_refl
              eq_refl) as [Hreject _].
  exact (Hreject eq_refl).
Defined.

Lemma add_header_witness :
  blen (cstr "X-Virus") + blen (cstr "clean") + 3 < 2 ^ 32
  /\ exists session',
       rspamd_milter_add_header fresh_session (cstr "X-Virus") (cstr "clean")
       = (session', true)
       /\ out_chain (priv session')
          = [out_frame "h" (cstr "X-Virus" ++ [NUL] ++ cstr "clean" ++ [NUL])]
       /\ decode_frame (wire_frame "h" (cstr "X-Virus" ++ [NUL] ++ cstr "clean"
                                        ++ [NUL]))
          = Some ("h"%char, cstr "X-Virus" ++ [NUL] ++ cstr "clean" ++ [NUL]).
Proof.
  assert (Hlen : blen (cstr "X-Virus") + blen (cstr "clean") + 3 < 2 ^ 32)
    by reflexivity.
  split; [exact Hlen|].
  destruct (add_header_enqueues_name_and_value fresh_session (cstr "X-Virus")
              (cstr "clean") Hlen)
    as (session' & Hrun & Hout & _ & Hdecode & _).
  exists session'. split; [exact Hrun|]. split; [exact Hout|].
  exact (Hdecode eq_refl).
Defined.

Lemma frame_bounds_witness :
  awaits_frame fresh_session
  /\ 0 <= 131074 < 2 ^ 32
  /\ 1 <= 131074 < 2 ^ 31
  /\ blen (cstr "a") + 5 <= allocated (buf (parser (priv fresh_session)))
  /\ 131074 - 1 > RSPAMD_MILTER_MESSAGE_CHUNK * 2
  /\ exists session',
       rspamd_milter_handle_session fresh_session
         (io_read (htonl_bytes 131074 ++ ["B"%char] ++ cstr "a"))
       = Some (session', false)
       /\ state (priv session') = RSPAMD_MILTER_WANNA_DIE
       /\ calls (priv session')
          = calls (priv fresh_session)
            ++ [err_cb (g_error_new E2BIG "Command length is too big: %zd")].
Proof.
  assert (Hn : 0 <= 131074 < 2 ^ 32) by lia.
  assert (Hfit : blen (cstr "a") + 5
                 <= allocated (buf (parser (priv fresh_session))))
    by (vm_compute; discriminate).
  assert (Hbig : 131074 - 1 > RSPAMD_MILTER_MESSAGE_CHUNK * 2) by reflexivity.
  split; [exact fresh_session_awaits_frame|]. split; [exact Hn|].
  split; [lia|]. split; [exact Hfit|]. split; [exact Hbig|].
  destruct (frame_bounds_are_checked_behind_the_command_byte fresh_session
              131074 "B" (cstr "a") fresh_session_awaits_frame Hn Hfit)
    as (_ & Hrefused & _).
  apply Hrefused; [lia|exact Hbig|discriminate].
Defined.

End OnBytes.
